(** * Attendance reconciliation: a shallow embedding of [execute.py]

    The development follows the analysis pipeline of the attendance
    report generator:

    - the calendar policy ([is_workday_from_calendar]),
    - time-expression parsing ([parse_datetime_str]),
    - interval merging ([merge_two_datetime_periods],
      [merge_datetime_periods], [calculate_datetime_minutes]),
    - the absence resolver ([process_absence_record],
      [get_raw_absence_hours], [get_absence_description]),
    - the lunch adjustment ([get_actual_absence_hours]),
    - the per-day classification and the run over employees and days
      ([analyze_attendance]), and the exception summary rows built by
      [save_reports],
    - the roster filter ([filter_employees]), the calendar file reader
      ([read_calendar_file]), the cell colours ([get_status_color],
      [get_cell_color]) and what [main] does with the tables,
    - the calendar generator of [generate_calendar_2025.py].

    Modelling conventions.

    - A Python [date] is its proleptic Gregorian ordinal
      ([date.toordinal()]), a naive [datetime] is the number of
      microseconds since the midnight that starts ordinal 0.  Comparison,
      [min], [max] and subtraction of datetimes are then those of [Z].
    - A Python [str] is a [string]; its characters are the bytes of its
      UTF-8 encoding.  Substring tests and lexicographic comparison are
      the same on code points and on UTF-8 bytes.  Whitespace and digits
      are the ASCII ones, where Python's are those of Unicode; the two
      agree on plain text ([plain_text]: ASCII characters and CJK
      ideographs).
    - Hours are Python floats.  A float is the rational number it
      denotes, and a float operation is the exact operation followed by
      the rounding [fl] to the nearest binary64 number; the day's
      computation of [analyze_attendance] is written so.  The absence
      resolver is kept in exact arithmetic: its hours are the quotient
      of whole minutes by 60, of which the float that the code returns
      is the rounding ([float_of_absence_hours]), and the rounding is
      done where the day's computation takes the hours up.
      [int(delta.total_seconds() / 60)] is the quotient of the
      microsecond count by 60_000_000 truncated toward zero, which is what
      the float computation yields for every duration below a century.
    - A raised exception is the [None] of an [option].
    - A pandas table is the list of its rows. *)

From Stdlib Require Import ZArith List Lia Bool QArith Qminmax Qround Qabs Lqa.
From Stdlib Require Import Ascii String Permutation Sorted.
From stdpp Require Import gmap strings.
Import ListNotations.
Open Scope Z_scope.

(** * Part I: the program *)

(** ** Dates and datetimes *)

Abbreviation date := Z (only parsing).
Abbreviation datetime := Z (only parsing).

Definition us_per_second : Z := 1000000.
Definition us_per_minute : Z := 60 * us_per_second.
Definition us_per_hour : Z := 60 * us_per_minute.
Definition us_per_day : Z := 24 * us_per_hour.

(** [datetime.combine(d, time(hh, mm))] and [t.date()]. *)
Definition time_of_day (hh mm : Z) : Z := hh * us_per_hour + mm * us_per_minute.
Definition combine (d : date) (tod : Z) : datetime := d * us_per_day + tod.
Definition date_of (t : datetime) : date := t / us_per_day.
Definition tod_of (t : datetime) : Z := t mod us_per_day.

(** The calendar arithmetic of Python's [datetime] module. *)
Definition is_leap (y : Z) : bool :=
  (y mod 4 =? 0) && (negb (y mod 100 =? 0) || (y mod 400 =? 0)).

Definition days_before_year (y : Z) : Z :=
  (y - 1) * 365 + (y - 1) / 4 - (y - 1) / 100 + (y - 1) / 400.

Definition days_in_month_table (m : Z) : Z :=
  match m with
  | 1 => 31 | 2 => 28 | 3 => 31 | 4 => 30 | 5 => 31 | 6 => 30
  | 7 => 31 | 8 => 31 | 9 => 30 | 10 => 31 | 11 => 30 | 12 => 31
  | _ => 0
  end.

Definition days_before_month_table (m : Z) : Z :=
  match m with
  | 1 => 0 | 2 => 31 | 3 => 59 | 4 => 90 | 5 => 120 | 6 => 151
  | 7 => 181 | 8 => 212 | 9 => 243 | 10 => 273 | 11 => 304 | 12 => 334
  | _ => 0
  end.

Definition days_in_month (y m : Z) : Z :=
  if (m =? 2) && is_leap y then 29 else days_in_month_table m.

Definition days_before_month (y m : Z) : Z :=
  days_before_month_table m + (if (2 <? m) && is_leap y then 1 else 0).

Definition ymd2ord (y m d : Z) : date :=
  days_before_year y + days_before_month y m + d.

Definition DI400Y : Z := 146097.
Definition DI100Y : Z := 36524.
Definition DI4Y : Z := 1461.

(** The month and the day of the month of day [n] (from 0) of a year. *)
Definition month_day_of (n : Z) (leapyear : bool) : Z * Z :=
  let month := Z.shiftr (n + 50) 5 in
  let preceding :=
    days_before_month_table month
    + (if (2 <? month) && leapyear then 1 else 0) in
  if n <? preceding then
    let month := month - 1 in
    let preceding :=
      preceding
      - (days_in_month_table month
         + (if (month =? 2) && leapyear then 1 else 0)) in
    (month, n - preceding + 1)
  else (month, n - preceding + 1).

Definition ord2ymd (n0 : date) : Z * Z * Z :=
  let n := n0 - 1 in
  let n400 := n / DI400Y in
  let n := n mod DI400Y in
  let year := n400 * 400 + 1 in
  let n100 := n / DI100Y in
  let n := n mod DI100Y in
  let n4 := n / DI4Y in
  let n := n mod DI4Y in
  let n1 := n / 365 in
  let n := n mod 365 in
  let year := year + n100 * 100 + n4 * 4 + n1 in
  if (n1 =? 4) || (n100 =? 4) then (year - 1, 12, 31)
  else
    let leapyear := (n1 =? 3) && (negb (n4 =? 24) || (n100 =? 3)) in
    let '(month, day) := month_day_of n leapyear in
    (year, month, day).

(** [d.weekday()]: Monday is 0, Sunday is 6. *)
Definition weekday (d : date) : Z := (d + 6) mod 7.

(** The [date(y, m, d)] constructor: [ValueError] outside the calendar. *)
Definition valid_ymd (y m d : Z) : bool :=
  (1 <=? y) && (y <=? 9999) && (1 <=? m) && (m <=? 12)
  && (1 <=? d) && (d <=? days_in_month y m).

Definition mk_date (y m d : Z) : option date :=
  if valid_ymd y m d then Some (ymd2ord y m d) else None.

(** ** Interval merging *)

Abbreviation period := (Z * Z)%type (only parsing).

Definition merge_two_datetime_periods (period1 period2 : period)
  : option period :=
  let '(start1, end1) := period1 in
  let '(start2, end2) := period2 in
  if (end1 <? start2) || (end2 <? start1) then None
  else Some (Z.min start1 start2, Z.max end1 end2).

(** [sorted(l, key=...)].  Python's sort is stable: an element goes
    before the first later element whose key is not smaller.  [le x y]
    compares the key of [x] with the key of [y]. *)
Fixpoint insert_sorted {A : Type} (le : A -> A -> bool) (x : A) (l : list A)
  : list A :=
  match l with
  | [] => [x]
  | y :: l' => if le x y then x :: y :: l' else y :: insert_sorted le x l'
  end.

Definition py_sorted {A : Type} (le : A -> A -> bool) (l : list A) : list A :=
  fold_right (insert_sorted le) [] l.

(** [sorted(periods, key=lambda x: x[0])] *)
Definition start_leb (p q : period) : bool := fst p <=? fst q.
Abbreviation insert_by_start := (insert_sorted start_leb).
Abbreviation sorted_by_start := (py_sorted start_leb).

(** The [while i < len(sorted_periods) - 1] loop.  [cur] is
    [sorted_periods[i]], [rest] is what follows it; the entries before
    index [i] are final and are emitted as the loop leaves them. *)
Fixpoint sweep (cur : period) (rest : list period) : list period :=
  match rest with
  | [] => [cur]
  | nxt :: rest' =>
      match merge_two_datetime_periods cur nxt with
      | Some result => sweep result rest'
      | None => cur :: sweep nxt rest'
      end
  end.

Definition merge_datetime_periods (periods : list period) : list period :=
  match periods with
  | [] => []
  | _ =>
      match sorted_by_start periods with
      | [] => []
      | first :: rest => sweep first rest
      end
  end.

(** [int(delta.total_seconds() / 60)] for [delta = end - start]. *)
Definition timedelta_minutes (start_ end_ : datetime) : Z :=
  Z.quot (end_ - start_) us_per_minute.

Definition calculate_datetime_minutes (periods : list period) : Z :=
  fold_left (fun total_minutes p => total_minutes + timedelta_minutes (fst p) (snd p))
            periods 0.

(** ** Vocabulary of the statements about intervals *)

Definition valid (p : period) : Prop := fst p <= snd p.
Definition start_le (p q : period) : Prop := fst p <= fst q.
Definition apart (p q : period) : Prop := snd p < fst q.

(** Coverage, on a grid twice as fine as the time line, so that the gap
    between two periods that are apart always holds a grid point. *)
Definition covers (g : Z) (p : period) : Prop := 2 * fst p <= g <= 2 * snd p.
Definition covered (l : list period) (g : Z) : Prop := Exists (covers g) l.

(** Valid periods, each ending before every later one starts. *)
Definition chain (l : list period) : Prop :=
  Forall valid l /\ StronglySorted apart l.

(** Both ends on a whole minute, as for every period read from an
    ['%Y-%m-%d %H:%M'] expression. *)
Definition on_minute (t : datetime) : Prop := (us_per_minute | t).
Definition aligned (p : period) : Prop := on_minute (fst p) /\ on_minute (snd p).

(** Neither overlapping nor touching. *)
Definition strictly_disjoint (p q : period) : Prop :=
  snd p < fst q \/ snd q < fst p.

(** The datetime [y-m-d hh:mm:00], for writing examples. *)
Definition datetime_at (y m d hh mm : Z) : datetime :=
  combine (ymd2ord y m d) (time_of_day hh mm).

(** ** Strings *)

(** A [str] as the list of its characters. *)
Abbreviation chars := (list ascii) (only parsing).

Definition is_space (c : ascii) : bool :=
  let n := Z.of_N (N_of_ascii c) in
  ((9 <=? n) && (n <=? 13)) || ((28 <=? n) && (n <=? 32)).

Definition is_digit (c : ascii) : bool :=
  let n := Z.of_N (N_of_ascii c) in (48 <=? n) && (n <=? 57).

Definition digit_val (c : ascii) : Z := Z.of_N (N_of_ascii c) - 48.

(** Text in which Python sees no whitespace and no decimal digit other
    than the ASCII ones: ASCII characters and the three-byte encodings
    of U+4000 to U+9FFF, the CJK ideographs, none of which is a blank or
    a digit.  On such text [str.strip], [str.split], [\s], [\d] and
    [int] are the functions below. *)
Definition is_continuation (c : ascii) : bool :=
  let n := Z.of_N (N_of_ascii c) in (128 <=? n) && (n <=? 191).

Fixpoint plain_text (s : chars) : bool :=
  match s with
  | [] => true
  | a :: r =>
      let n := Z.of_N (N_of_ascii a) in
      if n <? 128 then plain_text r
      else
        match r with
        | b :: c :: r' =>
            (228 <=? n) && (n <=? 233)
            && is_continuation b && is_continuation c && plain_text r'
        | _ => false
        end
  end.

Definition plain_string (s : string) : Prop :=
  plain_text (list_ascii_of_string s) = true.

(** [s.strip()] *)
Fixpoint lstrip (s : chars) : chars :=
  match s with
  | c :: s' => if is_space c then lstrip s' else s
  | [] => []
  end.

Definition strip (s : chars) : chars := rev (lstrip (rev (lstrip s))).

(** [s.split()]: the maximal runs of characters that are not whitespace. *)
Fixpoint split (s : chars) : list chars :=
  match s with
  | [] => []
  | c :: s' =>
      if is_space c then split s'
      else
        match s' with
        | [] => [[c]]
        | c' :: _ =>
            if is_space c' then [c] :: split s'
            else
              match split s' with
              | tok :: toks => (c :: tok) :: toks
              | [] => [[c]]
              end
        end
  end.

(** [needle in s] *)
Fixpoint starts_with (needle s : chars) : bool :=
  match needle, s with
  | [], _ => true
  | a :: needle', b :: s' => Ascii.eqb a b && starts_with needle' s'
  | _ :: _, [] => false
  end.

Fixpoint contains (needle s : chars) : bool :=
  starts_with needle s
  || match s with
     | [] => false
     | _ :: s' => contains needle s'
     end.

(** The markers [上午] (morning) and [下午] (afternoon), in UTF-8. *)
Definition morning_marker : chars := list_ascii_of_string "上午".
Definition afternoon_marker : chars := list_ascii_of_string "下午".

(** ** [datetime.strptime]

    [strptime] turns the format into a regular expression and matches it
    at the start of the input; input left over is an error.  The
    directives used here are
    - [%Y]: [\d\d\d\d],
    - [%m]: [1[0-2]|0[1-9]|[1-9]],
    - [%d]: [3[01]|[12]\d|0[1-9]|[1-9]| [1-9]],
    - [%H]: [2[0-3]|[0-1]\d|\d],
    - [%M]: [[0-5]\d|\d],
    and a blank in the format stands for [\s+].  Every numeric directive
    is followed by a separator that is not a digit or by the end of the
    format, so the expression matches exactly when the maximal run of
    digits at that place has an admissible length and value; that is how
    the directives are read below. *)

Fixpoint span_digits (s : chars) : chars * chars :=
  match s with
  | c :: s' =>
      if is_digit c then let (d, r) := span_digits s' in (c :: d, r)
      else ([], s)
  | [] => ([], [])
  end.

Definition digits_value (d : chars) : Z :=
  fold_left (fun acc c => 10 * acc + digit_val c) d 0.

Definition number_field (min_len max_len : nat) (lo hi : Z) (s : chars)
  : option (Z * chars) :=
  let (d, r) := span_digits s in
  let v := digits_value d in
  if (min_len <=? length d)%nat && (length d <=? max_len)%nat
     && (lo <=? v) && (v <=? hi)
  then Some (v, r) else None.

Definition expect (x : ascii) (s : chars) : option chars :=
  match s with
  | c :: r => if Ascii.eqb c x then Some r else None
  | [] => None
  end.

Definition directive_Y : chars -> option (Z * chars) := number_field 4 4 0 9999.
Definition directive_m : chars -> option (Z * chars) := number_field 1 2 1 12.
Definition directive_H : chars -> option (Z * chars) := number_field 1 2 0 23.
Definition directive_M : chars -> option (Z * chars) := number_field 1 2 0 59.

Definition directive_d (s : chars) : option (Z * chars) :=
  match s with
  | c :: s' =>
      if Ascii.eqb c " " then number_field 1 1 1 9 s'
      else number_field 1 2 1 31 s
  | [] => None
  end.

(** [\s+] *)
Definition spaces1 (s : chars) : option chars :=
  match s with
  | c :: r => if is_space c then Some (lstrip r) else None
  | [] => None
  end.

(** The match of ['%Y-%m-%d'] at the start of [s], and what follows it. *)
Definition match_date (s : chars) : option (Z * Z * Z * chars) :=
  '(y, r) ← directive_Y s;
  r ← expect "-" r;
  '(m, r) ← directive_m r;
  r ← expect "-" r;
  '(d, r) ← directive_d r;
  Some (y, m, d, r).

(** The match of ['%H:%M'] at the start of [s], and what follows it. *)
Definition match_time (s : chars) : option (Z * Z * chars) :=
  '(hh, r) ← directive_H s;
  r ← expect ":" r;
  '(mm, r) ← directive_M r;
  Some (hh, mm, r).

(** [datetime.strptime(s, '%Y-%m-%d')], as the date it falls on (the
    time is midnight). *)
Definition strptime_date (s : chars) : option date :=
  '(y, m, d, r) ← match_date s;
  match r with
  | [] => mk_date y m d
  | _ :: _ => None
  end.

(** [datetime.strptime(s, '%Y-%m-%d %H:%M')] *)
Definition strptime_datetime (s : chars) : option datetime :=
  '(y, m, d, r) ← match_date s;
  r ← spaces1 r;
  '(hh, mm, r) ← match_time r;
  match r with
  | [] => day ← mk_date y m d; Some (combine day (time_of_day hh mm))
  | _ :: _ => None
  end.

(** ** Time expressions *)

Definition parse_datetime_str (date_time_str : string) (is_end_time : bool)
  : option datetime :=
  let date_time_str := strip (list_ascii_of_string date_time_str) in
  match strptime_datetime date_time_str with
  | Some t => Some t
  | None =>
      match split date_time_str with
      | [] => None
      | date_str :: parts1 =>
          let time_str := match parts1 with t :: _ => t | [] => [] end in
          match strptime_date date_str with
          | None => None
          | Some base_date =>
              match time_str with
              | [] =>
                  let default_time :=
                    list_ascii_of_string (if is_end_time then "18:00" else "09:00") in
                  strptime_datetime (date_str ++ " "%char :: default_time)
              | _ :: _ =>
                  if contains morning_marker time_str then
                    if is_end_time
                    then strptime_datetime (date_str ++ list_ascii_of_string " 12:00")
                    else strptime_datetime (date_str ++ list_ascii_of_string " 09:00")
                  else if contains afternoon_marker time_str then
                    if is_end_time
                    then strptime_datetime (date_str ++ list_ascii_of_string " 18:00")
                    else strptime_datetime (date_str ++ list_ascii_of_string " 13:00")
                  else strptime_datetime (date_str ++ " "%char :: time_str)
              end
          end
      end
  end.

(** ** Formatting *)

Definition digit_char (n : Z) : ascii := ascii_of_N (Z.to_N (48 + n mod 10)).

(** ['%02d'] and ['%04d'] on the numbers that occur in dates and times. *)
Definition fmt2 (n : Z) : chars := [digit_char (n / 10); digit_char n].
Definition fmt4 (n : Z) : chars :=
  [digit_char (n / 1000); digit_char (n / 100); digit_char (n / 10); digit_char n].

(** [str(d)] and [d.strftime('%Y-%m-%d')] for a date [d]. *)
Definition isoformat (d : date) : string :=
  let '(y, m, dd) := ord2ymd d in
  string_of_list_ascii (fmt4 y ++ "-"%char :: fmt2 m ++ "-"%char :: fmt2 dd).

(** [t.strftime('%H:%M')] *)
Definition strftime_HM (t : datetime) : string :=
  let tod := tod_of t in
  string_of_list_ascii
    (fmt2 (tod / us_per_hour) ++ ":"%char :: fmt2 (tod mod us_per_hour / us_per_minute)).

(** ** Calendar policy *)

Definition is_workday_from_calendar
    (date_obj : date) (work_days holiday_days : gset string) : bool :=
  let date_str := isoformat date_obj in
  if bool_decide (date_str ∈ holiday_days) then false
  else if bool_decide (date_str ∈ work_days) then true
  else weekday date_obj <? 5.

(** ** Absence resolver *)

(** A row of one of the three absence tables (leave, out-of-office,
    business travel): columns [姓名], [状态], the type column ([休假类型] or
    [类型]), [开始时间], [结束时间]; each cell as [str] shows it. *)
Record absence_row := {
  ab_name : string;
  ab_status : string;
  ab_type : string;
  ab_start : string;
  ab_end : string
}.

Definition status_effective : string := "已生效".
Definition status_pending : string := "未生效".

(** [(df['姓名'] == name) & (df['状态'].isin(['已生效', '未生效']))] *)
Definition row_selected (name : string) (r : absence_row) : bool :=
  String.eqb (ab_name r) name
  && (String.eqb (ab_status r) status_effective
      || String.eqb (ab_status r) status_pending).

Definition process_absence_record
    (record : absence_row) (target_date workday_start workday_end : datetime)
  : option period :=
  match parse_datetime_str (ab_start record) false,
        parse_datetime_str (ab_end record) true with
  | Some start_time, Some end_time =>
      if (date_of end_time <? date_of target_date)
         || (date_of target_date <? date_of start_time)
      then None
      else
        let intersection_start := Z.max start_time workday_start in
        let intersection_end := Z.min end_time workday_end in
        if intersection_end <=? intersection_start then None
        else Some (intersection_start, intersection_end)
  | _, _ => None
  end.

(** The periods that [process_absence_record] keeps, over the selected
    rows of every table, in table and row order. *)
Definition clipped_periods
    (name : string) (target_date : datetime) (absence_dfs : list (list absence_row))
  : list (absence_row * period) :=
  let workday_start := target_date + time_of_day 9 0 in
  let workday_end := target_date + time_of_day 18 0 in
  flat_map
    (fun df =>
       flat_map
         (fun record =>
            match process_absence_record record target_date workday_start workday_end with
            | Some time_period => [(record, time_period)]
            | None => []
            end)
         (List.filter (row_selected name) df))
    absence_dfs.

(** Hours as a quotient of whole minutes. *)
Definition hours_of_minutes (total_minutes : Z) : Q := inject_Z total_minutes / 60.

Definition get_raw_absence_hours
    (name : string) (day : string) (absence_dfs : list (list absence_row))
  : option (Q * list period) :=
  day_ord ← strptime_date (list_ascii_of_string day);
  let target_date := combine day_ord 0 in
  let all_time_periods := map snd (clipped_periods name target_date absence_dfs) in
  match all_time_periods with
  | [] => Some (0%Q, [])
  | _ :: _ =>
      let merged_periods := merge_datetime_periods all_time_periods in
      let total_minutes := calculate_datetime_minutes merged_periods in
      let total_hours := hours_of_minutes total_minutes in
      Some (Qmin total_hours 9, merged_periods)
  end.

(** ** Lunch adjustment *)

Definition get_actual_absence_hours (merged_periods : list period) : Q :=
  match merged_periods with
  | [] => 0%Q
  | first :: _ =>
      let reference_date := date_of (fst first) in
      let lunch_break_start := combine reference_date (time_of_day 12 0) in
      let lunch_break_end := combine reference_date (time_of_day 13 0) in
      let all_periods := merged_periods ++ [(lunch_break_start, lunch_break_end)] in
      let merged_periods := merge_datetime_periods all_periods in
      let merged_periods :=
        List.filter
          (fun period =>
             negb ((fst period =? lunch_break_start) && (snd period =? lunch_break_end)))
          merged_periods in
      let total_minutes := calculate_datetime_minutes merged_periods in
      Qmin (hours_of_minutes total_minutes) 9
  end.

(** ** Absence description *)

Fixpoint join (sep : string) (l : list string) : string :=
  match l with
  | [] => ""
  | [s] => s
  | s :: l' => s +:+ sep +:+ join sep l'
  end.

Definition get_absence_description
    (name : string) (day : string) (absence_dfs : list (list absence_row))
  : option string :=
  day_ord ← strptime_date (list_ascii_of_string day);
  let target_date := combine day_ord 0 in
  Some
    (join "; "
       (map (fun '(record, time_period) =>
               ab_type record +:+ "[" +:+ strftime_HM (fst time_period)
               +:+ "-" +:+ strftime_HM (snd time_period) +:+ "]")
            (clipped_periods name target_date absence_dfs))).

Definition get_absence_hours
    (name : string) (day : string) (xiujia_df waichu_df chuchai_df : list absence_row)
  : option (Q * Q * string) :=
  let absence_dfs := [xiujia_df; waichu_df; chuchai_df] in
  '(raw_hours, merged_periods) ← get_raw_absence_hours name day absence_dfs;
  let actual_hours := get_actual_absence_hours merged_periods in
  description ← get_absence_description name day absence_dfs;
  Some (raw_hours, actual_hours, description).

(** ** Floats *)

Definition Qltb (x y : Q) : bool := (Qnum x * QDen y <? Qnum y * QDen x)%Z.

(** [round(x)]: to the nearest integer, ties to the even one. *)
Definition py_round (x : Q) : Z :=
  let f := Qfloor x in
  let r := (x - inject_Z f)%Q in
  if Qltb r (1 # 2) then f
  else if Qltb (1 # 2) r then f + 1
  else if Z.even f then f else f + 1.

(** The binary64 number nearest to [x], ties to the even one: what a
    float operation returns when [x] is its exact result.  [s] is [x] in
    units of [2^-1074], the smallest positive float, and [k] is the
    number of low bits of [s] that do not fit in the 53 bits of a float.
    The result is in lowest terms.  The numbers of this program are far
    below the largest float. *)
Definition fl (x : Q) : Q :=
  let s := (Qred x * inject_Z (2 ^ 1074))%Q in
  let k := Z.max 0 (Z.log2 (Qfloor (Qabs s)) - 52) in
  Qred (inject_Z (py_round (s / inject_Z (2 ^ k)) * 2 ^ k) / inject_Z (2 ^ 1074)).

(** [Timedelta.total_seconds()] (pandas 2):
    [days * 24 * 3600 + seconds + microseconds / 1_000_000], an [int]
    plus a float. *)
Definition total_seconds (delta : Z) : Q :=
  fl (inject_Z (delta / us_per_second)
      + fl (inject_Z (delta mod us_per_second) / 1000000)).

(** ** Classification *)

Inductive status : Type :=
| Normal
| NoPunch
| SinglePunchMissing
| InsufficientAttendance.

(** The label written to the [状态] column. *)
Definition status_label (s : status) : string :=
  match s with
  | Normal => "正常"
  | NoPunch => "未打卡"
  | SinglePunchMissing => "上/下班漏打卡"
  | InsufficientAttendance => "出勤不足"
  end.

(** [max(0, 8.75 - actual_absence_hours)] *)
Definition required_hours_of (actual_absence_hours : Q) : Q :=
  Qmax 0 (fl (8.75 - actual_absence_hours)).

(** The [if]/[elif] chain that sets [status], which starts as [正常]. *)
Definition classify (record_count : nat) (work_hours required_hours : Q) : status :=
  if (record_count =? 0)%nat && Qltb 0 required_hours then NoPunch
  else if (record_count =? 1)%nat && Qltb work_hours required_hours
       then SinglePunchMissing
  else if Qltb work_hours required_hours then InsufficientAttendance
  else if Qle_bool required_hours work_hours then Normal
  else Normal.

(** [round(x, 2)] of a float: the decimal with two places nearest to
    [x], ties to the even one, and then the float nearest to that
    decimal. *)
Definition round2 (x : Q) : Q := fl (inject_Z (py_round (x * 100)) / 100).

(** [max(0, round((9 - actual_absence_hours - work_hours) * 60))] *)
Definition actual_absence_minutes_of (actual_absence_hours work_hours : Q) : Z :=
  Z.max 0 (py_round (fl (fl (fl (9 - actual_absence_hours) - work_hours) * 60))).

(** ** Reconciliation *)

(** A row of the badge-event table: [持卡人员] and the [事件时间] cell,
    [None] when the cell does not hold a time. *)
Record badge_event := {
  ev_holder : string;
  ev_time : option datetime
}.

(** The range of a pandas [Timestamp]:
    1677-09-21 00:12:43.145225 to 2262-04-11 23:47:16.854775. *)
Definition timestamp_min : datetime :=
  combine (ymd2ord 1677 9 21) (time_of_day 0 12 + 43 * us_per_second + 145225).
Definition timestamp_max : datetime :=
  combine (ymd2ord 2262 4 11) (time_of_day 23 47 + 16 * us_per_second + 854775).

(** [pd.to_datetime(..., errors='coerce')] then [dropna]: a cell that
    holds no time, or a time no [Timestamp] can hold, is dropped. *)
Definition to_datetime_coerce (cell : option datetime) : option datetime :=
  t ← cell;
  if (timestamp_min <=? t) && (t <=? timestamp_max) then Some t else None.

Definition coerce_events (kaoqin_df : list badge_event) : list (string * datetime) :=
  omap (fun e => t ← to_datetime_coerce (ev_time e); Some (ev_holder e, t)) kaoqin_df.

(** [Series.unique()] and the keys of a [dict] filled in row order: the
    first occurrences, in order. *)
Fixpoint unique {A : Type} `{EqDecision A} (l : list A) : list A :=
  match l with
  | [] => []
  | x :: l' => x :: List.filter (fun y => bool_decide (y ≠ x)) (unique l')
  end.

(** A row of the roster ([姓名], [部门]) and of the supplemental-card
    table ([姓名], the date of [借卡时间]). *)
Record employee_row := { emp_name : string; emp_dept : string }.
Record card_row := { card_name : string; card_date : date }.

(** [employee_df[['姓名', '部门']].set_index('姓名').to_dict()['部门']] *)
Definition employee_info_of (employee_df : list employee_row) : gmap string string :=
  fold_left (fun info r => <[emp_name r := emp_dept r]> info) employee_df ∅.

(** A row of the statistics sheet.  The two clock columns hold the
    timestamps that the sheet prints as [%H:%M:%S]. *)
Record stat_row := {
  st_date : string;
  st_name : string;
  st_dept : string;
  st_first_in : option datetime;
  st_last_out : option datetime;
  st_work_hours : Q;
  st_raw_absence_hours : Q;
  st_lunch_hours : Q;
  st_actual_absence_hours : Q;
  st_actual_absence_minutes : Z;
  st_required_hours : Q;
  st_description : string;
  st_status : status;
  st_temp_card : bool;
  st_note : string
}.

(** [summary_data]: one counter per employee for each exception status. *)
Record summary := {
  sum_no_punch : gmap string Z;
  sum_single_punch : gmap string Z;
  sum_insufficient : gmap string Z
}.

Definition summary_empty : summary :=
  {| sum_no_punch := ∅; sum_single_punch := ∅; sum_insufficient := ∅ |}.

(** [if name not in d: d[name] = 0] then [d[name] += 1] *)
Definition bump (d : gmap string Z) (name : string) : gmap string Z :=
  let d := match d !! name with
           | None => <[name := 0]> d
           | Some _ => d
           end in
  <[name := default 0 (d !! name) + 1]> d.

Definition summary_count (sd : summary) (st : status) (name : string) : summary :=
  match st with
  | Normal => sd
  | NoPunch =>
      {| sum_no_punch := bump (sum_no_punch sd) name;
         sum_single_punch := sum_single_punch sd;
         sum_insufficient := sum_insufficient sd |}
  | SinglePunchMissing =>
      {| sum_no_punch := sum_no_punch sd;
         sum_single_punch := bump (sum_single_punch sd) name;
         sum_insufficient := sum_insufficient sd |}
  | InsufficientAttendance =>
      {| sum_no_punch := sum_no_punch sd;
         sum_single_punch := sum_single_punch sd;
         sum_insufficient := bump (sum_insufficient sd) name |}
  end.

(** The values computed for one employee on one day, before they are
    rounded into the row.  The hours are floats: [work_hours] is a float
    quotient, and the absence hours are added to [0.0], which gives the
    floats that [get_absence_hours] returns, the quotients of whole
    minutes by 60 rounded once. *)
Record day_metrics := {
  dm_first_in : option datetime;
  dm_last_out : option datetime;
  dm_record_count : nat;
  dm_work_hours : Q;
  dm_raw_absence_hours : Q;
  dm_actual_absence_hours : Q;
  dm_description : string;
  dm_required_hours : Q;
  dm_status : status
}.

Definition compute_day_metrics
    (kaoqin_df : list (string * datetime))
    (xiujia_df waichu_df chuchai_df : list absence_row)
    (day : date) (name : string) : option day_metrics :=
  let day_str := isoformat day in
  let day_df :=
    List.filter (fun e => (date_of (snd e) =? day) && String.eqb (fst e) name)
                kaoqin_df in
  let times := py_sorted Z.leb (map snd day_df) in
  let '(work_hours, first_in, last_out, record_count) :=
    match times with
    | first_in :: _ =>
        let last_out := List.last times first_in in
        (fl (total_seconds (last_out - first_in) / 3600),
         Some first_in, Some last_out, length day_df)
    | [] => (0%Q, None, None, 0%nat)
    end in
  '(raw_h, actual_h, text) ← get_absence_hours name day_str xiujia_df waichu_df chuchai_df;
  let raw_absence_hours := fl (0 + raw_h) in
  let actual_absence_hours := fl (0 + actual_h) in
  let required_hours := required_hours_of actual_absence_hours in
  Some {| dm_first_in := first_in;
          dm_last_out := last_out;
          dm_record_count := record_count;
          dm_work_hours := work_hours;
          dm_raw_absence_hours := raw_absence_hours;
          dm_actual_absence_hours := actual_absence_hours;
          dm_description := text;
          dm_required_hours := required_hours;
          dm_status := classify record_count work_hours required_hours |}.

Definition stat_row_of
    (employee_info : gmap string string) (linshika_df : list card_row)
    (day : date) (name : string) (dm : day_metrics) : stat_row :=
  {| st_date := isoformat day;
     st_name := name;
     st_dept := default "" (employee_info !! name);
     st_first_in := dm_first_in dm;
     st_last_out := dm_last_out dm;
     st_work_hours := round2 (dm_work_hours dm);
     st_raw_absence_hours := round2 (dm_raw_absence_hours dm);
     st_lunch_hours := 1;
     st_actual_absence_hours := round2 (dm_actual_absence_hours dm);
     st_actual_absence_minutes :=
       actual_absence_minutes_of (dm_actual_absence_hours dm) (dm_work_hours dm);
     st_required_hours := round2 (dm_required_hours dm);
     st_description := dm_description dm;
     st_status := dm_status dm;
     st_temp_card :=
       existsb (fun c => String.eqb (card_name c) name && (card_date c =? day))
               linshika_df;
     st_note := "" |}.

(** A loop whose body may raise. *)
Fixpoint foldM {S A : Type} (body : S -> A -> option S) (l : list A) (s : S)
  : option S :=
  match l with
  | [] => Some s
  | x :: l' => s' ← body s x; foldM body l' s'
  end.

(** The dates the run walks over: the days on which some badge event in
    the range falls, ascending, workdays only. *)
Definition work_dates_of
    (kaoqin_df : list (string * datetime)) (work_days holiday_days : gset string)
  : list date :=
  let all_dates := py_sorted Z.leb (unique (map (fun e => date_of (snd e)) kaoqin_df)) in
  List.filter (fun d => is_workday_from_calendar d work_days holiday_days) all_dates.

(** The body of the loop over the employees on one day: the day's row is
    appended and an exception status is counted. *)
Definition analyze_employee_day
    (kaoqin_df : list (string * datetime))
    (xiujia_df waichu_df chuchai_df : list absence_row)
    (employee_info : gmap string string) (linshika_df : list card_row)
    (day : date) (acc : list stat_row * summary) (name : string)
  : option (list stat_row * summary) :=
  let '(statistics_data, summary_data) := acc in
  dm ← compute_day_metrics kaoqin_df xiujia_df waichu_df chuchai_df day name;
  Some (statistics_data ++ [stat_row_of employee_info linshika_df day name dm],
        summary_count summary_data (dm_status dm) name).

Definition analyze_attendance
    (kaoqin_df : list badge_event)
    (xiujia_df waichu_df chuchai_df : list absence_row)
    (employee_df : list employee_row) (linshika_df : list card_row)
    (start_date end_date : date) (work_days holiday_days : gset string)
  : option (list stat_row * summary) :=
  let kaoqin_df := coerce_events kaoqin_df in
  let kaoqin_df :=
    List.filter (fun e => (start_date <=? date_of (snd e)) && (date_of (snd e) <=? end_date))
                kaoqin_df in
  let employee_info := employee_info_of employee_df in
  let qualified_employees := unique (map emp_name employee_df) in
  let work_dates := work_dates_of kaoqin_df work_days holiday_days in
  foldM
    (fun acc day =>
       foldM
         (analyze_employee_day kaoqin_df xiujia_df waichu_df chuchai_df
                               employee_info linshika_df day)
         qualified_employees acc)
    work_dates ([], summary_empty).

(** The range that [main] passes: the first and the last day with a
    badge event. *)
Definition event_date_range (kaoqin_df : list badge_event) : option (date * date) :=
  match map (fun e => date_of (snd e)) (coerce_events kaoqin_df) with
  | [] => None
  | d :: ds => Some (fold_left Z.min ds d, fold_left Z.max ds d)
  end.

(** ** Exception summary *)

Record summary_row := {
  sr_name : string;
  sr_no_punch : Z;
  sr_single_punch : Z;
  sr_insufficient : Z;
  sr_total : Z;
  sr_note : string
}.

(** The rows of the summary sheet, as [save_reports] builds and orders
    them. *)
Definition summary_rows (summary_data : summary) : list summary_row :=
  if bool_decide (sum_no_punch summary_data = ∅)
     && bool_decide (sum_single_punch summary_data = ∅)
     && bool_decide (sum_insufficient summary_data = ∅)
  then []
  else
    let all_employees : gset string :=
      dom (sum_no_punch summary_data)
      ∪ dom (sum_single_punch summary_data)
      ∪ dom (sum_insufficient summary_data) in
    let all_employees := py_sorted String.leb (elements all_employees) in
    let summary_rows :=
      map (fun employee =>
             let a := default 0 (sum_no_punch summary_data !! employee) in
             let b := default 0 (sum_single_punch summary_data !! employee) in
             let c := default 0 (sum_insufficient summary_data !! employee) in
             {| sr_name := employee;
                sr_no_punch := a;
                sr_single_punch := b;
                sr_insufficient := c;
                sr_total := a + b + c;
                sr_note := "" |})
          all_employees in
    py_sorted (fun x y => sr_total y <=? sr_total x) summary_rows.

(** ** Vocabulary of the statements about classification *)

#[global] Instance Qlt_decision (x y : Q) : Decision (x < y)%Q.
Proof.
  destruct (Qlt_le_dec x y) as [H|H]; [left; exact H | right].
  apply Qle_not_lt, H.
Defined.

(** The status rules as the specification lists them, in order. *)
Definition spec_status (event_count : nat) (worked_hours required_hours : Q) : status :=
  if decide (event_count = 0%nat /\ (0 < required_hours)%Q) then NoPunch
  else if decide (event_count = 1%nat /\ (worked_hours < required_hours)%Q)
       then SinglePunchMissing
  else if decide (worked_hours < required_hours)%Q then InsufficientAttendance
  else Normal.

(** An absence table whose time expressions are plain text. *)
Definition plain_absences (df : list absence_row) : Prop :=
  Forall (fun r => plain_string (ab_start r) /\ plain_string (ab_end r)) df.

(** ** Vocabulary of the statements about time expressions *)

(** A token: what [split] returns, a non-empty run without whitespace. *)
Definition no_space (s : chars) : Prop := Forall (fun c => is_space c = false) s.
Definition token (s : chars) : Prop := s <> [] /\ no_space s.

(** [s] is a time that ['%H:%M'] accepts. *)
Definition strptime_time (s : chars) : option (Z * Z) :=
  '(hh, mm, r) ← match_time s;
  match r with
  | [] => Some (hh, mm)
  | _ :: _ => None
  end.

(** ** Vocabulary of the statements about the run *)

(** [P] holds on the [n] integers from [lo] on. *)
Fixpoint all_from (n : nat) (lo : Z) (P : Z -> bool) : bool :=
  match n with
  | O => true
  | S n' => P lo && all_from n' (lo + 1) P
  end.

(** Day [n] of a year falls on a day of a month of that year. *)
Definition month_day_ok (leapyear : bool) (n : Z) : bool :=
  let '(m, dd) := month_day_of n leapyear in
  (1 <=? m) && (m <=? 12) && (1 <=? dd)
  && (dd <=? (if (m =? 2) && leapyear then 29 else days_in_month_table m))
  && (days_before_month_table m + (if (2 <? m) && leapyear then 1 else 0) + dd
      =? n + 1).

#[global] Instance status_eq_dec : EqDecision status.
Proof. solve_decision. Defined.

(** The rows of the statistics sheet for one day and one employee. *)
Definition rows_for (statistics_data : list stat_row) (day : date) (name : string)
  : list stat_row :=
  List.filter
    (fun r => String.eqb (st_date r) (isoformat day) && String.eqb (st_name r) name)
    statistics_data.

(** How many rows give [name] the status [st]. *)
Definition count_status (statistics_data : list stat_row) (name : string) (st : status)
  : Z :=
  Z.of_nat
    (length
       (List.filter
          (fun r => String.eqb (st_name r) name && bool_decide (st_status r = st))
          statistics_data)).

(** [summary_data[status]] *)
Definition summary_map (summary_data : summary) (st : status) : gmap string Z :=
  match st with
  | Normal => ∅
  | NoPunch => sum_no_punch summary_data
  | SinglePunchMissing => sum_single_punch summary_data
  | InsufficientAttendance => sum_insufficient summary_data
  end.

(** The counters of [summary_data] count the rows with an exception
    status, and an employee without such a row has no counter. *)
Definition summary_counts (statistics_data : list stat_row) (summary_data : summary)
  : Prop :=
  forall st name, st <> Normal ->
    summary_map summary_data st !! name
    = if count_status statistics_data name st =? 0 then None
      else Some (count_status statistics_data name st).

(** The coerced badge events that fall in the range. *)
Definition events_in_range
    (kaoqin_df : list badge_event) (start_date end_date : date)
  : list (string * datetime) :=
  List.filter (fun e => (start_date <=? date_of (snd e)) && (date_of (snd e) <=? end_date))
              (coerce_events kaoqin_df).

(** ** Roster filter *)

(** A row of the roster sheet: [姓名], [部门], [员工类型], [工作地点] as
    [str] shows them, and the [职级] cell, [None] when the cell is empty
    ([pd.isna]) and its [str] otherwise. *)
Record roster_row := {
  ro_name : string;
  ro_dept : string;
  ro_type : string;
  ro_location : string;
  ro_grade : option string
}.

Definition grade_word : chars := list_ascii_of_string "Grade".

(** The match of [Grade\s*(\d+)] at the start of [s]: group 1.  The
    blanks and the digits are taken greedily; a blank is no digit, so
    giving blanks back never helps. *)
Definition match_grade (s : chars) : option chars :=
  if starts_with grade_word s then
    let (d, _) := span_digits (lstrip (skipn (length grade_word) s)) in
    match d with
    | [] => None
    | _ :: _ => Some d
    end
  else None.

(** [re.search(r'Grade\s*(\d+)', s)]: the leftmost match. *)
Fixpoint search_grade (s : chars) : option chars :=
  match match_grade s with
  | Some d => Some d
  | None =>
      match s with
      | [] => None
      | _ :: s' => search_grade s'
      end
  end.

(** [int(s)] for a string of decimal digits; a string of more than
    4300 digits raises [ValueError] (CPython's limit on the conversion of
    integer strings). *)
Definition int_of_digits (s : chars) : option Z :=
  if (4300 <? length s)%nat then None else Some (digits_value s).

Definition extract_grade (grade_str : option string) : option Z :=
  match grade_str with
  | None => Some 999
  | Some grade_str =>
      if String.eqb grade_str "" then Some 999
      else
        match search_grade (list_ascii_of_string grade_str) with
        | Some group1 => int_of_digits group1
        | None => Some 999
        end
  end.

(** [df[column].apply(f)] for an [f] that may raise: the results, in
    row order. *)
Fixpoint apply_column {A B : Type} (f : A -> option B) (l : list A) : option (list B) :=
  match l with
  | [] => Some []
  | x :: l' => y ← f x; ys ← apply_column f l'; Some (y :: ys)
  end.

(** The least [int] that is too large for a float: converting it raises
    [OverflowError]. *)
Definition float_overflow : Z := 2 ^ 1024 - 2 ^ 970.

(** [Series.apply] then turns the results into an array (pandas'
    [maybe_convert_objects]).  It walks the values and converts each
    [int] to a float, which raises [OverflowError] for a value too large
    for a float; it stops at the first value that does not fit in 64
    bits, the array then holding the [int] objects themselves. *)
Fixpoint maybe_convert_objects (values : list Z) : option unit :=
  match values with
  | [] => Some tt
  | val :: values' =>
      if float_overflow <=? val then None
      else if 2 ^ 64 - 1 <? val then Some tt
      else maybe_convert_objects values'
  end.

Definition filter_employees (employee_df : list roster_row)
  : option (list roster_row) :=
  match employee_df with
  | [] => Some []
  | _ :: _ =>
      let full_time_df :=
        List.filter (fun r => String.eqb (ro_type r) "全职") employee_df in
      let shanghai_df :=
        List.filter (fun r => String.eqb (ro_location r) "上海") full_time_df in
      grade_num ← apply_column (fun r => extract_grade (ro_grade r)) shanghai_df;
      _ ← maybe_convert_objects grade_num;
      Some (map fst (List.filter (fun rg => snd rg <? 13)
                                 (List.combine shanghai_df grade_num)))
  end.

(** The columns of a roster row that the run reads. *)
Definition employee_of (r : roster_row) : employee_row :=
  {| emp_name := ro_name r; emp_dept := ro_dept r |}.

(** ** Calendar file *)

(** A row of a calendar sheet: the [日期] and [日期类型] cells as [str]
    shows them ([nan] for an empty cell).  A sheet is its column titles
    and its rows, a workbook its sheets by title. *)
Record calendar_row := { cal_date : string; cal_type : string }.
Record sheet := { sh_columns : list string; sh_rows : list calendar_row }.
Abbreviation workbook := (list (string * sheet)) (only parsing).

Definition target_sheet : string := "法定节假日和调休工作日".

(** [s.split(' ')[0]] *)
Fixpoint before_blank (s : chars) : chars :=
  match s with
  | [] => []
  | c :: s' => if Ascii.eqb c " " then [] else c :: before_blank s'
  end.

(** The date string of a row after [strip] and the cut at the first
    blank, when ['%Y-%m-%d'] accepts it. *)
Definition calendar_date_of (row : calendar_row) : option string :=
  let date_str := strip (list_ascii_of_string (cal_date row)) in
  if String.eqb (string_of_list_ascii date_str) "nan"
     || String.eqb (string_of_list_ascii date_str) ""
  then None
  else
    let date_str :=
      if existsb (Ascii.eqb " ") date_str then before_blank date_str else date_str in
    match strptime_date date_str with
    | Some _ => Some (string_of_list_ascii date_str)
    | None => None
    end.

Definition calendar_type_of (row : calendar_row) : string :=
  string_of_list_ascii (strip (list_ascii_of_string (cal_type row))).

(** The body of the loop over the rows of the sheet. *)
Definition read_calendar_row (acc : gset string * gset string) (row : calendar_row)
  : gset string * gset string :=
  let '(work_days, holiday_days) := acc in
  match calendar_date_of row with
  | None => acc
  | Some date_str =>
      let date_type := calendar_type_of row in
      if String.eqb date_type "调休工作日" || String.eqb date_type "工作日"
      then ({[ date_str ]} ∪ work_days, holiday_days)
      else if String.eqb date_type "法定节假日"
      then (work_days, {[ date_str ]} ∪ holiday_days)
      else acc
  end.

Definition read_calendar_file (file : workbook) : gset string * gset string :=
  match List.find (fun s => String.eqb (fst s) target_sheet) file with
  | Some (_, df) =>
      if negb (existsb (String.eqb "日期") (sh_columns df))
         || negb (existsb (String.eqb "日期类型") (sh_columns df))
      then (∅, ∅)
      else fold_left read_calendar_row (sh_rows df) (∅, ∅)
  | None => (∅, ∅)
  end.

(** ** Calendar generator ([generate_calendar_2025.py]) *)

Definition is_weekend (dt : date) : bool := 5 <=? weekday dt.

(** The two dictionaries, as the lists of their items. *)
Definition get_2025_holidays : list (string * string) :=
  [ ("2025-01-01", "元旦");
    ("2025-01-28", "春节"); ("2025-01-29", "春节"); ("2025-01-30", "春节");
    ("2025-01-31", "春节"); ("2025-02-01", "春节"); ("2025-02-02", "春节");
    ("2025-02-03", "春节"); ("2025-02-04", "春节");
    ("2025-04-04", "清明节"); ("2025-04-05", "清明节"); ("2025-04-06", "清明节");
    ("2025-05-01", "劳动节"); ("2025-05-02", "劳动节"); ("2025-05-03", "劳动节");
    ("2025-05-04", "劳动节"); ("2025-05-05", "劳动节");
    ("2025-05-31", "端午节"); ("2025-06-01", "端午节"); ("2025-06-02", "端午节");
    ("2025-10-01", "中秋节、国庆节"); ("2025-10-02", "中秋节、国庆节");
    ("2025-10-03", "中秋节、国庆节"); ("2025-10-04", "中秋节、国庆节");
    ("2025-10-05", "中秋节、国庆节"); ("2025-10-06", "中秋节、国庆节");
    ("2025-10-07", "中秋节、国庆节"); ("2025-10-08", "中秋节、国庆节") ]%string.

Definition get_2025_workdays : list (string * string) :=
  [ ("2025-01-26", "春节调休"); ("2025-02-08", "春节调休");
    ("2025-04-27", "劳动节调休");
    ("2025-09-28", "中秋节、国庆节调休"); ("2025-10-11", "中秋节、国庆节调休") ]%string.

(** [d[key]] when [key in d], for a dictionary given by its items. *)
Definition dict_get (d : list (string * string)) (key : string) : option string :=
  option_map snd (List.find (fun item => String.eqb (fst item) key) d).

Definition weekday_names : list string :=
  [ "周一"; "周二"; "周三"; "周四"; "周五"; "周六"; "周日" ]%string.

Record calendar_entry := {
  ce_date : string;
  ce_weekday : string;
  ce_type : string;
  ce_holiday_name : string
}.

(** The body of the [while] loop of [generate_2025_calendar]: the entry
    of [current_date]. *)
Definition calendar_entry_of
    (holidays workdays : list (string * string)) (current_date : date)
  : calendar_entry :=
  let date_str := isoformat current_date in
  let weekday_name := nth (Z.to_nat (weekday current_date)) weekday_names ""%string in
  let '(date_type, holiday_name) :=
    match dict_get holidays date_str with
    | Some name => ("法定节假日"%string, name)
    | None =>
        match dict_get workdays date_str with
        | Some name => ("调休工作日"%string, name)
        | None =>
            if is_weekend current_date then ("周末休息"%string, ""%string)
            else ("工作日"%string, ""%string)
        end
    end in
  {| ce_date := date_str;
     ce_weekday := weekday_name;
     ce_type := date_type;
     ce_holiday_name := holiday_name |}.

(** The loop from [start_date] to [end_date], one day at a time. *)
Definition generate_calendar
    (holidays workdays : list (string * string)) (start_date end_date : date)
  : list calendar_entry :=
  map (calendar_entry_of holidays workdays)
      (seqZ start_date (end_date - start_date + 1)).

Definition generate_2025_calendar : list calendar_entry :=
  generate_calendar get_2025_holidays get_2025_workdays
                    (ymd2ord 2025 1 1) (ymd2ord 2025 12 31).

(** The workbook that [create_full_calendar_excel] saves as [日历.xlsx]:
    one sheet, the header row and one row for each entry. *)
Definition create_full_calendar_excel (calendar_data : list calendar_entry)
  : list (string * sheet) :=
  [ ("2025年节假日安排"%string,
     {| sh_columns := [ "日期"; "星期"; "日期类型"; "节假日名称" ]%string;
        sh_rows := map (fun e => {| cal_date := ce_date e; cal_type := ce_type e |})
                       calendar_data |}) ].

(** ** The program *)

(** What [main] does with the tables once they are read: it stops when
    no badge event has a valid time, and otherwise runs the analysis on
    the filtered roster over the whole range of the events.  For an
    empty roster [filter_employees] returns a frame without columns, and
    selecting [姓名] and [部门] from it raises. *)
Inductive main_outcome : Type :=
| NoValidEvents
| Analysed (statistics_data : list stat_row) (summary_data : summary).

Definition main_analysis
    (employee_df : list roster_row) (kaoqin_df : list badge_event)
    (xiujia_df waichu_df chuchai_df : list absence_row) (linshika_df : list card_row)
    (calendar_file : list (string * sheet))
  : option main_outcome :=
  qualified_employees ← filter_employees employee_df;
  let '(work_days, holiday_days) := read_calendar_file calendar_file in
  let kaoqin_df :=
    map (fun e => {| ev_holder := fst e; ev_time := Some (snd e) |})
        (coerce_events kaoqin_df) in
  match event_date_range kaoqin_df with
  | None => Some NoValidEvents
  | Some (start_date, end_date) =>
      match employee_df with
      | [] => None
      | _ :: _ =>
          '(statistics_data, summary_data) ←
            analyze_attendance kaoqin_df xiujia_df waichu_df chuchai_df
                               (map employee_of qualified_employees) linshika_df
                               start_date end_date work_days holiday_days;
          Some (Analysed statistics_data summary_data)
      end
  end.

(** ** Vocabulary of the statements about the roster and the calendar file *)

(** A roster whose grade cells are plain text. *)
Definition plain_roster (employee_df : list roster_row) : Prop :=
  Forall (fun r => forall g, ro_grade r = Some g -> plain_string g) employee_df.

(** A workbook whose sheets hold plain text in the date and type cells. *)
Definition plain_calendar (file : list (string * sheet)) : Prop :=
  Forall (fun s =>
            Forall (fun row => plain_string (cal_date row) /\ plain_string (cal_type row))
                   (sh_rows (snd s)))
         file.

(** The rows that [read_calendar_file] walks: those of the target sheet
    when the workbook has it with both columns, none otherwise. *)
Definition calendar_rows (file : list (string * sheet)) : list calendar_row :=
  match List.find (fun s => String.eqb (fst s) target_sheet) file with
  | Some (_, df) =>
      if negb (existsb (String.eqb "日期") (sh_columns df))
         || negb (existsb (String.eqb "日期类型") (sh_columns df))
      then []
      else sh_rows df
  | None => []
  end.

(** A workbook with every sheet under the title that [read_calendar_file]
    looks for. *)
Definition retitled (file : list (string * sheet)) : list (string * sheet) :=
  map (fun s => (target_sheet, snd s)) file.

(** ** Cell colours *)

Definition get_status_color (status : string) : option string :=
  if String.eqb status "出勤不足" then Some "E6B8AF"%string
  else if String.eqb status "未打卡" then Some "B6D7A8"%string
  else if String.eqb status "上/下班漏打卡" then Some "FFE599"%string
  else None.

(** The digits of a decimal literal, between which single underscores
    may stand. *)
Fixpoint int_body (prev_digit : bool) (s : chars) : option chars :=
  match s with
  | [] => if prev_digit then Some [] else None
  | c :: s' =>
      if is_digit c then d ← int_body true s'; Some (c :: d)
      else if Ascii.eqb c "_" && prev_digit then int_body false s'
      else None
  end.

(** [int(s)] for a [str]: blanks around, a sign, decimal digits. *)
Definition py_int (s : string) : option Z :=
  let s := strip (list_ascii_of_string s) in
  let '(negative, body) :=
    match s with
    | c :: r =>
        if Ascii.eqb c "-" then (true, r)
        else if Ascii.eqb c "+" then (false, r)
        else (false, s)
    | [] => (false, [])
    end in
  d ← int_body false body;
  v ← int_of_digits d;
  Some (if negative then - v else v).

(** [row_data] is the row as a dictionary; only its [状态] entry is
    read.  [None] is a raised exception, [Some None] the answer [None]:
    no colour. *)
Definition get_cell_color (header value : string) (row_data : gmap string string)
  : option (option string) :=
  if String.eqb header "状态" then
    status ← row_data !! "状态"%string; Some (get_status_color status)
  else if String.eqb header "实际缺勤时间[分钟]" then
    minutes ← py_int value;
    if 0 <? minutes then
      status ← row_data !! "状态"%string;
      Some (if String.eqb status "正常" then Some "D4E4BC"%string else None)
    else Some None
  else if String.eqb header "临时卡" && String.eqb value "是" then
    Some (Some "92D050"%string)
  else if existsb (String.eqb header)
                  [ "未打卡次数"; "上/下班漏打卡次数"; "出勤不足次数" ]%string then
    count ← py_int value;
    Some (if 3 <? count then Some "E6B8AF"%string
          else if count =? 3 then Some "FFE599"%string
          else None)
  else Some None.

(** ** Vocabulary of the statements about the lunch adjustment *)

(** The lunch break of day [d], 12:00 to 13:00. *)
Definition lunch_break (d : date) : period :=
  (combine d (time_of_day 12 0), combine d (time_of_day 13 0)).

(** The test of the list comprehension that drops the lunch break. *)
Definition not_lunch (d : date) (p : period) : bool :=
  negb ((fst p =? fst (lunch_break d)) && (snd p =? snd (lunch_break d))).

(** * Part II: properties *)

(** ** Interval merging *)

Example merge_two_touching :
  merge_two_datetime_periods (0, 5) (5, 9) = Some (0, 9).
Proof. reflexivity. Qed.

Example merge_periods_example :
  merge_datetime_periods [(10, 12); (0, 5); (5, 9); (11, 20)] = [(0, 9); (10, 20)].
Proof. reflexivity. Qed.

Section Merging.

Implicit Types (p cur nxt : period) (l rest x y : list period).

Lemma insert_sorted_perm {A : Type} (le : A -> A -> bool) (a : A) (s : list A) :
  Permutation (a :: s) (insert_sorted le a s).
Proof.
  induction s as [|b s IH]; simpl; [reflexivity|].
  destruct (le a b); [reflexivity|].
  rewrite perm_swap. now constructor.
Qed.

Lemma py_sorted_perm {A : Type} (le : A -> A -> bool) (s : list A) :
  Permutation s (py_sorted le s).
Proof.
  induction s as [|a s IH]; simpl; [constructor|].
  rewrite <- insert_sorted_perm. now constructor.
Qed.

Lemma insert_by_start_perm p l : Permutation (p :: l) (insert_by_start p l).
Proof. apply insert_sorted_perm. Qed.

Lemma sorted_by_start_perm l : Permutation l (sorted_by_start l).
Proof. apply py_sorted_perm. Qed.

Lemma insert_by_start_sorted p l :
  StronglySorted start_le l -> StronglySorted start_le (insert_by_start p l).
Proof.
  induction 1 as [|q l Hs IH Hq]; simpl.
  - repeat constructor.
  - unfold start_leb. destruct (Z.leb_spec (fst p) (fst q)) as [Hle|Hlt].
    + constructor; [now constructor|].
      constructor; [exact Hle|].
      eapply Forall_impl; [exact Hq|]. unfold start_le. intros; lia.
    + constructor; [exact IH|].
      rewrite <- insert_by_start_perm.
      constructor; [unfold start_le; lia | exact Hq].
Qed.

Lemma sorted_by_start_sorted l : StronglySorted start_le (sorted_by_start l).
Proof.
  induction l as [|p l IH]; simpl; [constructor|].
  now apply insert_by_start_sorted.
Qed.

(** A list already ordered by start is left alone by the sort. *)
Lemma insert_by_start_head p l :
  Forall (start_le p) l -> insert_by_start p l = p :: l.
Proof.
  destruct l as [|q l]; simpl; [reflexivity|].
  intros H. inversion H as [|? ? Hq _]; subst. unfold start_le in Hq.
  unfold start_leb. destruct (Z.leb_spec (fst p) (fst q)); [reflexivity | lia].
Qed.

Lemma sorted_by_start_id l :
  StronglySorted start_le l -> sorted_by_start l = l.
Proof.
  induction 1 as [|p l Hs IH Hp]; simpl; [reflexivity|].
  rewrite IH. now apply insert_by_start_head.
Qed.

Lemma merge_two_some cur nxt :
  valid nxt -> fst cur <= fst nxt -> fst nxt <= snd cur ->
  merge_two_datetime_periods cur nxt = Some (fst cur, Z.max (snd cur) (snd nxt)).
Proof.
  destruct cur as [s1 e1], nxt as [s2 e2]. unfold valid. simpl. intros Hv Hs Ht.
  destruct (Z.ltb_spec e1 s2); [lia|].
  destruct (Z.ltb_spec e2 s1); [lia|]. simpl.
  now rewrite Z.min_l by lia.
Qed.

Lemma merge_two_none cur nxt :
  snd cur < fst nxt -> merge_two_datetime_periods cur nxt = None.
Proof.
  destruct cur as [s1 e1], nxt as [s2 e2]. simpl. intros H.
  destruct (Z.ltb_spec e1 s2); [reflexivity | lia].
Qed.

(** One step of the sweep over a start-ordered list of valid periods:
    either [cur] ends before [nxt] starts and is emitted, or the two are
    folded. *)
Ltac sweep_cases cur nxt Hv Hle Hs :=
  inversion Hv as [|? ? Hn Hv']; subst;
  inversion Hle as [|? ? Hcn Hle']; subst;
  inversion Hs as [|? ? Hs' Hn']; subst;
  unfold start_le in Hcn;
  destruct (Z.lt_ge_cases (snd cur) (fst nxt)) as [Hgap|Htouch];
  [rewrite (merge_two_none cur nxt) by exact Hgap
  |rewrite (merge_two_some cur nxt) by (assumption || lia)].

(** The sweep over a start-ordered list of valid periods: what it emits
    is valid, pairwise apart, and starts no earlier than [cur]. *)
Lemma sweep_chain rest : forall cur,
  valid cur -> Forall valid rest -> Forall (start_le cur) rest ->
  StronglySorted start_le rest ->
  Forall valid (sweep cur rest)
  /\ StronglySorted apart (sweep cur rest)
  /\ Forall (start_le cur) (sweep cur rest).
Proof.
  induction rest as [|nxt rest IH]; intros cur Hc Hv Hle Hs; simpl.
  - repeat split; repeat constructor; try exact Hc. unfold start_le; lia.
  - sweep_cases cur nxt Hv Hle Hs.
    + destruct (IH nxt Hn Hv' Hn' Hs') as (IHv & IHa & IHs).
      repeat split.
      * now constructor.
      * constructor; [exact IHa|].
        eapply Forall_impl; [exact IHs|]. unfold start_le, apart. intros; lia.
      * constructor; [unfold start_le; lia|].
        eapply Forall_impl; [exact IHs|]. unfold start_le. intros; lia.
    + apply (IH (fst cur, Z.max (snd cur) (snd nxt))); try assumption.
      unfold valid in *; simpl; lia.
Qed.

Lemma covered_perm l l' q : Permutation l l' -> covered l q -> covered l' q.
Proof.
  unfold covered. intros HP. rewrite !List.Exists_exists.
  intros (p & Hin & Hc). exists p. split; [|exact Hc].
  eapply Permutation_in; eassumption.
Qed.

Lemma sweep_covered rest : forall cur q,
  valid cur -> Forall valid rest -> Forall (start_le cur) rest ->
  StronglySorted start_le rest ->
  covered (sweep cur rest) q <-> covered (cur :: rest) q.
Proof.
  induction rest as [|nxt rest IH]; intros cur q Hc Hv Hle Hs; simpl.
  - reflexivity.
  - sweep_cases cur nxt Hv Hle Hs.
    + unfold covered in *.
      rewrite List.Exists_cons, (IH nxt q), (List.Exists_cons _ cur) by assumption.
      reflexivity.
    + unfold covered in *. rewrite IH; try assumption.
      * rewrite !List.Exists_cons.
        assert (covers q (fst cur, Z.max (snd cur) (snd nxt))
                <-> covers q cur \/ covers q nxt) as ->
            by (unfold covers, valid in *; simpl; lia).
        tauto.
      * unfold valid in *; simpl; lia.
Qed.

Lemma chain_tail p l : chain (p :: l) -> chain l.
Proof.
  intros [Hv Hs]. inversion Hv; inversion Hs; subst. now split.
Qed.

Lemma chain_head_not_covered p l q :
  chain (p :: l) -> q <= 2 * snd p + 1 -> ~ covered l q.
Proof.
  intros [Hv Hs] Hq. inversion Hs as [|? ? _ Hp]; subst.
  unfold covered. rewrite List.Exists_exists. intros (r & Hin & Hc).
  rewrite List.Forall_forall in Hp. specialize (Hp r Hin).
  unfold apart, covers in *. lia.
Qed.

(** Two chains that cover the same grid points are the same list. *)
Lemma chain_unique l1 : forall l2,
  chain l1 -> chain l2 -> (forall q, covered l1 q <-> covered l2 q) -> l1 = l2.
Proof.
  assert (Hnil : forall p l, chain (p :: l) -> ~ (forall q, covered [] q <-> covered (p :: l) q)).
  { intros p l [Hv _] H. inversion Hv as [|? ? Hp _]; subst.
    assert (Hc : covered (p :: l) (2 * fst p)).
    { left. unfold covers, valid in *. lia. }
    apply H in Hc. inversion Hc. }
  induction l1 as [|a l1 IH]; intros [|b l2] H1 H2 Heq.
  - reflexivity.
  - exfalso. eapply Hnil; eassumption.
  - exfalso. eapply Hnil; [exact H1|]. intros q. symmetry. apply Heq.
  - assert (Hva : valid a) by (destruct H1 as [Hv _]; now inversion Hv).
    assert (Hvb : valid b) by (destruct H2 as [Hv _]; now inversion Hv).
    unfold valid in Hva, Hvb.
    assert (Hstart : forall (x y : period) (lx ly : list period),
               chain (y :: ly) ->
               (forall q, covered (x :: lx) q -> covered (y :: ly) q) ->
               fst x <= snd x -> fst y <= fst x).
    { intros x y lx ly Hy Hsub Hvx.
      assert (Hc : covered (y :: ly) (2 * fst x)).
      { apply Hsub. left. unfold covers. lia. }
      destruct Hy as [Hvy Hsy]. inversion Hsy as [|? ? _ Hap]; subst.
      inversion Hvy as [|? ? Hy1 Hy2]; subst.
      unfold covered in Hc. rewrite List.Exists_cons, List.Exists_exists in Hc.
      destruct Hc as [Hc|(r & Hin & Hc)].
      - unfold covers in Hc. lia.
      - rewrite List.Forall_forall in Hap. specialize (Hap r Hin).
        unfold apart, covers, valid in *. lia. }
    assert (Hend : forall (x y : period) (lx ly : list period),
               chain (y :: ly) ->
               (forall q, covered (x :: lx) q -> covered (y :: ly) q) ->
               fst x = fst y -> fst y <= snd y -> snd x <= snd y).
    { intros x y lx ly Hy Hsub Hxy Hvy.
      destruct (Z.le_gt_cases (snd x) (snd y)) as [|Hgt]; [assumption|].
      exfalso.
      assert (Hc : covered (y :: ly) (2 * snd y + 1)).
      { apply Hsub. left. unfold covers. lia. }
      unfold covered in Hc. rewrite List.Exists_cons in Hc.
      destruct Hc as [Hc|Hc].
      - unfold covers in Hc. lia.
      - eapply chain_head_not_covered; [exact Hy| |exact Hc]. lia. }
    assert (Hab : a = b).
    { pose proof (Hstart a b l1 l2 H2 (fun q => proj1 (Heq q)) Hva).
      pose proof (Hstart b a l2 l1 H1 (fun q => proj2 (Heq q)) Hvb).
      assert (Hs : fst a = fst b) by lia.
      pose proof (Hend a b l1 l2 H2 (fun q => proj1 (Heq q)) Hs Hvb).
      pose proof (Hend b a l2 l1 H1 (fun q => proj2 (Heq q)) (eq_sym Hs) Hva).
      destruct a, b; simpl in *; f_equal; lia. }
    subst b. f_equal. apply IH; [eapply chain_tail; eassumption ..|].
    intros q. specialize (Heq q). unfold covered in *.
    rewrite !List.Exists_cons in Heq.
    split; intros Hc.
    + destruct (proj1 Heq (or_intror Hc)) as [Hq|]; [|assumption].
      exfalso. eapply (chain_head_not_covered a l1 q); [exact H1| |exact Hc].
      unfold covers in Hq. lia.
    + destruct (proj2 Heq (or_intror Hc)) as [Hq|]; [|assumption].
      exfalso. eapply (chain_head_not_covered a l2 q); [exact H2| |exact Hc].
      unfold covers in Hq. lia.
Qed.

Lemma merge_chain l : Forall valid l -> chain (merge_datetime_periods l).
Proof.
  intros Hv. unfold merge_datetime_periods.
  destruct l as [|p0 l0]; [split; constructor|].
  pose proof (sorted_by_start_perm (p0 :: l0)) as HP.
  pose proof (sorted_by_start_sorted (p0 :: l0)) as HS.
  destruct (sorted_by_start (p0 :: l0)) as [|cur rest]; [split; constructor|].
  assert (Hv' : Forall valid (cur :: rest)).
  { rewrite List.Forall_forall in *. intros x Hx. apply Hv.
    eapply Permutation_in; [symmetry; exact HP | exact Hx]. }
  inversion Hv'; inversion HS; subst.
  destruct (sweep_chain rest cur) as (? & ? & ?); try assumption.
  now split.
Qed.

Lemma merge_covered l q :
  Forall valid l -> covered (merge_datetime_periods l) q <-> covered l q.
Proof.
  intros Hv. unfold merge_datetime_periods.
  destruct l as [|p0 l0]; [reflexivity|].
  pose proof (sorted_by_start_perm (p0 :: l0)) as HP.
  pose proof (sorted_by_start_sorted (p0 :: l0)) as HS.
  destruct (sorted_by_start (p0 :: l0)) as [|cur rest].
  - symmetry in HP. apply Permutation_nil in HP. discriminate.
  - assert (Hv' : Forall valid (cur :: rest)).
    { rewrite List.Forall_forall in *. intros x Hx. apply Hv.
      eapply Permutation_in; [symmetry; exact HP | exact Hx]. }
    inversion Hv'; inversion HS; subst.
    rewrite sweep_covered by assumption.
    split; apply covered_perm; [symmetry|]; exact HP.
Qed.


Lemma chain_strictly_ascending l :
  chain l -> StronglySorted (fun a b => fst a < fst b) l.
Proof.
  intros [Hv Hs]. induction Hs as [|p l Hs IH Hp]; constructor.
  - apply IH. now inversion Hv.
  - inversion Hv as [|? ? Hvp _]; subst.
    eapply Forall_impl; [exact Hp|]. unfold apart, valid in *. cbv beta. intros; lia.
Qed.

Lemma merge_pair_touching p q' :
  valid p -> valid q' -> fst p <= fst q' -> fst q' <= snd p ->
  merge_datetime_periods [p; q'] = [(fst p, Z.max (snd p) (snd q'))].
Proof.
  intros Hp Hq Hs Ht. unfold merge_datetime_periods. simpl.
  unfold start_leb. destruct (Z.leb_spec (fst p) (fst q')); [|lia]. simpl.
  now rewrite merge_two_some.
Qed.

(** C3: on periods with start <= end, merging is idempotent, its output
    is strictly ascending by start with every period ending before the
    next one starts (so periods that touch have been folded together),
    and it is the same for every ordering of the input. *)
Theorem merge_datetime_periods_canonical x :
  Forall valid x ->
  merge_datetime_periods (merge_datetime_periods x) = merge_datetime_periods x
  /\ Forall valid (merge_datetime_periods x)
  /\ StronglySorted (fun a b => fst a < fst b) (merge_datetime_periods x)
  /\ StronglySorted (fun a b => snd a < fst b) (merge_datetime_periods x)
  /\ (forall p q', valid p -> valid q' -> fst p <= fst q' -> fst q' <= snd p ->
      merge_datetime_periods [p; q'] = [(fst p, Z.max (snd p) (snd q'))])
  /\ (forall y, Permutation x y ->
      merge_datetime_periods y = merge_datetime_periods x).
Proof.
  intros Hv. pose proof (merge_chain x Hv) as Hc.
  split; [|split; [|split; [|split; [|split]]]].
  - apply chain_unique; [apply merge_chain; apply Hc | exact Hc |].
    intros g. apply merge_covered, Hc.
  - apply Hc.
  - now apply chain_strictly_ascending.
  - apply Hc.
  - apply merge_pair_touching.
  - intros y HP.
    assert (Hvy : Forall valid y).
    { rewrite List.Forall_forall in *. intros p Hp. apply Hv.
      eapply Permutation_in; [symmetry; exact HP | exact Hp]. }
    apply chain_unique; [now apply merge_chain | exact Hc |].
    intros g. rewrite !merge_covered by assumption.
    split; apply covered_perm; [symmetry|]; exact HP.
Qed.

Lemma merge_datetime_periods_canonical_witness :
  let x := [(10, 12); (0, 5); (5, 9); (11, 20)] in
  Forall valid x
  /\ merge_datetime_periods (merge_datetime_periods x) = merge_datetime_periods x.
Proof.
  assert (H : Forall valid [(10, 12); (0, 5); (5, 9); (11, 20)]).
  { repeat constructor; unfold valid; simpl; lia. }
  split; [exact H|].
  exact (proj1 (merge_datetime_periods_canonical _ H)).
Defined.


Lemma fold_left_minutes l : forall acc,
  fold_left (fun total_minutes p => total_minutes + timedelta_minutes (fst p) (snd p)) l acc
  = acc + calculate_datetime_minutes l.
Proof.
  unfold calculate_datetime_minutes.
  induction l as [|p l IH]; intros acc; simpl; [lia|].
  rewrite (IH (acc + _)), (IH (0 + _)). lia.
Qed.

Lemma calculate_datetime_minutes_cons p l :
  calculate_datetime_minutes (p :: l)
  = timedelta_minutes (fst p) (snd p) + calculate_datetime_minutes l.
Proof.
  unfold calculate_datetime_minutes at 1. simpl. now rewrite fold_left_minutes.
Qed.

Lemma calculate_datetime_minutes_perm l l' :
  Permutation l l' ->
  calculate_datetime_minutes l = calculate_datetime_minutes l'.
Proof.
  induction 1; rewrite ?calculate_datetime_minutes_cons; lia.
Qed.

Lemma calculate_datetime_minutes_nonneg l :
  Forall valid l -> 0 <= calculate_datetime_minutes l.
Proof.
  induction 1 as [|p l Hp _ IH]; [reflexivity|].
  rewrite calculate_datetime_minutes_cons. unfold timedelta_minutes, valid in *.
  assert (0 <= Z.quot (snd p - fst p) us_per_minute).
  { apply Z.quot_pos; [lia | reflexivity]. }
  lia.
Qed.

(** Without overlap or contact the sweep folds nothing. *)
Lemma sweep_chain_id rest : forall cur,
  StronglySorted apart (cur :: rest) -> sweep cur rest = cur :: rest.
Proof.
  induction rest as [|nxt rest IH]; intros cur Hs; simpl; [reflexivity|].
  inversion Hs as [|? ? Hs' Hc]; subst. inversion Hc as [|? ? Hcn _]; subst.
  rewrite merge_two_none by exact Hcn. now rewrite IH.
Qed.

Lemma ForallOrdPairs_insert_by_start (R : period -> period -> Prop) p l :
  (forall a b, R a b -> R b a) ->
  Forall (R p) l -> ForallOrdPairs R l -> ForallOrdPairs R (insert_by_start p l).
Proof.
  intros Hsym. induction l as [|q l IH]; intros Hp Hl; simpl.
  - constructor; constructor.
  - destruct (start_leb p q); [now constructor|].
    inversion Hp as [|? ? Hpq Hp']; inversion Hl as [|? ? Hq Hl']; subst.
    constructor; [|now apply IH].
    rewrite <- insert_by_start_perm. constructor; [now apply Hsym | exact Hq].
Qed.

Lemma ForallOrdPairs_sorted_by_start (R : period -> period -> Prop) l :
  (forall a b, R a b -> R b a) ->
  ForallOrdPairs R l -> ForallOrdPairs R (sorted_by_start l).
Proof.
  intros Hsym. induction 1 as [|p l Hp Hl IH]; simpl; [constructor|].
  apply ForallOrdPairs_insert_by_start; [exact Hsym| |exact IH].
  now rewrite <- sorted_by_start_perm.
Qed.

Lemma merge_disjoint_is_sort x :
  Forall valid x -> ForallOrdPairs strictly_disjoint x ->
  merge_datetime_periods x = sorted_by_start x.
Proof.
  intros Hv Hd. unfold merge_datetime_periods.
  destruct x as [|p0 x0]; [reflexivity|].
  assert (Hv' : Forall valid (sorted_by_start (p0 :: x0)))
    by now rewrite <- sorted_by_start_perm.
  assert (Hd' : ForallOrdPairs strictly_disjoint (sorted_by_start (p0 :: x0))).
  { apply ForallOrdPairs_sorted_by_start; [|exact Hd].
    unfold strictly_disjoint. tauto. }
  pose proof (sorted_by_start_sorted (p0 :: x0)) as Hs.
  destruct (sorted_by_start (p0 :: x0)) as [|cur rest]; [reflexivity|].
  apply sweep_chain_id.
  clear -Hv' Hd' Hs. revert Hv' Hd' Hs. generalize (cur :: rest) as s.
  induction s as [|a s IH]; intros Hv Hd Hs; constructor.
  - inversion Hv; inversion Hd; inversion Hs; subst. now apply IH.
  - inversion Hv as [|? ? Ha Hv']; inversion Hd as [|? ? Hda _];
      inversion Hs as [|? ? _ Hsa]; subst.
    rewrite List.Forall_forall in *. intros b Hb.
    specialize (Hda b Hb). specialize (Hsa b Hb). specialize (Hv' b Hb).
    unfold strictly_disjoint, start_le, apart, valid in *. lia.
Qed.

Lemma timedelta_minutes_aligned s e :
  on_minute s -> on_minute e -> timedelta_minutes s e * us_per_minute = e - s.
Proof.
  intros [a ->] [b ->]. unfold timedelta_minutes.
  replace (b * us_per_minute - a * us_per_minute) with ((b - a) * us_per_minute) by lia.
  rewrite Z.quot_mul by discriminate. reflexivity.
Qed.

(** The ends of merged periods are ends of the periods merged. *)
Lemma sweep_ends (P : Z -> Prop) rest : forall cur,
  P (fst cur) /\ P (snd cur) ->
  Forall (fun p => P (fst p) /\ P (snd p)) rest ->
  Forall (fun p => P (fst p) /\ P (snd p)) (sweep cur rest).
Proof.
  induction rest as [|nxt rest IH]; intros cur Hc Hr; simpl.
  - now constructor.
  - inversion Hr as [|? ? Hn Hr']; subst.
    destruct cur as [s1 e1], nxt as [s2 e2]. simpl.
    destruct ((e1 <? s2) || (e2 <? s1)).
    + constructor; [exact Hc | now apply IH].
    + apply IH; [|exact Hr'].
      destruct Hc as [Hc1 Hc2], Hn as [Hn1 Hn2]. simpl in *. split.
      * destruct (Z.min_spec s1 s2) as [[_ ->]|[_ ->]]; assumption.
      * destruct (Z.max_spec e1 e2) as [[_ ->]|[_ ->]]; assumption.
Qed.

Lemma merge_ends (P : Z -> Prop) l :
  Forall (fun p => P (fst p) /\ P (snd p)) l ->
  Forall (fun p => P (fst p) /\ P (snd p)) (merge_datetime_periods l).
Proof.
  intros H. unfold merge_datetime_periods.
  destruct l as [|p0 l0]; [constructor|].
  rewrite (sorted_by_start_perm (p0 :: l0)) in H.
  destruct (sorted_by_start (p0 :: l0)) as [|cur rest]; [constructor|].
  inversion H; subst. now apply sweep_ends.
Qed.

Lemma sweep_aligned rest : forall cur,
  aligned cur -> Forall aligned rest -> Forall aligned (sweep cur rest).
Proof. intros cur. apply (sweep_ends on_minute). Qed.

Lemma sweep_minutes_le rest : forall cur,
  valid cur -> Forall valid rest -> Forall (start_le cur) rest ->
  StronglySorted start_le rest ->
  aligned cur -> Forall aligned rest ->
  calculate_datetime_minutes (sweep cur rest)
  <= calculate_datetime_minutes (cur :: rest).
Proof.
  induction rest as [|nxt rest IH]; intros cur Hc Hv Hle Hs Hac Har; simpl.
  - lia.
  - inversion Har as [|? ? Han Har']; subst.
    sweep_cases cur nxt Hv Hle Hs.
    + specialize (IH nxt Hn Hv' Hn' Hs' Han Har').
      rewrite (calculate_datetime_minutes_cons cur (sweep _ _)).
      rewrite (calculate_datetime_minutes_cons cur (_ :: _)). lia.
    + set (r := (fst cur, Z.max (snd cur) (snd nxt))).
      assert (Hr : valid r) by (unfold valid in *; simpl; lia).
      assert (Har0 : aligned r).
      { destruct Hac, Han. split; simpl; [assumption|].
        destruct (Z.max_spec (snd cur) (snd nxt)) as [[_ ->]|[_ ->]]; assumption. }
      specialize (IH r Hr Hv' Hle' Hs' Har0 Har').
      rewrite !calculate_datetime_minutes_cons in *.
      destruct Hac as [Hc1 Hc2], Han as [Hn1 Hn2], Har0 as [Hr1 Hr2].
      pose proof (timedelta_minutes_aligned _ _ Hc1 Hc2).
      pose proof (timedelta_minutes_aligned _ _ Hn1 Hn2).
      pose proof (timedelta_minutes_aligned _ _ Hr1 Hr2).
      unfold valid, us_per_minute, us_per_second in *. simpl in *. lia.
Qed.

Lemma merge_minutes_le x :
  Forall valid x -> Forall aligned x ->
  calculate_datetime_minutes (merge_datetime_periods x)
  <= calculate_datetime_minutes x.
Proof.
  intros Hv Ha. unfold merge_datetime_periods.
  destruct x as [|p0 x0]; [reflexivity|].
  pose proof (sorted_by_start_perm (p0 :: x0)) as HP.
  pose proof (sorted_by_start_sorted (p0 :: x0)) as HS.
  rewrite (calculate_datetime_minutes_perm _ _ HP).
  rewrite HP in Hv, Ha.
  destruct (sorted_by_start (p0 :: x0)) as [|cur rest]; [reflexivity|].
  inversion Hv; inversion Ha; inversion HS; subst.
  now apply sweep_minutes_le.
Qed.

End Merging.

(** C4 (amended): for valid periods whose ends fall on whole minutes the
    merged total never exceeds the per-period sum; for periods that
    neither overlap nor touch the two are equal; and each period
    contributes its microsecond length divided by a minute, truncated
    toward zero. *)
Theorem merged_minutes_vs_naive x :
  Forall valid x ->
  (Forall aligned x ->
   calculate_datetime_minutes (merge_datetime_periods x)
   <= calculate_datetime_minutes x)
  /\ (ForallOrdPairs strictly_disjoint x ->
      calculate_datetime_minutes (merge_datetime_periods x)
      = calculate_datetime_minutes x)
  /\ calculate_datetime_minutes [] = 0
  /\ (forall s e l,
      calculate_datetime_minutes ((s, e) :: l)
      = Z.quot (e - s) 60000000 + calculate_datetime_minutes l).
Proof.
  intros Hv. repeat split.
  - intros Ha. now apply merge_minutes_le.
  - intros Hd. rewrite merge_disjoint_is_sort by assumption.
    symmetry. apply calculate_datetime_minutes_perm, sorted_by_start_perm.
  - intros s e l. now rewrite calculate_datetime_minutes_cons.
Qed.

Lemma merged_minutes_vs_naive_witness :
  let x := [(datetime_at 2025 4 28 9 0, datetime_at 2025 4 28 11 0);
            (datetime_at 2025 4 28 10 0, datetime_at 2025 4 28 12 0)] in
  Forall valid x
  /\ calculate_datetime_minutes (merge_datetime_periods x)
     <= calculate_datetime_minutes x.
Proof.
  assert (Hv : Forall valid
                 [(datetime_at 2025 4 28 9 0, datetime_at 2025 4 28 11 0);
                  (datetime_at 2025 4 28 10 0, datetime_at 2025 4 28 12 0)]).
  { repeat constructor; unfold valid; vm_compute; discriminate. }
  split; [exact Hv|].
  apply (proj1 (merged_minutes_vs_naive _ Hv)).
  repeat (apply List.Forall_cons; [split|]); try apply List.Forall_nil;
    unfold on_minute; simpl fst; simpl snd;
    match goal with |- (?m | ?t) => exists (t / m); vm_compute; reflexivity end.
Defined.

(** C4 as stated fails: two overlapping periods, 09:00-11:00 and
    10:00-12:00, merge to 180 minutes while their per-period sum is 240. *)
Lemma merged_minutes_below_naive :
  let x := [(datetime_at 2025 4 28 9 0, datetime_at 2025 4 28 11 0);
            (datetime_at 2025 4 28 10 0, datetime_at 2025 4 28 12 0)] in
  merge_two_datetime_periods (datetime_at 2025 4 28 9 0, datetime_at 2025 4 28 11 0)
                             (datetime_at 2025 4 28 10 0, datetime_at 2025 4 28 12 0)
  <> None
  /\ calculate_datetime_minutes (merge_datetime_periods x) = 180
  /\ calculate_datetime_minutes x = 240
  /\ ~ (calculate_datetime_minutes (merge_datetime_periods x)
        >= calculate_datetime_minutes x).
Proof.
  vm_compute. repeat split; try discriminate. intros H. now apply H.
Qed.

(** With ends inside a minute the comparison can go either way: two
    half-minute periods that touch count 0 each and 1 once merged. *)
Example merged_minutes_above_naive :
  let x := [(0, 30 * us_per_second); (30 * us_per_second, 60 * us_per_second)] in
  calculate_datetime_minutes x = 0
  /\ calculate_datetime_minutes (merge_datetime_periods x) = 1.
Proof. vm_compute. split; reflexivity. Qed.

(** ** Rounding *)

Lemma Qltb_lt x y : Qltb x y = true <-> (x < y)%Q.
Proof. unfold Qltb, Qlt. apply Z.ltb_lt. Qed.

Lemma Qltb_ge x y : Qltb x y = false <-> (y <= x)%Q.
Proof. unfold Qltb, Qle. apply Z.ltb_ge. Qed.

Lemma py_round_floor x :
  Qfloor x <= py_round x <= Qfloor x + 1
  /\ (py_round x = Qfloor x + 1 -> (inject_Z (Qfloor x) + (1 # 2) <= x)%Q).
Proof.
  unfold py_round.
  destruct (Qltb (x - inject_Z (Qfloor x)) (1 # 2)) eqn:E1.
  { split; [lia | intros H; lia]. }
  apply Qltb_ge in E1.
  assert (Hx : (inject_Z (Qfloor x) + (1 # 2) <= x)%Q) by lra.
  destruct (Qltb (1 # 2) (x - inject_Z (Qfloor x))); [split; [lia | auto]|].
  destruct (Z.even (Qfloor x)); split; (lia || auto).
Qed.

Lemma py_round_le x n : (x <= inject_Z n)%Q -> py_round x <= n.
Proof.
  intros H. destruct (py_round_floor x) as [[_ Hu] Hh].
  assert (Hf : Qfloor x <= n).
  { rewrite <- (Qfloor_Z n). now apply Qfloor_resp_le. }
  destruct (Z.eq_dec (py_round x) (Qfloor x + 1)) as [E|E]; [|lia].
  specialize (Hh E).
  destruct (Z.eq_dec (Qfloor x) n) as [En|En]; [|lia].
  rewrite En in Hh. lra.
Qed.

Lemma py_round_ge x n : (inject_Z n <= x)%Q -> n <= py_round x.
Proof.
  intros H. destruct (py_round_floor x) as [[Hl _] _].
  assert (Hf : n <= Qfloor x).
  { rewrite <- (Qfloor_Z n). now apply Qfloor_resp_le. }
  lia.
Qed.

Lemma py_round_mono x y : (x <= y)%Q -> py_round x <= py_round y.
Proof.
  intros H. pose proof (Qfloor_resp_le _ _ H) as Hf.
  destruct (py_round_floor x) as [[_ Hxu] Hxh].
  destruct (py_round_floor y) as [[Hyl _] _].
  destruct (Z.eq_dec (Qfloor x) (Qfloor y)) as [E|E]; [|lia].
  unfold py_round. rewrite <- E.
  set (f := Qfloor x) in *.
  destruct (Qltb (x - inject_Z f) (1 # 2)) eqn:X1;
    [apply Qltb_lt in X1 | apply Qltb_ge in X1];
    (destruct (Qltb (y - inject_Z f) (1 # 2)) eqn:Y1;
     [apply Qltb_lt in Y1 | apply Qltb_ge in Y1]);
    (destruct (Qltb (1 # 2) (x - inject_Z f)) eqn:X2;
     [apply Qltb_lt in X2 | apply Qltb_ge in X2]);
    (destruct (Qltb (1 # 2) (y - inject_Z f)) eqn:Y2;
     [apply Qltb_lt in Y2 | apply Qltb_ge in Y2]);
    destruct (Z.even f); first [lia | lra].
Qed.

Lemma py_round_Z n : py_round (inject_Z n) = n.
Proof.
  apply Z.le_antisymm; [apply py_round_le | apply py_round_ge]; lra.
Qed.

(** ** Floats *)

(** [fl] depends on the value only. *)
Lemma fl_comp x y : (x == y)%Q -> fl x = fl y.
Proof. intros H. unfold fl. now rewrite (Qred_complete _ _ H). Qed.

Lemma fl_unfold x :
  let s := (x * inject_Z (2 ^ 1074))%Q in
  let k := Z.max 0 (Z.log2 (Qfloor (Qabs s)) - 52) in
  (fl x == inject_Z (py_round (s / inject_Z (2 ^ k)) * 2 ^ k) / inject_Z (2 ^ 1074))%Q.
Proof.
  cbv zeta. rewrite (fl_comp x (Qred x)) by (symmetry; apply Qred_correct).
  unfold fl. rewrite Qred_correct.
  rewrite (Qred_complete (Qred x) x) by apply Qred_correct.
  assert (E : (Qred x * inject_Z (2 ^ 1074) == x * inject_Z (2 ^ 1074))%Q)
    by (now rewrite Qred_correct).
  assert (Ea : Qfloor (Qabs (Qred x * inject_Z (2 ^ 1074)))
               = Qfloor (Qabs (x * inject_Z (2 ^ 1074))))
    by (apply Qfloor_comp; now rewrite E).
  rewrite Ea.
  set (k := Z.max 0 _).
  assert (Er : py_round (Qred x * inject_Z (2 ^ 1074) / inject_Z (2 ^ k))
               = py_round (x * inject_Z (2 ^ 1074) / inject_Z (2 ^ k))).
  { unfold py_round.
    assert (Ef : Qfloor (Qred x * inject_Z (2 ^ 1074) / inject_Z (2 ^ k))
                 = Qfloor (x * inject_Z (2 ^ 1074) / inject_Z (2 ^ k)))
      by (apply Qfloor_comp; now rewrite E).
    rewrite Ef. set (f := Qfloor _).
    assert (Eb : forall a b c d : Q, (a == b)%Q -> (c == d)%Q -> Qltb a c = Qltb b d).
    { intros a b c d Hab Hcd. destruct (Qltb b d) eqn:Hb.
      - apply Qltb_lt. apply Qltb_lt in Hb. now rewrite Hab, Hcd.
      - apply Qltb_ge. apply Qltb_ge in Hb. now rewrite Hab, Hcd. }
    rewrite (Eb (Qred x * inject_Z (2 ^ 1074) / inject_Z (2 ^ k) - inject_Z f)%Q
                (x * inject_Z (2 ^ 1074) / inject_Z (2 ^ k) - inject_Z f)%Q
                (1 # 2) (1 # 2)) by (now rewrite ?E).
    rewrite (Eb (1 # 2) (1 # 2)
                (Qred x * inject_Z (2 ^ 1074) / inject_Z (2 ^ k) - inject_Z f)%Q
                (x * inject_Z (2 ^ 1074) / inject_Z (2 ^ k) - inject_Z f)%Q)
      by (now rewrite ?E).
    reflexivity. }
  rewrite Er. reflexivity.
Qed.

Lemma inject_Z_pos n : 0 < n -> (0 < inject_Z n)%Q.
Proof. intros H. change 0%Q with (inject_Z 0). now rewrite <- Zlt_Qlt. Qed.

Lemma fl_sign x :
  ((0 <= x)%Q -> (0 <= fl x)%Q) /\ ((x <= 0)%Q -> (fl x <= 0)%Q).
Proof.
  pose proof (fl_unfold x) as E. cbv zeta in E.
  set (k := Z.max 0 _) in E.
  assert (HU : 0 < 2 ^ 1074) by (now apply Z.pow_pos_nonneg).
  assert (Hk : 0 < 2 ^ k) by (apply Z.pow_pos_nonneg; lia).
  set (U := 2 ^ 1074) in *. set (K := 2 ^ k) in *.
  assert (HUq : (0 < inject_Z U)%Q) by (apply inject_Z_pos, HU).
  assert (HKq : (0 < inject_Z K)%Q) by (apply inject_Z_pos, Hk).
  split; intros Hx; rewrite E.
  - apply Qle_shift_div_l; [exact HUq|]. rewrite Qmult_0_l.
    change 0%Q with (inject_Z 0). rewrite <- Zle_Qle.
    apply Z.mul_nonneg_nonneg; [|lia].
    apply py_round_ge. apply Qle_shift_div_l; [exact HKq|].
    rewrite Qmult_0_l. apply Qmult_le_0_compat; lra.
  - apply Qle_shift_div_r; [exact HUq|]. rewrite Qmult_0_l.
    change 0%Q with (inject_Z 0). rewrite <- Zle_Qle.
    apply Z.mul_nonpos_nonneg; [|lia].
    apply py_round_le. apply Qle_shift_div_r; [exact HKq|].
    rewrite Qmult_0_l.
    assert (H0 : (0 <= (- x) * inject_Z U)%Q) by (apply Qmult_le_0_compat; lra).
    assert (E2 : (x * inject_Z U == - ((- x) * inject_Z U))%Q) by ring.
    rewrite E2. set (t := ((- x) * inject_Z U)%Q) in *. lra.
Qed.

Lemma fl_nonneg x : (0 <= x)%Q -> (0 <= fl x)%Q.
Proof. apply fl_sign. Qed.

Lemma fl_nonpos x : (x <= 0)%Q -> (fl x <= 0)%Q.
Proof. apply fl_sign. Qed.

(** Rounding keeps the order. *)
Lemma fl_mono x y : (0 <= x)%Q -> (x <= y)%Q -> (fl x <= fl y)%Q.
Proof.
  intros Hx Hxy.
  pose proof (fl_unfold x) as Ex. pose proof (fl_unfold y) as Ey.
  cbv zeta in Ex, Ey. rewrite Ex, Ey. clear Ex Ey.
  assert (HU : 0 < 2 ^ 1074) by (now apply Z.pow_pos_nonneg).
  set (U := 2 ^ 1074) in *.
  assert (HUq : (0 < inject_Z U)%Q) by (apply inject_Z_pos, HU).
  set (sx := (x * inject_Z U)%Q). set (sy := (y * inject_Z U)%Q).
  assert (Hsx : (0 <= sx)%Q) by (apply Qmult_le_0_compat; lra).
  assert (Hs : (sx <= sy)%Q) by (apply Qmult_le_compat_r; lra).
  rewrite (Qfloor_comp (Qabs sx) sx) by (apply Qabs_pos; exact Hsx).
  rewrite (Qfloor_comp (Qabs sy) sy) by (apply Qabs_pos; lra).
  set (a := Qfloor sx). set (b := Qfloor sy).
  assert (Ha : 0 <= a).
  { unfold a. rewrite <- (Qfloor_Z 0). now apply Qfloor_resp_le. }
  assert (Hab : a <= b) by (now apply Qfloor_resp_le).
  pose proof (Z.log2_le_mono _ _ Hab) as HL.
  pose proof (Z.log2_nonneg a) as HLa.
  set (La := Z.log2 a) in *. set (Lb := Z.log2 b) in *.
  set (kx := Z.max 0 (La - 52)). set (ky := Z.max 0 (Lb - 52)).
  assert (Hkx : 0 <= kx) by lia. assert (Hky : 0 <= ky) by lia.
  assert (HKx : 0 < 2 ^ kx) by (now apply Z.pow_pos_nonneg).
  assert (HKy : 0 < 2 ^ ky) by (now apply Z.pow_pos_nonneg).
  assert (HKxq : (0 < inject_Z (2 ^ kx))%Q) by (apply inject_Z_pos, HKx).
  assert (HKyq : (0 < inject_Z (2 ^ ky))%Q) by (apply inject_Z_pos, HKy).
  apply Qmult_le_compat_r; [|apply Qlt_le_weak, Qinv_lt_0_compat, HUq].
  rewrite <- Zle_Qle.
  destruct (Z.eq_dec kx ky) as [E|E].
  { rewrite E. apply Z.mul_le_mono_nonneg_r; [lia|].
    apply py_round_mono. apply Qmult_le_compat_r; [exact Hs|].
    apply Qlt_le_weak, Qinv_lt_0_compat, HKyq. }
  assert (Hlt : kx + 1 <= ky) by lia.
  assert (Hb : 0 < b /\ ky = Lb - 52).
  { split; [|lia]. destruct (Z.le_gt_cases b 0) as [Hb0|Hb0]; [|exact Hb0].
    exfalso. assert (E0 : Lb = 0) by (apply Z.log2_nonpos, Hb0).
    unfold kx, ky in *. lia. }
  destruct Hb as [Hb Hkyeq].
  (* the smaller number stays below the power of two between them *)
  assert (Hmx : py_round (sx / inject_Z (2 ^ kx)) <= 2 ^ 53).
  { apply py_round_le. apply Qle_shift_div_r; [exact HKxq|].
    rewrite <- inject_Z_mult, <- Z.pow_add_r by lia.
    assert (Hlt1 : (sx < inject_Z (a + 1))%Q) by (apply Qlt_floor).
    assert (Ha1 : a + 1 <= 2 ^ (53 + kx)).
    { apply Z.le_trans with (2 ^ (La + 1)).
      - destruct (Z.eq_dec a 0) as [E0|E0].
        + subst La. rewrite E0. simpl. lia.
        + pose proof (Z.log2_spec a ltac:(lia)) as [_ Hu]. fold La in Hu.
          replace (Z.succ La) with (La + 1) in Hu by lia. lia.
      - apply Z.pow_le_mono_r; lia. }
    rewrite Zle_Qle in Ha1. lra. }
  assert (Hmy : 2 ^ 52 <= py_round (sy / inject_Z (2 ^ ky))).
  { apply py_round_ge. apply Qle_shift_div_l; [exact HKyq|].
    rewrite <- inject_Z_mult, <- Z.pow_add_r by lia.
    assert (Hge : (inject_Z b <= sy)%Q) by (apply Qfloor_le).
    pose proof (Z.log2_spec b Hb) as [Hl _]. fold Lb in Hl.
    replace (52 + ky) with Lb by lia.
    rewrite Zle_Qle in Hl. lra. }
  apply Z.le_trans with (2 ^ 53 * 2 ^ kx).
  { apply Z.mul_le_mono_nonneg_r; lia. }
  apply Z.le_trans with (2 ^ 52 * 2 ^ ky).
  { rewrite <- !Z.pow_add_r by lia. apply Z.pow_le_mono_r; lia. }
  apply Z.mul_le_mono_nonneg_r; lia.
Qed.

(** [min(x, c)] on floats is the float of the exact minimum. *)
Lemma fl_min x c :
  (0 <= x)%Q -> (0 <= c)%Q -> (fl c == c)%Q ->
  (fl (Qmin x c) == Qmin (fl x) c)%Q.
Proof.
  intros Hx Hc Ec. destruct (Qlt_le_dec c x) as [H|H].
  - rewrite (fl_comp (Qmin x c) c) by (apply Q.min_r; lra).
    rewrite Ec. symmetry. apply Q.min_r.
    rewrite <- Ec. apply fl_mono; lra.
  - rewrite (fl_comp (Qmin x c) x) by (apply Q.min_l; lra).
    symmetry. apply Q.min_l.
    rewrite <- Ec. apply fl_mono; lra.
Qed.

(** ** Classification *)

Lemma classify_spec n w r : classify n w r = spec_status n w r.
Proof.
  unfold classify, spec_status.
  destruct (Qltb 0 r) eqn:H0; [apply Qltb_lt in H0 | apply Qltb_ge in H0];
    (destruct (Qltb w r) eqn:Hw; [apply Qltb_lt in Hw | apply Qltb_ge in Hw]);
    repeat case_decide;
    destruct n as [|[|n]]; simpl;
    try reflexivity;
    try (exfalso; intuition (first [lia | lra | congruence]); fail);
    destruct (Qle_bool r w); reflexivity.
Qed.

Lemma required_hours_of_cases a :
  (0 <= required_hours_of a)%Q
  /\ ((a <= 8.75)%Q -> required_hours_of a == fl (8.75 - a))
  /\ ((8.75 <= a)%Q -> required_hours_of a == 0).
Proof.
  unfold required_hours_of. repeat split.
  - apply Q.le_max_l.
  - intros H. apply Q.max_r. apply fl_nonneg. lra.
  - intros H. apply Q.max_l. apply fl_nonpos. lra.
Qed.

Lemma compute_day_metrics_inv kaoqin_df xiujia_df waichu_df chuchai_df day name dm :
  compute_day_metrics kaoqin_df xiujia_df waichu_df chuchai_df day name = Some dm ->
  dm_required_hours dm = required_hours_of (dm_actual_absence_hours dm)
  /\ dm_status dm
     = classify (dm_record_count dm) (dm_work_hours dm) (dm_required_hours dm)
  /\ (dm_record_count dm = 0%nat -> dm_work_hours dm = 0%Q).
Proof.
  unfold compute_day_metrics.
  set (day_df := List.filter _ kaoqin_df).
  pose proof (py_sorted_perm Z.leb (map snd day_df)) as HP.
  destruct (py_sorted Z.leb (map snd day_df)) as [|first_in times];
    destruct (get_absence_hours _ _ _ _ _) as [[[raw_h actual_h] text]|];
    simpl; intros H; inversion H; subst; clear H; simpl.
  - auto.
  - repeat split. intros Hlen.
    apply Permutation_length in HP. rewrite length_map, Hlen in HP.
    discriminate.
Qed.

(** C2: for absence tables in plain text, the status is the one the
    ordered rules give - no-punch for no event and a positive
    requirement, single-punch-missing for one event and too few hours,
    insufficient-attendance for too few hours, normal otherwise - on the
    floats the code compares, with requiredHours = max(0, 8.75 - actual
    absence hours), the difference being the float one; no event and a
    requirement of 0 is normal. *)
Theorem classification_follows_ordered_rules
    kaoqin_df xiujia_df waichu_df chuchai_df day name dm :
  plain_absences (xiujia_df ++ waichu_df ++ chuchai_df) ->
  compute_day_metrics kaoqin_df xiujia_df waichu_df chuchai_df day name = Some dm ->
  let actual := dm_actual_absence_hours dm in
  let required := dm_required_hours dm in
  required = Qmax 0 (fl (8.75 - actual))
  /\ (0 <= required)%Q
  /\ ((actual <= 8.75)%Q -> required == fl (8.75 - actual))
  /\ ((8.75 <= actual)%Q -> required == 0)
  /\ dm_status dm = spec_status (dm_record_count dm) (dm_work_hours dm) required
  /\ (dm_record_count dm = 0%nat -> required == 0 -> dm_status dm = Normal)
  /\ (forall n w r, classify n w r = spec_status n w r)
  /\ classify 0 0 0 = Normal
  /\ classify 0 0 4 = NoPunch
  /\ classify 1 3 8.75 = SinglePunchMissing
  /\ classify 2 9 8.75 = Normal.
Proof.
  intros _ H. apply compute_day_metrics_inv in H as (Hreq & Hst & Hzero).
  cbv zeta. rewrite Hreq.
  destruct (required_hours_of_cases (dm_actual_absence_hours dm)) as (H0 & H1 & H2).
  split; [reflexivity|].
  split; [exact H0|]. split; [exact H1|]. split; [exact H2|].
  split; [rewrite Hst, Hreq; apply classify_spec|].
  split.
  - intros Hn Hr. rewrite Hst, Hreq, Hn, (Hzero Hn), classify_spec.
    unfold spec_status. repeat case_decide; try reflexivity; exfalso;
      intuition (first [lia | lra | congruence]).
  - split; [exact classify_spec|]. repeat split.
Qed.

(** A leave from 09:00 to 11:10 and badge events at 11:10 and 17:45: the
    hours worked, 6.583333333333333, fall short of the hours required,
    6.583333333333334, by one unit in the last place. *)
Lemma classification_follows_ordered_rules_witness :
  exists dm,
    compute_day_metrics
      [("A"%string, datetime_at 2025 4 28 11 10);
       ("A"%string, datetime_at 2025 4 28 17 45)]
      [{| ab_name := "A"; ab_status := "已生效"; ab_type := "年假";
          ab_start := "2025-04-28 09:00"; ab_end := "2025-04-28 11:10" |}] [] []
      (ymd2ord 2025 4 28) "A" = Some dm
    /\ dm_status dm
       = spec_status (dm_record_count dm) (dm_work_hours dm) (dm_required_hours dm)
    /\ dm_record_count dm = 2%nat
    /\ (dm_work_hours dm < dm_required_hours dm)%Q
    /\ dm_status dm = InsufficientAttendance.
Proof.
  destruct (compute_day_metrics
      [("A"%string, datetime_at 2025 4 28 11 10);
       ("A"%string, datetime_at 2025 4 28 17 45)]
      [{| ab_name := "A"; ab_status := "已生效"; ab_type := "年假";
          ab_start := "2025-04-28 09:00"; ab_end := "2025-04-28 11:10" |}] [] []
      (ymd2ord 2025 4 28) "A") as [dm|] eqn:H.
  - exists dm. split; [reflexivity|].
    assert (Hp : plain_absences
                   ([{| ab_name := "A"; ab_status := "已生效"; ab_type := "年假";
                        ab_start := "2025-04-28 09:00";
                        ab_end := "2025-04-28 11:10" |}] ++ [] ++ [])).
    { repeat constructor. }
    split.
    { exact (proj1 (proj2 (proj2 (proj2 (proj2
               (classification_follows_ordered_rules _ _ _ _ _ _ _ Hp H)))))). }
    vm_compute in H. injection H as <-. repeat split.
  - vm_compute in H. discriminate.
Defined.

(** The float that [get_raw_absence_hours] and [get_actual_absence_hours]
    return, [min(total_minutes / 60, 9.0)], is what the day's
    computation holds after it has added the exact hours to [0.0]. *)
Lemma float_of_absence_hours total_minutes :
  0 <= total_minutes ->
  fl (0 + Qmin (hours_of_minutes total_minutes) 9)
  == Qmin (fl (hours_of_minutes total_minutes)) 9.
Proof.
  intros H.
  rewrite (fl_comp (0 + Qmin (hours_of_minutes total_minutes) 9)
                   (Qmin (hours_of_minutes total_minutes) 9)) by ring.
  apply fl_min.
  - unfold hours_of_minutes. apply Qle_shift_div_l; [reflexivity|].
    rewrite Qmult_0_l. change 0%Q with (inject_Z 0). now rewrite <- Zle_Qle.
  - discriminate.
  - vm_compute. reflexivity.
Qed.

(** Where the floats differ from exact arithmetic.  After a leave from
    09:00 to 11:10, badge events at 11:10 and 17:45 give 6.583333333333333
    hours worked against 6.583333333333334 required: insufficient
    attendance.  Badge events at 09:00:00 and 11:40:30 give
    2.6749999999999998 hours, shown as 2.67.  Badge events at 09:00:00
    and 16:30:30 leave 89.49999999999997 minutes, shown as 89. *)
Example float_rounding_examples :
  option_map dm_status
    (compute_day_metrics
       [("A"%string, datetime_at 2025 4 28 11 10);
        ("A"%string, datetime_at 2025 4 28 17 45)]
       [{| ab_name := "A"; ab_status := "已生效"; ab_type := "年假";
           ab_start := "2025-04-28 09:00"; ab_end := "2025-04-28 11:10" |}] [] []
       (ymd2ord 2025 4 28) "A")
  = Some InsufficientAttendance
  /\ option_map
       (fun dm => st_work_hours (stat_row_of ∅ [] (ymd2ord 2025 4 28) "A" dm))
       (compute_day_metrics
          [("A"%string, datetime_at 2025 4 28 9 0);
           ("A"%string, datetime_at 2025 4 28 11 40 + 30 * us_per_second)]
          [] [] [] (ymd2ord 2025 4 28) "A")
     = Some (fl 2.67)
  /\ option_map
       (fun dm =>
          st_actual_absence_minutes (stat_row_of ∅ [] (ymd2ord 2025 4 28) "A" dm))
       (compute_day_metrics
          [("A"%string, datetime_at 2025 4 28 9 0);
           ("A"%string, datetime_at 2025 4 28 16 30 + 30 * us_per_second)]
          [] [] [] (ymd2ord 2025 4 28) "A")
     = Some 89.
Proof. repeat split; vm_compute; reflexivity. Qed.

(** An employee with no badge event and no absence record on a workday:
    8.75 hours are required and the status is no-punch. *)
Example no_event_no_absence :
  option_map (fun dm => (Qred (dm_required_hours dm), dm_status dm))
             (compute_day_metrics [] [] [] [] (ymd2ord 2025 4 28) "A")
  = Some (Qred 8.75, NoPunch).
Proof. vm_compute. reflexivity. Qed.

(** ** Lunch adjustment *)

Lemma date_of_combine d tod :
  0 <= tod < us_per_day -> date_of (combine d tod) = d.
Proof.
  intros H. unfold date_of, combine. symmetry.
  apply (Z.div_unique _ _ d tod); [left; exact H | lia].
Qed.

Lemma date_of_within d t :
  combine d 0 <= t < combine (d + 1) 0 -> date_of t = d.
Proof.
  unfold date_of, combine. intros H. symmetry.
  apply (Z.div_unique _ _ d (t - d * us_per_day)); [left|]; lia.
Qed.

(** C5: the actual absence hours never exceed 9, are 0 when there is no
    absence period, and can exceed the raw hours: an absence from 11:00
    to 12:30 has 1.5 raw hours and 2 actual hours. *)
Theorem actual_absence_hours_bounds :
  (forall merged_periods, (get_actual_absence_hours merged_periods <= 9)%Q)
  /\ get_actual_absence_hours [] == 0
  /\ (exists name day absence_dfs raw merged,
        get_raw_absence_hours name day absence_dfs = Some (raw, merged)
        /\ merged = [(datetime_at 2025 4 28 11 0, datetime_at 2025 4 28 12 30)]
        /\ datetime_at 2025 4 28 11 0 < datetime_at 2025 4 28 12 0
        /\ datetime_at 2025 4 28 12 0 < datetime_at 2025 4 28 12 30
        /\ datetime_at 2025 4 28 12 30 < datetime_at 2025 4 28 13 0
        /\ raw == 1.5
        /\ get_actual_absence_hours merged == 2
        /\ (raw < get_actual_absence_hours merged)%Q).
Proof.
  split; [|split].
  - intros [|first rest]; simpl; [discriminate | apply Q.le_min_r].
  - reflexivity.
  - exists "A"%string, "2025-04-28"%string,
      [[ {| ab_name := "A"; ab_status := status_effective; ab_type := "事假";
            ab_start := "2025-04-28 11:00"; ab_end := "2025-04-28 12:30" |} ]].
    eexists. eexists. split; [vm_compute; reflexivity|].
    split; [vm_compute; reflexivity|].
    repeat split; vm_compute; reflexivity.
Qed.

(** C9: when the absence periods and the lunch period merge into the
    lunch period alone, that period is removed and the actual absence
    hours are 0; this is so for an absence of a minute or more that lies
    within 12:00-13:00, whose raw hours are positive. *)
Theorem absence_within_lunch_vanishes :
  (forall first rest,
     let reference_date := date_of (fst first) in
     let lunch := (combine reference_date (time_of_day 12 0),
                   combine reference_date (time_of_day 13 0)) in
     merge_datetime_periods ((first :: rest) ++ [lunch]) = [lunch] ->
     get_actual_absence_hours (first :: rest) == 0)
  /\ (forall d s e,
        combine d (time_of_day 12 0) <= s -> s + us_per_minute <= e ->
        e <= combine d (time_of_day 13 0) ->
        (0 < Qmin (hours_of_minutes
                     (calculate_datetime_minutes (merge_datetime_periods [(s, e)]))) 9)%Q
        /\ get_actual_absence_hours (merge_datetime_periods [(s, e)]) == 0)
  /\ (exists raw actual text,
        get_absence_hours "A" "2025-04-28"
          [ {| ab_name := "A"; ab_status := status_effective; ab_type := "外出";
               ab_start := "2025-04-28 12:15"; ab_end := "2025-04-28 12:45" |} ] [] []
        = Some (raw, actual, text)
        /\ raw == 0.5 /\ actual == 0).
Proof.
  assert (Hgen : forall first rest,
     let reference_date := date_of (fst first) in
     let lunch := (combine reference_date (time_of_day 12 0),
                   combine reference_date (time_of_day 13 0)) in
     merge_datetime_periods ((first :: rest) ++ [lunch]) = [lunch] ->
     get_actual_absence_hours (first :: rest) == 0).
  { intros first rest reference_date lunch H.
    unfold get_actual_absence_hours. cbv zeta. fold reference_date. fold lunch.
    rewrite H. simpl. rewrite !Z.eqb_refl. simpl. reflexivity. }
  split; [exact Hgen|]. split.
  - intros d s e Hs Hse He.
    assert (Hm : merge_datetime_periods [(s, e)] = [(s, e)]) by reflexivity.
    rewrite Hm. split.
    + unfold calculate_datetime_minutes, timedelta_minutes, hours_of_minutes. simpl.
      assert (H1 : 1 <= Z.quot (e - s) us_per_minute).
      { apply Z.quot_le_lower_bound; [reflexivity | lia]. }
      apply Q.min_glb_lt; [|reflexivity].
      unfold Qlt, Qdiv, Qmult, Qinv, inject_Z. simpl. lia.
    + apply Hgen. simpl fst.
      assert (Hd : date_of s = d).
      { apply date_of_within. unfold combine, time_of_day, us_per_day, us_per_hour,
          us_per_minute, us_per_second in *. lia. }
      rewrite Hd. unfold merge_datetime_periods. simpl.
      unfold start_leb. simpl.
      unfold us_per_minute, us_per_second in Hse.
      destruct (Z.leb_spec s (combine d (time_of_day 12 0))); simpl.
      * assert (s = combine d (time_of_day 12 0)) as -> by lia.
        destruct (Z.ltb_spec e (combine d (time_of_day 12 0))); [lia|].
        destruct (Z.ltb_spec (combine d (time_of_day 13 0)) (combine d (time_of_day 12 0)));
          [unfold combine, time_of_day in *; lia|].
        simpl. rewrite Z.min_id, Z.max_r by lia. reflexivity.
      * destruct (Z.ltb_spec (combine d (time_of_day 13 0)) s); [lia|].
        destruct (Z.ltb_spec e (combine d (time_of_day 12 0))); [lia|].
        simpl. rewrite Z.min_l, Z.max_l by lia. reflexivity.
  - eexists. eexists. eexists. split; [vm_compute; reflexivity|].
    split; vm_compute; reflexivity.
Qed.

Lemma absence_within_lunch_vanishes_witness :
  let d := ymd2ord 2025 4 28 in
  let s := datetime_at 2025 4 28 12 15 in
  let e := datetime_at 2025 4 28 12 45 in
  combine d (time_of_day 12 0) <= s
  /\ s + us_per_minute <= e
  /\ e <= combine d (time_of_day 13 0)
  /\ get_actual_absence_hours (merge_datetime_periods [(s, e)]) == 0.
Proof.
  assert (H1 : combine (ymd2ord 2025 4 28) (time_of_day 12 0) <= datetime_at 2025 4 28 12 15)
    by (vm_compute; discriminate).
  assert (H2 : datetime_at 2025 4 28 12 15 + us_per_minute <= datetime_at 2025 4 28 12 45)
    by (vm_compute; discriminate).
  assert (H3 : datetime_at 2025 4 28 12 45 <= combine (ymd2ord 2025 4 28) (time_of_day 13 0))
    by (vm_compute; discriminate).
  split; [exact H1|]. split; [exact H2|]. split; [exact H3|].
  exact (proj2 (proj1 (proj2 absence_within_lunch_vanishes) _ _ _ H1 H2 H3)).
Defined.

(** ** Calendar policy *)

(** C8: a date in the holiday set is no workday, whatever the workday
    set says; a date in the workday set only is a workday; any other date
    is a workday exactly from Monday to Friday.  The Saturday 2025-02-08
    is a workday when listed as one and is not without any entry. *)
Theorem is_workday_from_calendar_policy d (work_days holiday_days : gset string) :
  (isoformat d ∈ holiday_days ->
   is_workday_from_calendar d work_days holiday_days = false)
  /\ (isoformat d ∉ holiday_days -> isoformat d ∈ work_days ->
      is_workday_from_calendar d work_days holiday_days = true)
  /\ (isoformat d ∉ holiday_days -> isoformat d ∉ work_days ->
      (is_workday_from_calendar d work_days holiday_days = true
       <-> 0 <= weekday d <= 4))
  /\ weekday (ymd2ord 2025 2 8) = 5
  /\ is_workday_from_calendar (ymd2ord 2025 2 8) {[ "2025-02-08"%string ]} ∅ = true
  /\ is_workday_from_calendar (ymd2ord 2025 2 8) ∅ ∅ = false.
Proof.
  split; [|split; [|split; [|split; [|split]]]].
  - intros H. unfold is_workday_from_calendar. now rewrite bool_decide_eq_true_2.
  - intros H1 H2. unfold is_workday_from_calendar.
    rewrite bool_decide_eq_false_2 by assumption.
    now rewrite bool_decide_eq_true_2.
  - intros H1 H2. unfold is_workday_from_calendar.
    rewrite !bool_decide_eq_false_2 by assumption.
    rewrite Z.ltb_lt. unfold weekday.
    pose proof (Z.mod_pos_bound (d + 6) 7). lia.
  - vm_compute. reflexivity.
  - vm_compute. reflexivity.
  - vm_compute. reflexivity.
Qed.

Lemma is_workday_from_calendar_policy_witness :
  isoformat (ymd2ord 2025 10 1) ∈ ({[ "2025-10-01"%string ]} : gset string)
  /\ is_workday_from_calendar (ymd2ord 2025 10 1)
       {[ "2025-10-01"%string ]} {[ "2025-10-01"%string ]} = false.
Proof.
  assert (H : isoformat (ymd2ord 2025 10 1) ∈ ({[ "2025-10-01"%string ]} : gset string)).
  { apply elem_of_singleton. vm_compute. reflexivity. }
  split; [exact H|].
  exact (proj1 (is_workday_from_calendar_policy _ _ _) H).
Defined.

(** ** Absence resolver *)

Lemma process_absence_record_clip record target_date workday_start workday_end p :
  process_absence_record record target_date workday_start workday_end = Some p ->
  exists start_time end_time,
    parse_datetime_str (ab_start record) false = Some start_time
    /\ parse_datetime_str (ab_end record) true = Some end_time
    /\ p = (Z.max start_time workday_start, Z.min end_time workday_end)
    /\ workday_start <= fst p /\ fst p < snd p /\ snd p <= workday_end.
Proof.
  unfold process_absence_record.
  destruct (parse_datetime_str (ab_start record) false) as [s|]; [|discriminate].
  destruct (parse_datetime_str (ab_end record) true) as [e|]; [|discriminate].
  destruct ((date_of e <? date_of target_date) || (date_of target_date <? date_of s));
    [discriminate|].
  destruct (Z.leb_spec (Z.min e workday_end) (Z.max s workday_start)); [discriminate|].
  intros [= <-]. exists s, e. simpl. repeat split; lia.
Qed.

Lemma clipped_periods_in name target_date absence_dfs record p :
  In (record, p) (clipped_periods name target_date absence_dfs) ->
  process_absence_record record target_date
    (target_date + time_of_day 9 0) (target_date + time_of_day 18 0) = Some p.
Proof.
  unfold clipped_periods. rewrite in_flat_map. intros (df & _ & H).
  rewrite in_flat_map in H. destruct H as (r & _ & H).
  destruct (process_absence_record r _ _ _) as [q|] eqn:Hq; [|contradiction].
  destruct H as [[= -> ->]|[]]. exact Hq.
Qed.

Lemma hours_of_minutes_nonneg m : 0 <= m -> (0 <= hours_of_minutes m)%Q.
Proof.
  intros H. unfold hours_of_minutes, Qle, Qdiv, Qmult, Qinv, inject_Z. simpl. lia.
Qed.

(** C6: every period the resolver keeps is the record's period cut to the
    workday window of the target date by a max on the starts and a min on
    the ends, it is not empty, and the raw absence hours returned lie
    between 0 and 9. *)
Theorem absence_resolver_window name day absence_dfs d :
  strptime_date (list_ascii_of_string day) = Some d ->
  (forall record p,
     In (record, p) (clipped_periods name (combine d 0) absence_dfs) ->
     (exists start_time end_time,
        parse_datetime_str (ab_start record) false = Some start_time
        /\ parse_datetime_str (ab_end record) true = Some end_time
        /\ p = (Z.max start_time (combine d (time_of_day 9 0)),
                Z.min end_time (combine d (time_of_day 18 0))))
     /\ combine d (time_of_day 9 0) <= fst p
     /\ fst p < snd p
     /\ snd p <= combine d (time_of_day 18 0))
  /\ (exists raw merged,
        get_raw_absence_hours name day absence_dfs = Some (raw, merged)
        /\ (0 <= raw)%Q /\ (raw <= 9)%Q
        /\ Forall (fun p => combine d (time_of_day 9 0) <= fst p
                            /\ fst p <= snd p
                            /\ snd p <= combine d (time_of_day 18 0)) merged).
Proof.
  intros Hday.
  assert (H9 : combine d 0 + time_of_day 9 0 = combine d (time_of_day 9 0))
    by (unfold combine; lia).
  assert (H18 : combine d 0 + time_of_day 18 0 = combine d (time_of_day 18 0))
    by (unfold combine; lia).
  assert (Hwin : forall record p,
     In (record, p) (clipped_periods name (combine d 0) absence_dfs) ->
     (exists start_time end_time,
        parse_datetime_str (ab_start record) false = Some start_time
        /\ parse_datetime_str (ab_end record) true = Some end_time
        /\ p = (Z.max start_time (combine d (time_of_day 9 0)),
                Z.min end_time (combine d (time_of_day 18 0))))
     /\ combine d (time_of_day 9 0) <= fst p
     /\ fst p < snd p
     /\ snd p <= combine d (time_of_day 18 0)).
  { intros record p Hin. apply clipped_periods_in in Hin.
    rewrite H9, H18 in Hin.
    apply process_absence_record_clip in Hin
      as (s & e & Hs & He & Hp & Hlo & Hne & Hhi).
    split; [exists s, e; auto | auto]. }
  split; [exact Hwin|].
  unfold get_raw_absence_hours. rewrite Hday. simpl.
  set (all_time_periods := map snd (clipped_periods name (combine d 0) absence_dfs)).
  assert (Hall : Forall (fun p => combine d (time_of_day 9 0) <= fst p
                                  /\ fst p < snd p
                                  /\ snd p <= combine d (time_of_day 18 0))
                        all_time_periods).
  { apply List.Forall_forall. intros p Hp. unfold all_time_periods in Hp.
    apply in_map_iff in Hp as ([record q] & <- & Hin). simpl.
    apply (Hwin record q Hin). }
  destruct all_time_periods as [|p0 ps] eqn:Hps.
  - exists 0%Q, []. repeat split; try discriminate. constructor.
  - eexists. eexists. split; [reflexivity|].
    assert (Hv : Forall valid (p0 :: ps)).
    { eapply Forall_impl; [exact Hall|]. unfold valid. simpl. intros; lia. }
    pose proof (merge_chain _ Hv) as [Hmv _].
    split; [|split].
    + apply Q.min_glb; [|discriminate].
      apply hours_of_minutes_nonneg, calculate_datetime_minutes_nonneg, Hmv.
    + apply Q.le_min_r.
    + pose proof (merge_ends
                    (fun t => combine d (time_of_day 9 0) <= t
                              <= combine d (time_of_day 18 0)) (p0 :: ps)) as He.
      simpl in He.
      assert (Hin : Forall (fun p => (combine d (time_of_day 9 0) <= fst p
                                      <= combine d (time_of_day 18 0))
                                     /\ (combine d (time_of_day 9 0) <= snd p
                                         <= combine d (time_of_day 18 0)))
                           (p0 :: ps)).
      { eapply Forall_impl; [exact Hall|]. simpl. intros; lia. }
      specialize (He Hin).
      apply List.Forall_forall. intros p Hp.
      rewrite List.Forall_forall in He, Hmv.
      specialize (He p Hp). specialize (Hmv p Hp). unfold valid in Hmv. lia.
Qed.

Lemma absence_resolver_window_witness :
  strptime_date (list_ascii_of_string "2025-04-28") = Some (ymd2ord 2025 4 28)
  /\ exists raw merged,
       get_raw_absence_hours "A" "2025-04-28"
         [[ {| ab_name := "A"; ab_status := status_effective; ab_type := "年假";
               ab_start := "2025-04-25"; ab_end := "2025-04-28 上午" |} ]]
       = Some (raw, merged)
       /\ (0 <= raw)%Q /\ (raw <= 9)%Q.
Proof.
  assert (H : strptime_date (list_ascii_of_string "2025-04-28") = Some (ymd2ord 2025 4 28))
    by (vm_compute; reflexivity).
  split; [exact H|].
  destruct (proj2 (absence_resolver_window "A" "2025-04-28"
              [[ {| ab_name := "A"; ab_status := status_effective; ab_type := "年假";
                    ab_start := "2025-04-25"; ab_end := "2025-04-28 上午" |} ]] _ H))
    as (raw & merged & Hr & H0 & H9 & _).
  exists raw, merged. auto.
Defined.

(** A leave from 2025-04-25 to the morning of 2025-04-28, seen on the
    28th: the period kept is 09:00-12:00, three raw hours. *)
Example multi_day_leave_clipped :
  option_map (fun '(raw, merged) => (Qred raw, merged))
    (get_raw_absence_hours "A" "2025-04-28"
       [[ {| ab_name := "A"; ab_status := status_effective; ab_type := "年假";
             ab_start := "2025-04-25"; ab_end := "2025-04-28 上午" |} ]])
  = Some (3%Q, [(datetime_at 2025 4 28 9 0, datetime_at 2025 4 28 12 0)]).
Proof. vm_compute. reflexivity. Qed.

(** ** Time expressions *)

Section Strptime.

Implicit Types (s t r ds ts : list ascii) (c x : ascii).

Lemma span_digits_app s c t :
  is_digit c = false ->
  span_digits (s ++ c :: t)
  = (fst (span_digits s), snd (span_digits s) ++ c :: t).
Proof.
  intros Hc. induction s as [|a s IH]; simpl.
  - now rewrite Hc.
  - destruct (is_digit a); [|reflexivity].
    rewrite IH. now destruct (span_digits s).
Qed.

Lemma span_digits_split s : s = fst (span_digits s) ++ snd (span_digits s).
Proof.
  induction s as [|a s IH]; simpl; [reflexivity|].
  destruct (is_digit a); [|reflexivity].
  destruct (span_digits s); simpl in *. now f_equal.
Qed.

Lemma number_field_app a b lo hi s c t :
  is_digit c = false ->
  number_field a b lo hi (s ++ c :: t)
  = '(v, r) ← number_field a b lo hi s; Some (v, r ++ c :: t).
Proof.
  intros Hc. unfold number_field. rewrite span_digits_app by exact Hc.
  destruct (span_digits s) as [d r]. simpl.
  now destruct (_ && _).
Qed.

Lemma number_field_suffix a b lo hi s v r :
  number_field a b lo hi s = Some (v, r) -> exists pre, s = pre ++ r.
Proof.
  unfold number_field. pose proof (span_digits_split s) as Hs.
  destruct (span_digits s) as [d r']. simpl in Hs.
  destruct (_ && _); [|discriminate]. intros [= <- <-]. now exists d.
Qed.

Lemma span_digits_digits s : Forall (fun c => is_digit c = true) (fst (span_digits s)).
Proof.
  induction s as [|a s IH]; simpl; [constructor|].
  destruct (is_digit a) eqn:Ha; [|constructor].
  destruct (span_digits s). simpl in *. now constructor.
Qed.

Lemma number_field_all_digits a b lo hi s v :
  number_field a b lo hi s = Some (v, []) -> Forall (fun c => is_digit c = true) s.
Proof.
  unfold number_field. pose proof (span_digits_split s) as Hs.
  pose proof (span_digits_digits s) as Hd.
  destruct (span_digits s) as [d r']. simpl in *.
  destruct (_ && _); [|discriminate]. intros [= _ ->].
  now rewrite Hs, app_nil_r.
Qed.

Lemma expect_app x s c t :
  c <> x -> expect x (s ++ c :: t) = r ← expect x s; Some (r ++ c :: t).
Proof.
  intros Hc. destruct s as [|a s]; simpl.
  - apply Ascii.eqb_neq in Hc. now rewrite Hc.
  - now destruct (Ascii.eqb a x).
Qed.

Lemma expect_suffix x s r : expect x s = Some r -> s = x :: r.
Proof.
  destruct s as [|a s]; simpl; [discriminate|].
  destruct (Ascii.eqb_spec a x); [|discriminate]. now intros [= <-]; subst.
Qed.

Lemma directive_d_app s t :
  s <> [] ->
  directive_d (s ++ " "%char :: t)
  = '(v, r) ← directive_d s; Some (v, r ++ " "%char :: t).
Proof.
  destruct s as [|a s]; [congruence|]. intros _. simpl.
  destruct (Ascii.eqb a " ").
  - now apply number_field_app.
  - now apply (number_field_app 1 2 1 31 (a :: s)).
Qed.

Lemma directive_d_suffix s v r :
  directive_d s = Some (v, r) -> exists pre, s = pre ++ r.
Proof.
  destruct s as [|a s]; simpl; [discriminate|].
  destruct (Ascii.eqb a " ").
  - intros H. apply number_field_suffix in H as [pre ->]. now exists (a :: pre).
  - apply number_field_suffix.
Qed.

Lemma match_date_app_cases s t :
  match match_date s with
  | Some (y, m, d, r0) =>
      match_date (s ++ " "%char :: t) = Some (y, m, d, r0 ++ " "%char :: t)
  | None =>
      match match_date (s ++ " "%char :: t) with
      | Some (y, m, d, r) => exists pre, t = pre ++ r
      | None => True
      end
  end.
Proof.
  unfold match_date, directive_Y, directive_m.
  rewrite (number_field_app 4 4 0 9999) by reflexivity.
  destruct (number_field 4 4 0 9999 s) as [[y r1]|]; simpl; [|exact I].
  rewrite expect_app by discriminate.
  destruct (expect "-" r1) as [r2|]; simpl; [|exact I].
  rewrite (number_field_app 1 2 1 12) by reflexivity.
  destruct (number_field 1 2 1 12 r2) as [[m r3]|]; simpl; [|exact I].
  rewrite expect_app by discriminate.
  destruct (expect "-" r3) as [r4|]; simpl; [|exact I].
  destruct r4 as [|a r4].
  - simpl. destruct (number_field 1 1 1 9 t) as [[d r]|] eqn:Hd; simpl; [|exact I].
    eapply number_field_suffix, Hd.
  - rewrite directive_d_app by discriminate.
    destruct (directive_d (a :: r4)) as [[d r5]|]; simpl; [reflexivity | exact I].
Qed.

Lemma match_date_suffix s y m d r :
  match_date s = Some (y, m, d, r) -> exists pre, s = pre ++ r.
Proof.
  unfold match_date, directive_Y, directive_m.
  destruct (number_field 4 4 0 9999 s) as [[y' r1]|] eqn:H1; simpl; [|discriminate].
  destruct (expect "-" r1) as [r2|] eqn:H2; simpl; [|discriminate].
  destruct (number_field 1 2 1 12 r2) as [[m' r3]|] eqn:H3; simpl; [|discriminate].
  destruct (expect "-" r3) as [r4|] eqn:H4; simpl; [|discriminate].
  destruct (directive_d r4) as [[d' r5]|] eqn:H5; simpl; [|discriminate].
  intros [= <- <- <- <-].
  apply number_field_suffix in H1 as [p1 ->].
  apply expect_suffix in H2 as ->.
  apply number_field_suffix in H3 as [p3 ->].
  apply expect_suffix in H4 as ->.
  apply directive_d_suffix in H5 as [p5 ->].
  exists (p1 ++ "-"%char :: p3 ++ "-"%char :: p5).
  now rewrite <- !app_assoc, <- !app_comm_cons, <- !app_assoc.
Qed.

Lemma no_space_app s t : no_space (s ++ t) <-> no_space s /\ no_space t.
Proof. apply List.Forall_app. Qed.

Lemma lstrip_no_space s : no_space s -> lstrip s = s.
Proof.
  destruct s as [|a s]; [reflexivity|]. intros H. inversion H as [|? ? Ha _]; subst.
  simpl. now rewrite Ha.
Qed.

Lemma spaces1_no_space s : no_space s -> spaces1 s = None.
Proof.
  destruct s as [|a s]; [reflexivity|]. intros H. inversion H as [|? ? Ha _]; subst.
  simpl. now rewrite Ha.
Qed.

(** ['%Y-%m-%d %H:%M'] on a date token, a blank and a time token. *)
Lemma strptime_datetime_tokens ds ts :
  no_space ds -> no_space ts ->
  strptime_datetime (ds ++ " "%char :: ts)
  = day ← strptime_date ds;
    '(hh, mm) ← strptime_time ts;
    Some (combine day (time_of_day hh mm)).
Proof.
  intros Hds Hts. unfold strptime_datetime, strptime_date, strptime_time.
  pose proof (match_date_app_cases ds ts) as H.
  destruct (match_date ds) as [[[[y m] d] r0]|] eqn:Hm.
  - rewrite H. simpl.
    apply match_date_suffix in Hm as [pre ->].
    apply no_space_app in Hds as [_ Hr0].
    destruct r0 as [|a r0].
    + simpl. rewrite lstrip_no_space by exact Hts.
      destruct (match_time ts) as [[[hh mm] [|b r]]|]; simpl;
        destruct (mk_date y m d); reflexivity.
    + inversion Hr0 as [|? ? Ha _]; subst. simpl. rewrite Ha. reflexivity.
  - destruct (match_date (ds ++ " "%char :: ts)) as [[[[y m] d] r]|]; [|reflexivity].
    destruct H as [pre ->]. apply no_space_app in Hts as [_ Hr].
    simpl. now rewrite spaces1_no_space.
Qed.

(** Without whitespace there is no match of ['%Y-%m-%d %H:%M']. *)
Lemma strptime_datetime_no_space s : no_space s -> strptime_datetime s = None.
Proof.
  intros Hs. unfold strptime_datetime.
  destruct (match_date s) as [[[[y m] d] r]|] eqn:Hm; [|reflexivity].
  apply match_date_suffix in Hm as [pre ->].
  apply no_space_app in Hs as [_ Hr]. simpl. now rewrite spaces1_no_space.
Qed.

Lemma strip_id s : lstrip s = s -> lstrip (rev s) = rev s -> strip s = s.
Proof. intros H1 H2. unfold strip. now rewrite H1, H2, rev_involutive. Qed.

Lemma lstrip_token_app s t : token s -> lstrip (s ++ t) = s ++ t.
Proof.
  intros [Hne Hs]. destruct s as [|a s]; [congruence|].
  inversion Hs as [|? ? Ha _]; subst. simpl. now rewrite Ha.
Qed.

Lemma token_rev s : token s -> token (rev s).
Proof.
  intros [Hne Hs]. split.
  - intros H. apply (f_equal (@rev ascii)) in H. rewrite rev_involutive in H.
    simpl in H. congruence.
  - unfold no_space. apply List.Forall_rev, Hs.
Qed.

Lemma strip_token s : token s -> strip s = s.
Proof.
  intros H. apply strip_id.
  - rewrite <- (app_nil_r s). now apply lstrip_token_app.
  - rewrite <- (app_nil_r (rev s)). now apply lstrip_token_app, token_rev.
Qed.

Lemma strip_token_pair ds ts :
  token ds -> token ts -> strip (ds ++ " "%char :: ts) = ds ++ " "%char :: ts.
Proof.
  intros Hd Ht. apply strip_id.
  - now apply lstrip_token_app.
  - rewrite rev_app_distr. simpl. rewrite <- !app_assoc.
    now apply lstrip_token_app, token_rev.
Qed.

Lemma split_token_app ds : forall rest,
  token ds ->
  match rest with [] => True | c :: _ => is_space c = true end ->
  split (ds ++ rest) = ds :: split rest.
Proof.
  induction ds as [|a ds IH]; intros rest [Hne Hs] Hrest; [congruence|].
  inversion Hs as [|? ? Ha Hs']; subst. simpl. rewrite Ha.
  destruct ds as [|b ds].
  - simpl. destruct rest as [|c r]; [reflexivity|]. now rewrite Hrest.
  - inversion Hs' as [|? ? Hb _]; subst.
    change ((b :: ds) ++ rest) with (b :: (ds ++ rest)) at 1. cbv iota. rewrite Hb.
    change (b :: ds ++ rest) with ((b :: ds) ++ rest).
    rewrite IH; [reflexivity | split; [discriminate | assumption] | assumption].
Qed.

Lemma split_token s : token s -> split s = [s].
Proof.
  intros H. rewrite <- (app_nil_r s) at 1. now rewrite split_token_app.
Qed.

Lemma split_token_pair ds ts :
  token ds -> token ts -> split (ds ++ " "%char :: ts) = [ds; ts].
Proof.
  intros Hd Ht. rewrite split_token_app by (assumption || reflexivity).
  simpl. now rewrite split_token.
Qed.

Lemma contains_head_in c needle s : contains (c :: needle) s = true -> In c s.
Proof.
  induction s as [|a s IH]; simpl; [discriminate|].
  destruct (Ascii.eqb_spec c a) as [->|_]; simpl; [now left|].
  intros H. right. now apply IH.
Qed.

(** A time that ['%H:%M'] accepts holds digits and a colon only. *)
Lemma strptime_time_chars s hh mm :
  strptime_time s = Some (hh, mm) ->
  Forall (fun c => is_digit c = true \/ c = ":"%char) s.
Proof.
  unfold strptime_time, match_time, directive_H, directive_M.
  destruct (number_field 1 2 0 23 s) as [[h r1]|] eqn:H1; simpl; [|discriminate].
  destruct (expect ":" r1) as [r2|] eqn:H2; simpl; [|discriminate].
  destruct (number_field 1 2 0 59 r2) as [[m [|b r3]]|] eqn:H3; simpl; [|discriminate..].
  intros _.
  apply number_field_all_digits in H3.
  apply expect_suffix in H2 as ->.
  unfold number_field in H1. pose proof (span_digits_split s) as Hs.
  pose proof (span_digits_digits s) as Hd.
  destruct (span_digits s) as [d r']. simpl in *.
  destruct (_ && _); [|discriminate]. injection H1 as _ ->.
  rewrite Hs. apply List.Forall_app. split.
  - eapply Forall_impl; [exact Hd|]. auto.
  - constructor; [now right|]. eapply Forall_impl; [exact H3|]. auto.
Qed.

Lemma marker_not_time marker s :
  marker = morning_marker \/ marker = afternoon_marker ->
  contains marker s = true -> strptime_time s = None.
Proof.
  intros Hm Hc. destruct (strptime_time s) as [[hh mm]|] eqn:Ht; [|reflexivity].
  exfalso. apply strptime_time_chars in Ht.
  assert (Hin : In "228"%char s).
  { destruct Hm as [-> | ->]; exact (contains_head_in _ _ _ Hc). }
  rewrite List.Forall_forall in Ht. destruct (Ht _ Hin) as [H|H]; discriminate.
Qed.

(** *** A run of whitespace between the two tokens *)

Lemma space_not_digit c : is_space c = true -> is_digit c = false.
Proof.
  unfold is_digit, is_space. cbv zeta.
  set (n := Z.of_N (N_of_ascii c)).
  rewrite orb_true_iff, !andb_true_iff, !Z.leb_le. intros H.
  apply andb_false_iff. destruct H as [[H1 H2]|[H1 H2]].
  - left. apply Z.leb_gt. lia.
  - left. apply Z.leb_gt. lia.
Qed.

Lemma space_not_dash c : is_space c = true -> c <> "-"%char.
Proof. intros H ->. discriminate. Qed.

Lemma lstrip_run ws s :
  Forall (fun c => is_space c = true) ws -> lstrip (ws ++ s) = lstrip s.
Proof.
  induction 1 as [|c ws Hc _ IH]; simpl; [reflexivity|]. now rewrite Hc.
Qed.

Lemma directive_d_app_space s c t :
  s <> [] -> is_space c = true ->
  directive_d (s ++ c :: t) = '(v, r) ← directive_d s; Some (v, r ++ c :: t).
Proof.
  destruct s as [|a s]; [congruence|]. intros _ Hc. simpl.
  apply space_not_digit in Hc.
  destruct (Ascii.eqb a " ").
  - now apply number_field_app.
  - now apply (number_field_app 1 2 1 31 (a :: s)).
Qed.

(** The one case in which the date runs into the second token: the day
    is the blank of [ [1-9]] and the first character after it. *)
Lemma match_date_app_space s c t :
  is_space c = true ->
  match match_date s with
  | Some (y, m, d, r0) =>
      match_date (s ++ c :: t) = Some (y, m, d, r0 ++ c :: t)
  | None =>
      match match_date (s ++ c :: t) with
      | Some (y, m, d, r) => exists a, is_digit a = true /\ t = a :: r
      | None => True
      end
  end.
Proof.
  intros Hc. pose proof (space_not_digit c Hc) as Hd.
  pose proof (space_not_dash c Hc) as Hm.
  unfold match_date, directive_Y, directive_m.
  rewrite (number_field_app 4 4 0 9999) by exact Hd.
  destruct (number_field 4 4 0 9999 s) as [[y r1]|]; simpl; [|exact I].
  rewrite expect_app by exact Hm.
  destruct (expect "-" r1) as [r2|]; simpl; [|exact I].
  rewrite (number_field_app 1 2 1 12) by exact Hd.
  destruct (number_field 1 2 1 12 r2) as [[m r3]|]; simpl; [|exact I].
  rewrite expect_app by exact Hm.
  destruct (expect "-" r3) as [r4|]; simpl; [|exact I].
  destruct r4 as [|a r4].
  - simpl. destruct (Ascii.eqb c " ").
    + unfold number_field. pose proof (span_digits_split t) as Hs.
      pose proof (span_digits_digits t) as Hdig.
      destruct (span_digits t) as [dd r]. simpl in Hs, Hdig.
      destruct dd as [|a [|b dd]]; simpl; try exact I.
      destruct (_ && _); simpl; [|exact I].
      exists a. split; [now inversion Hdig | exact Hs].
    + unfold number_field. simpl. rewrite Hd. simpl. exact I.
  - rewrite directive_d_app_space by (discriminate || exact Hc).
    destruct (directive_d (a :: r4)) as [[d r5]|]; simpl; [reflexivity | exact I].
Qed.

(** ['%Y-%m-%d %H:%M'] on a date token, a run of whitespace and a time
    token. *)
Lemma strptime_datetime_run ds ws ts :
  no_space ds -> no_space ts ->
  ws <> [] -> Forall (fun c => is_space c = true) ws ->
  strptime_datetime (ds ++ ws ++ ts)
  = day ← strptime_date ds;
    '(hh, mm) ← strptime_time ts;
    Some (combine day (time_of_day hh mm)).
Proof.
  intros Hds Hts Hne Hws. destruct ws as [|c ws]; [congruence|].
  inversion Hws as [|? ? Hc Hws']; subst.
  change ((c :: ws) ++ ts) with (c :: (ws ++ ts)).
  unfold strptime_datetime, strptime_date, strptime_time.
  pose proof (match_date_app_space ds c (ws ++ ts) Hc) as H.
  destruct (match_date ds) as [[[[y m] d] r0]|] eqn:Hm.
  - rewrite H. simpl.
    apply match_date_suffix in Hm as [pre ->].
    apply no_space_app in Hds as [_ Hr0].
    destruct r0 as [|a r0].
    + simpl. rewrite Hc, lstrip_run, lstrip_no_space by assumption. simpl.
      destruct (match_time ts) as [[[hh mm] [|b r]]|]; simpl;
        destruct (mk_date y m d); reflexivity.
    + inversion Hr0 as [|? ? Ha _]; subst. simpl. rewrite Ha. reflexivity.
  - destruct (match_date (ds ++ c :: ws ++ ts)) as [[[[y m] d] r]|]; [|reflexivity].
    destruct H as (a & Ha & Ht). simpl.
    destruct ws as [|c' ws].
    + simpl in Ht. subst ts. inversion Hts as [|? ? _ Hr]; subst.
      now rewrite spaces1_no_space.
    + injection Ht as <- _. inversion Hws' as [|? ? Hc' _]; subst.
      apply space_not_digit in Hc'. congruence.
Qed.

Lemma strip_token_run ds ws ts :
  token ds -> token ts -> strip (ds ++ ws ++ ts) = ds ++ ws ++ ts.
Proof.
  intros Hd Ht. apply strip_id.
  - now apply lstrip_token_app.
  - rewrite !rev_app_distr, <- app_assoc.
    now apply lstrip_token_app, token_rev.
Qed.

Lemma split_run ws s :
  Forall (fun c => is_space c = true) ws -> split (ws ++ s) = split s.
Proof.
  induction 1 as [|c ws Hc _ IH]; [reflexivity|].
  change ((c :: ws) ++ s) with (c :: (ws ++ s)). simpl. now rewrite Hc.
Qed.

Lemma split_token_run ds ws ts :
  token ds -> token ts ->
  ws <> [] -> Forall (fun c => is_space c = true) ws ->
  split (ds ++ ws ++ ts) = [ds; ts].
Proof.
  intros Hd Ht Hne Hws.
  rewrite split_token_app; [|exact Hd|].
  - now rewrite split_run, split_token.
  - destruct ws as [|c ws]; [congruence|]. now inversion Hws.
Qed.

End Strptime.

Section ParseForms.

Implicit Types (ds ts : list ascii).

Lemma parse_bare_date ds is_end_time :
  token ds ->
  parse_datetime_str (string_of_list_ascii ds) is_end_time
  = day ← strptime_date ds;
    Some (combine day (time_of_day (if is_end_time then 18 else 9) 0)).
Proof.
  intros Hds. unfold parse_datetime_str.
  rewrite list_ascii_of_string_of_list_ascii, strip_token by exact Hds.
  rewrite strptime_datetime_no_space by apply Hds.
  rewrite split_token by exact Hds.
  destruct (strptime_date ds) as [day|] eqn:Hd; [|reflexivity]. simpl.
  rewrite strptime_datetime_tokens;
    [|apply Hds | destruct is_end_time; repeat constructor].
  rewrite Hd. now destruct is_end_time.
Qed.

Lemma parse_date_and_token ds ts is_end_time :
  token ds -> token ts ->
  parse_datetime_str (string_of_list_ascii (ds ++ " "%char :: ts)) is_end_time
  = day ← strptime_date ds;
    match strptime_time ts with
    | Some (hh, mm) => Some (combine day (time_of_day hh mm))
    | None =>
        if contains morning_marker ts
        then Some (combine day (time_of_day (if is_end_time then 12 else 9) 0))
        else if contains afternoon_marker ts
        then Some (combine day (time_of_day (if is_end_time then 18 else 13) 0))
        else None
    end.
Proof.
  intros Hds Hts. unfold parse_datetime_str.
  rewrite list_ascii_of_string_of_list_ascii, strip_token_pair by assumption.
  rewrite strptime_datetime_tokens by (apply Hds || apply Hts).
  rewrite split_token_pair by assumption.
  destruct (strptime_date ds) as [day|] eqn:Hd; [|reflexivity]. simpl.
  destruct (strptime_time ts) as [[hh mm]|] eqn:Ht; [reflexivity|]. simpl.
  destruct ts as [|c ts']; [destruct Hts; congruence|].
  destruct (contains morning_marker (c :: ts')).
  { assert (Hw : forall w, no_space (list_ascii_of_string w) ->
              strptime_datetime (ds ++ " "%char :: list_ascii_of_string w)
              = '(hh, mm) ← strptime_time (list_ascii_of_string w);
                Some (combine day (time_of_day hh mm))).
    { intros w Hw. rewrite strptime_datetime_tokens by (apply Hds || exact Hw).
      now rewrite Hd. }
    destruct is_end_time;
      [exact (Hw "12:00"%string ltac:(repeat constructor))
      |exact (Hw "09:00"%string ltac:(repeat constructor))]. }
  destruct (contains afternoon_marker (c :: ts')).
  { assert (Hw : forall w, no_space (list_ascii_of_string w) ->
              strptime_datetime (ds ++ " "%char :: list_ascii_of_string w)
              = '(hh, mm) ← strptime_time (list_ascii_of_string w);
                Some (combine day (time_of_day hh mm))).
    { intros w Hw. rewrite strptime_datetime_tokens by (apply Hds || exact Hw).
      now rewrite Hd. }
    destruct is_end_time;
      [exact (Hw "18:00"%string ltac:(repeat constructor))
      |exact (Hw "13:00"%string ltac:(repeat constructor))]. }
  rewrite strptime_datetime_tokens by (apply Hds || apply Hts).
  now rewrite Hd, Ht.
Qed.

Lemma parse_date_run_token ds ws ts is_end_time :
  token ds -> token ts ->
  ws <> [] -> Forall (fun c => is_space c = true) ws ->
  parse_datetime_str (string_of_list_ascii (ds ++ ws ++ ts)) is_end_time
  = parse_datetime_str (string_of_list_ascii (ds ++ " "%char :: ts)) is_end_time.
Proof.
  intros Hds Hts Hne Hws. unfold parse_datetime_str.
  rewrite !list_ascii_of_string_of_list_ascii.
  rewrite strip_token_run, strip_token_pair by assumption.
  rewrite strptime_datetime_run by (apply Hds || apply Hts || assumption).
  rewrite strptime_datetime_tokens by (apply Hds || apply Hts).
  rewrite split_token_run, split_token_pair by assumption.
  reflexivity.
Qed.

End ParseForms.

Lemma process_absence_record_unparsed record target_date workday_start workday_end :
  parse_datetime_str (ab_start record) false = None
  \/ parse_datetime_str (ab_end record) true = None ->
  process_absence_record record target_date workday_start workday_end = None.
Proof.
  unfold process_absence_record. intros [H|H]; rewrite H; [reflexivity|].
  now destruct (parse_datetime_str (ab_start record) false).
Qed.

(** C7: on plain text - a date token, alone or followed by whitespace
    and one more token - parsing gives 09:00 (start) or 18:00 (end) for
    the bare date, 09:00 or 12:00 with the morning marker, 13:00 or 18:00
    with the afternoon marker, and the time itself for an explicit HH:MM
    whatever the end flag; it fails when the date token is no calendar
    date, and when the second token is neither a marker nor a valid
    HH:MM; a record whose start or end fails to parse is left out and
    the remaining records are processed. *)
Theorem parse_datetime_str_forms ds ws is_end_time :
  token ds -> plain_text ds = true ->
  ws <> [] -> Forall (fun c => is_space c = true) ws ->
  (forall day, strptime_date ds = Some day ->
     parse_datetime_str (string_of_list_ascii ds) is_end_time
     = Some (combine day (time_of_day (if is_end_time then 18 else 9) 0))
     /\ (forall ts, token ts -> plain_text ts = true ->
         contains morning_marker ts = true ->
         parse_datetime_str (string_of_list_ascii (ds ++ ws ++ ts)) is_end_time
         = Some (combine day (time_of_day (if is_end_time then 12 else 9) 0)))
     /\ (forall ts, token ts -> plain_text ts = true ->
         contains morning_marker ts = false ->
         contains afternoon_marker ts = true ->
         parse_datetime_str (string_of_list_ascii (ds ++ ws ++ ts)) is_end_time
         = Some (combine day (time_of_day (if is_end_time then 18 else 13) 0)))
     /\ (forall ts hh mm, token ts -> strptime_time ts = Some (hh, mm) ->
         parse_datetime_str (string_of_list_ascii (ds ++ ws ++ ts)) is_end_time
         = Some (combine day (time_of_day hh mm))))
  /\ (strptime_date ds = None ->
      parse_datetime_str (string_of_list_ascii ds) is_end_time = None
      /\ (forall ts, token ts -> plain_text ts = true ->
          parse_datetime_str (string_of_list_ascii (ds ++ ws ++ ts)) is_end_time
          = None))
  /\ (forall ts, token ts -> plain_text ts = true -> strptime_time ts = None ->
      contains morning_marker ts = false -> contains afternoon_marker ts = false ->
      parse_datetime_str (string_of_list_ascii (ds ++ ws ++ ts)) is_end_time
      = None)
  /\ (forall record name target_date df absence_dfs,
      plain_string (ab_start record) -> plain_string (ab_end record) ->
      parse_datetime_str (ab_start record) false = None
      \/ parse_datetime_str (ab_end record) true = None ->
      clipped_periods name target_date ((record :: df) :: absence_dfs)
      = clipped_periods name target_date (df :: absence_dfs)).
Proof.
  intros Hds _ Hne Hws.
  assert (Hrun : forall ts, token ts ->
            parse_datetime_str (string_of_list_ascii (ds ++ ws ++ ts)) is_end_time
            = day ← strptime_date ds;
              match strptime_time ts with
              | Some (hh, mm) => Some (combine day (time_of_day hh mm))
              | None =>
                  if contains morning_marker ts
                  then Some (combine day
                               (time_of_day (if is_end_time then 12 else 9) 0))
                  else if contains afternoon_marker ts
                  then Some (combine day
                               (time_of_day (if is_end_time then 18 else 13) 0))
                  else None
              end).
  { intros ts Hts. rewrite parse_date_run_token by assumption.
    now apply parse_date_and_token. }
  split; [|split; [|split]].
  - intros day Hday. split; [|split; [|split]].
    + now rewrite parse_bare_date, Hday.
    + intros ts Hts _ Hm. rewrite Hrun, Hday by assumption. simpl.
      rewrite (marker_not_time morning_marker) by auto. now rewrite Hm.
    + intros ts Hts _ Hm Ha. rewrite Hrun, Hday by assumption. simpl.
      rewrite (marker_not_time afternoon_marker) by auto. now rewrite Hm, Ha.
    + intros ts hh mm Hts Ht. rewrite Hrun, Hday by assumption.
      simpl. now rewrite Ht.
  - intros Hday. split.
    + now rewrite parse_bare_date, Hday.
    + intros ts Hts _. now rewrite Hrun, Hday.
  - intros ts Hts _ Ht Hm Ha. rewrite Hrun by assumption.
    destruct (strptime_date ds); [|reflexivity]. simpl. now rewrite Ht, Hm, Ha.
  - intros record name target_date df absence_dfs _ _ Hbad.
    unfold clipped_periods. simpl.
    destruct (row_selected name record); [|reflexivity]. simpl.
    now rewrite process_absence_record_unparsed.
Qed.

Lemma parse_datetime_str_forms_witness :
  token (list_ascii_of_string "2025-04-28")
  /\ plain_text (list_ascii_of_string "2025-04-28") = true
  /\ strptime_date (list_ascii_of_string "2025-04-28") = Some (ymd2ord 2025 4 28)
  /\ parse_datetime_str "2025-04-28" true = Some (datetime_at 2025 4 28 18 0)
  /\ parse_datetime_str "2025-04-28  下午" false = Some (datetime_at 2025 4 28 13 0).
Proof.
  assert (Ht : token (list_ascii_of_string "2025-04-28")).
  { split; [discriminate | repeat constructor]. }
  assert (Hp : plain_text (list_ascii_of_string "2025-04-28") = true) by reflexivity.
  assert (Hd : strptime_date (list_ascii_of_string "2025-04-28") = Some (ymd2ord 2025 4 28))
    by (vm_compute; reflexivity).
  assert (Hne : list_ascii_of_string "  " <> []) by discriminate.
  assert (Hws : Forall (fun c => is_space c = true) (list_ascii_of_string "  "))
    by (repeat constructor).
  split; [exact Ht|]. split; [exact Hp|]. split; [exact Hd|].
  destruct (proj1 (parse_datetime_str_forms _ _ true Ht Hp Hne Hws) _ Hd)
    as (Hbare & _).
  destruct (proj1 (parse_datetime_str_forms _ _ false Ht Hp Hne Hws) _ Hd)
    as (_ & _ & Hafternoon & _).
  split; [exact Hbare|].
  apply (Hafternoon (list_ascii_of_string "下午")).
  - split; [discriminate | repeat constructor].
  - reflexivity.
  - reflexivity.
  - reflexivity.
Defined.

Example parse_examples :
  parse_datetime_str "2025-04-28" false = Some (datetime_at 2025 4 28 9 0)
  /\ parse_datetime_str "2025-04-28" true = Some (datetime_at 2025 4 28 18 0)
  /\ parse_datetime_str "2025-04-28 上午" false = Some (datetime_at 2025 4 28 9 0)
  /\ parse_datetime_str "2025-04-28 下午" false = Some (datetime_at 2025 4 28 13 0)
  /\ parse_datetime_str "2025-04-28 上午" true = Some (datetime_at 2025 4 28 12 0)
  /\ parse_datetime_str "2025-04-28 下午" true = Some (datetime_at 2025 4 28 18 0)
  /\ parse_datetime_str "2025-04-28 11:00" false = Some (datetime_at 2025 4 28 11 0)
  /\ parse_datetime_str "2025-04-28 11:00" true = Some (datetime_at 2025 4 28 11 0)
  /\ parse_datetime_str "2025-02-30" false = None
  /\ parse_datetime_str "2025-02-30 上午" false = None
  /\ parse_datetime_str "2025-04-28 25:00" false = None
  /\ parse_datetime_str "2025-04-28 11:60" true = None
  /\ parse_datetime_str "nan" true = None.
Proof. vm_compute. repeat split. Qed.

(** ** The calendar *)

Lemma all_from_spec n : forall lo P,
  all_from n lo P = true -> forall d, lo <= d < lo + Z.of_nat n -> P d = true.
Proof.
  induction n as [|n IH]; intros lo P H d Hd; [lia|].
  simpl in H. apply andb_true_iff in H as [H0 H1].
  destruct (Z.eq_dec d lo) as [->|Hne]; [exact H0|].
  apply (IH (lo + 1) P H1). lia.
Qed.

Lemma month_day_of_ok leapyear n :
  0 <= n < 365 -> month_day_ok leapyear n = true.
Proof.
  intros Hn.
  assert (H : all_from 365 0 (month_day_ok true) = true
              /\ all_from 365 0 (month_day_ok false) = true)
    by (vm_compute; split; reflexivity).
  destruct leapyear; [apply (all_from_spec 365 0 _ (proj1 H))
                     |apply (all_from_spec 365 0 _ (proj2 H))]; simpl; lia.
Qed.

Lemma days_before_year_split n400 n100 n4 n1 :
  0 <= n400 -> 0 <= n100 <= 3 -> 0 <= n4 <= 24 -> 0 <= n1 <= 3 ->
  days_before_year (n400 * 400 + 1 + n100 * 100 + n4 * 4 + n1)
  = 146097 * n400 + 36524 * n100 + 1461 * n4 + 365 * n1.
Proof.
  intros H400 H100 H4 H1. unfold days_before_year.
  replace (n400 * 400 + 1 + n100 * 100 + n4 * 4 + n1 - 1)
    with (n400 * 400 + n100 * 100 + n4 * 4 + n1) by lia.
  assert (E4 : (n400 * 400 + n100 * 100 + n4 * 4 + n1) / 4
               = 100 * n400 + 25 * n100 + n4).
  { symmetry. apply (Z.div_unique _ _ _ n1); [left|]; lia. }
  assert (E100 : (n400 * 400 + n100 * 100 + n4 * 4 + n1) / 100
                 = 4 * n400 + n100).
  { symmetry. apply (Z.div_unique _ _ _ (n4 * 4 + n1)); [left|]; lia. }
  assert (E400 : (n400 * 400 + n100 * 100 + n4 * 4 + n1) / 400 = n400).
  { symmetry. apply (Z.div_unique _ _ _ (n100 * 100 + n4 * 4 + n1)); [left|]; lia. }
  rewrite E4, E100, E400. lia.
Qed.

Lemma is_leap_split n400 n100 n4 n1 :
  0 <= n400 -> 0 <= n100 <= 3 -> 0 <= n4 <= 24 -> 0 <= n1 <= 3 ->
  is_leap (n400 * 400 + 1 + n100 * 100 + n4 * 4 + n1)
  = (n1 =? 3) && (negb (n4 =? 24) || (n100 =? 3)).
Proof.
  intros H400 H100 H4 H1. unfold is_leap.
  set (y := n400 * 400 + 1 + n100 * 100 + n4 * 4 + n1).
  assert (M4 : y mod 4 = (n1 + 1) mod 4).
  { unfold y. replace (n400 * 400 + 1 + n100 * 100 + n4 * 4 + n1)
      with ((n1 + 1) + (n400 * 100 + n100 * 25 + n4) * 4) by lia.
    apply Z.mod_add. lia. }
  assert (M100 : y mod 100 = (n4 * 4 + n1 + 1) mod 100).
  { unfold y. replace (n400 * 400 + 1 + n100 * 100 + n4 * 4 + n1)
      with ((n4 * 4 + n1 + 1) + (n400 * 4 + n100) * 100) by lia.
    apply Z.mod_add. lia. }
  assert (M400 : y mod 400 = (n100 * 100 + n4 * 4 + n1 + 1) mod 400).
  { unfold y. replace (n400 * 400 + 1 + n100 * 100 + n4 * 4 + n1)
      with ((n100 * 100 + n4 * 4 + n1 + 1) + n400 * 400) by lia.
    apply Z.mod_add. lia. }
  rewrite M4, M100, M400. clear M4 M100 M400 y H400 n400.
  assert (C1 : In n1 [0; 1; 2; 3]) by (simpl; lia).
  assert (C100 : In n100 [0; 1; 2; 3]) by (simpl; lia).
  assert (C4 : In n4 [0; 1; 2; 3; 4; 5; 6; 7; 8; 9; 10; 11; 12; 13; 14; 15; 16;
                      17; 18; 19; 20; 21; 22; 23; 24]) by (simpl; lia).
  clear H100 H4 H1. simpl in C1, C100, C4.
  repeat (destruct C1 as [<-|C1]); try contradiction;
    repeat (destruct C100 as [<-|C100]); try contradiction;
    repeat (destruct C4 as [<-|C4]); try contradiction; reflexivity.
Qed.

Lemma ord2ymd_ymd2ord d :
  1 <= d <= 3652059 ->
  let '(y, m, dd) := ord2ymd d in
  valid_ymd y m dd = true /\ ymd2ord y m dd = d.
Proof.
  intros Hd. unfold ord2ymd, DI400Y, DI100Y, DI4Y.
  pose proof (Z.div_mod (d - 1) 146097 ltac:(lia)) as E400.
  pose proof (Z.mod_pos_bound (d - 1) 146097 ltac:(lia)) as B400.
  set (n400 := (d - 1) / 146097) in *. set (r400 := (d - 1) mod 146097) in *.
  pose proof (Z.div_mod r400 36524 ltac:(lia)) as E100.
  pose proof (Z.mod_pos_bound r400 36524 ltac:(lia)) as B100.
  set (n100 := r400 / 36524) in *. set (r100 := r400 mod 36524) in *.
  pose proof (Z.div_mod r100 1461 ltac:(lia)) as E4.
  pose proof (Z.mod_pos_bound r100 1461 ltac:(lia)) as B4.
  set (n4 := r100 / 1461) in *. set (r4 := r100 mod 1461) in *.
  pose proof (Z.div_mod r4 365 ltac:(lia)) as E1.
  pose proof (Z.mod_pos_bound r4 365 ltac:(lia)) as B1.
  set (n1 := r4 / 365) in *. set (r1 := r4 mod 365) in *.
  assert (Hn400 : 0 <= n400) by (apply Z.div_pos; lia).
  clearbody n400 r400 n100 r100 n4 r4 n1 r1.
  assert (Hb : 0 <= n100 <= 4 /\ 0 <= n4 <= 24 /\ 0 <= n1 <= 4) by lia.
  unfold valid_ymd, ymd2ord, days_in_month, days_before_month.
  destruct (Z.eqb_spec n1 4) as [H14|H14];
    [|destruct (Z.eqb_spec n100 4) as [H1004|H1004]]; simpl orb; cbv iota.
  - replace (n400 * 400 + 1 + n100 * 100 + n4 * 4 + n1 - 1)
      with (n400 * 400 + 1 + n100 * 100 + n4 * 4 + 3) by lia.
    rewrite days_before_year_split, is_leap_split by lia.
    destruct (Z.eqb_spec n4 24); [lia|]. simpl.
    split; [|lia].
    repeat (apply andb_true_iff; split); apply Z.leb_le; lia.
  - replace (n400 * 400 + 1 + n100 * 100 + n4 * 4 + n1 - 1)
      with (n400 * 400 + 1 + 3 * 100 + 24 * 4 + 3) by lia.
    rewrite days_before_year_split, is_leap_split by lia. simpl.
    split; [|lia].
    repeat (apply andb_true_iff; split); apply Z.leb_le; lia.
  - pose proof (month_day_of_ok ((n1 =? 3) && (negb (n4 =? 24) || (n100 =? 3))) r1 B1)
      as Hmd.
    unfold month_day_ok in Hmd.
    destruct (month_day_of r1 _) as [m dd].
    rewrite days_before_year_split, is_leap_split by lia.
    set (L := (n1 =? 3) && (negb (n4 =? 24) || (n100 =? 3))) in *.
    rewrite !andb_true_iff, !Z.leb_le, Z.eqb_eq in Hmd.
    destruct Hmd as ((((Hm1 & Hm12) & Hd1) & Hdd) & Hsum).
    split.
    + repeat (apply andb_true_iff; split); apply Z.leb_le; lia.
    + lia.
Qed.

(** ** Dates written and read back *)

Lemma digit_char_cases n :
  In (digit_char n) (map (fun k => ascii_of_N (Z.to_N (48 + k))) [0; 1; 2; 3; 4; 5; 6; 7; 8; 9])
  /\ digit_val (digit_char n) = n mod 10.
Proof.
  unfold digit_char. pose proof (Z.mod_pos_bound n 10 ltac:(lia)) as Hb.
  assert (C : In (n mod 10) [0; 1; 2; 3; 4; 5; 6; 7; 8; 9]) by (simpl; lia).
  simpl in C.
  repeat (destruct C as [E|C]; [rewrite <- E; split; [simpl; tauto | reflexivity]|]).
  contradiction.
Qed.

Lemma is_digit_digit_char n : is_digit (digit_char n) = true.
Proof.
  destruct (digit_char_cases n) as [C _]. simpl in C.
  repeat (destruct C as [<-|C]; [reflexivity|]). contradiction.
Qed.

Lemma digit_char_not_blank n : Ascii.eqb (digit_char n) " " = false.
Proof.
  destruct (digit_char_cases n) as [C _]. simpl in C.
  repeat (destruct C as [<-|C]; [reflexivity|]). contradiction.
Qed.

Lemma digit_val_digit_char n : digit_val (digit_char n) = n mod 10.
Proof. apply digit_char_cases. Qed.

Lemma number_field_fmt4 lo hi y :
  0 <= y <= 9999 ->
  number_field 4 4 lo hi (fmt4 y)
  = if (lo <=? y) && (y <=? hi) then Some (y, []) else None.
Proof.
  intros Hy. unfold number_field, fmt4. simpl span_digits.
  rewrite !is_digit_digit_char. cbv iota beta.
  unfold digits_value. simpl fold_left. rewrite !digit_val_digit_char.
  replace (y / 1000) with (y / 10 / 10 / 10) by (rewrite !Z.div_div by lia; reflexivity).
  replace (y / 100) with (y / 10 / 10) by (rewrite !Z.div_div by lia; reflexivity).
  pose proof (Z.div_mod y 10 ltac:(lia)) as E0.
  pose proof (Z.mod_pos_bound y 10 ltac:(lia)) as B0.
  set (a := y / 10) in *.
  pose proof (Z.div_mod a 10 ltac:(lia)) as E1.
  pose proof (Z.mod_pos_bound a 10 ltac:(lia)) as B1.
  set (b := a / 10) in *.
  pose proof (Z.div_mod b 10 ltac:(lia)) as E2.
  pose proof (Z.mod_pos_bound b 10 ltac:(lia)) as B2.
  set (c := b / 10) in *.
  assert (Ec : c mod 10 = c) by (apply Z.mod_small; lia).
  rewrite Ec.
  replace (10 * (10 * (10 * (10 * 0 + c) + b mod 10) + a mod 10) + y mod 10)
    with y by lia.
  reflexivity.
Qed.

Lemma number_field_fmt2 lo hi n :
  0 <= n <= 99 ->
  number_field 1 2 lo hi (fmt2 n)
  = if (lo <=? n) && (n <=? hi) then Some (n, []) else None.
Proof.
  intros Hn. unfold number_field, fmt2. simpl span_digits.
  rewrite !is_digit_digit_char. cbv iota beta.
  unfold digits_value. simpl fold_left. rewrite !digit_val_digit_char.
  pose proof (Z.div_mod n 10 ltac:(lia)) as E0.
  pose proof (Z.mod_pos_bound n 10 ltac:(lia)) as B0.
  set (a := n / 10) in *.
  assert (Ea : a mod 10 = a) by (apply Z.mod_small; lia).
  rewrite Ea.
  replace (10 * (10 * 0 + a) + n mod 10) with n by lia.
  reflexivity.
Qed.

Lemma days_in_month_le y m : days_in_month y m <= 31.
Proof.
  unfold days_in_month. destruct ((m =? 2) && is_leap y); [lia|].
  unfold days_in_month_table.
  repeat match goal with |- context [match ?x with _ => _ end] => destruct x end; lia.
Qed.

Lemma match_date_fields ys ms dds y m dd :
  number_field 4 4 0 9999 ys = Some (y, []) ->
  number_field 1 2 1 12 ms = Some (m, []) ->
  directive_d dds = Some (dd, []) ->
  match_date (ys ++ "-"%char :: ms ++ "-"%char :: dds) = Some (y, m, dd, []).
Proof.
  intros Hy Hm Hd. unfold match_date, directive_Y, directive_m.
  rewrite (number_field_app 4 4 0 9999), Hy by reflexivity. simpl.
  rewrite (number_field_app 1 2 1 12), Hm by reflexivity. simpl.
  now rewrite Hd.
Qed.

Lemma match_date_written y m dd :
  valid_ymd y m dd = true ->
  match_date (fmt4 y ++ "-"%char :: fmt2 m ++ "-"%char :: fmt2 dd)
  = Some (y, m, dd, []).
Proof.
  unfold valid_ymd. rewrite !andb_true_iff, !Z.leb_le.
  intros (((((Hy1 & Hy2) & Hm1) & Hm2) & Hd1) & Hd2).
  pose proof (days_in_month_le y m) as Hd3.
  apply match_date_fields.
  - rewrite number_field_fmt4 by lia.
    destruct (Z.leb_spec 0 y); [|lia]. destruct (Z.leb_spec y 9999); [|lia].
    reflexivity.
  - rewrite number_field_fmt2 by lia.
    destruct (Z.leb_spec 1 m); [|lia]. destruct (Z.leb_spec m 12); [|lia].
    reflexivity.
  - unfold directive_d. unfold fmt2 at 1. rewrite digit_char_not_blank.
    fold (fmt2 dd). rewrite number_field_fmt2 by lia.
    destruct (Z.leb_spec 1 dd); [|lia]. destruct (Z.leb_spec dd 31); [|lia].
    reflexivity.
Qed.

(** [strptime(str(d), '%Y-%m-%d')] is [d] again, for every date. *)
Lemma strptime_date_isoformat d :
  1 <= d <= 3652059 ->
  strptime_date (list_ascii_of_string (isoformat d)) = Some d.
Proof.
  intros Hd. pose proof (ord2ymd_ymd2ord d Hd) as H.
  unfold isoformat. destruct (ord2ymd d) as [[y m] dd]. destruct H as [Hv Ho].
  rewrite list_ascii_of_string_of_list_ascii.
  unfold strptime_date. rewrite match_date_written by exact Hv. simpl.
  unfold mk_date. now rewrite Hv, Ho.
Qed.

(** ** The run *)

Section Run.

Lemma unique_In {A : Type} `{EqDecision A} (l : list A) x :
  In x (unique l) <-> In x l.
Proof.
  induction l as [|a l IH]; simpl; [tauto|].
  rewrite filter_In, IH, bool_decide_eq_true.
  destruct (decide (x = a)) as [->|Hne]; [tauto|].
  split; [intros [->|[? ?]]; tauto | intros [->|?]; [congruence | tauto]].
Qed.

Lemma unique_NoDup {A : Type} `{EqDecision A} (l : list A) : List.NoDup (unique l).
Proof.
  induction l as [|a l IH]; simpl; constructor.
  - rewrite filter_In, bool_decide_eq_true. tauto.
  - now apply List.NoDup_filter.
Qed.

Lemma coerce_events_in kaoqin_df holder t :
  In (holder, t) (coerce_events kaoqin_df) -> timestamp_min <= t <= timestamp_max.
Proof.
  unfold coerce_events. rewrite <- list_elem_of_In, list_elem_of_omap.
  intros (e & _ & He). unfold to_datetime_coerce in He.
  destruct (ev_time e) as [t'|]; simpl in He; [|discriminate].
  destruct (Z.leb_spec timestamp_min t'); simpl in He; [|discriminate].
  destruct (Z.leb_spec t' timestamp_max); simpl in He; [|discriminate].
  injection He as _ <-. lia.
Qed.

Lemma date_of_timestamp t :
  timestamp_min <= t <= timestamp_max -> 1 <= date_of t <= 3652059.
Proof.
  intros [Hlo Hhi]. unfold date_of.
  assert (H1 : date_of timestamp_min <= t / us_per_day)
    by (apply Z.div_le_mono; [reflexivity | exact Hlo]).
  assert (H2 : t / us_per_day <= date_of timestamp_max)
    by (apply Z.div_le_mono; [reflexivity | exact Hhi]).
  assert (H3 : 1 <= date_of timestamp_min) by (vm_compute; discriminate).
  assert (H4 : date_of timestamp_max <= 3652059) by (vm_compute; discriminate).
  lia.
Qed.

Lemma get_absence_hours_total name d xiujia_df waichu_df chuchai_df :
  1 <= d <= 3652059 ->
  exists r, get_absence_hours name (isoformat d) xiujia_df waichu_df chuchai_df = Some r.
Proof.
  intros Hd. unfold get_absence_hours, get_raw_absence_hours, get_absence_description.
  rewrite strptime_date_isoformat by exact Hd. simpl.
  destruct (map snd _); simpl; eauto.
Qed.

Lemma compute_day_metrics_total kaoqin_df xiujia_df waichu_df chuchai_df d name :
  1 <= d <= 3652059 ->
  exists dm,
    compute_day_metrics kaoqin_df xiujia_df waichu_df chuchai_df d name = Some dm.
Proof.
  intros Hd. unfold compute_day_metrics.
  destruct (get_absence_hours_total name d xiujia_df waichu_df chuchai_df Hd)
    as [[[raw_h actual_h] text] ->].
  destruct (py_sorted Z.leb _); simpl; eauto.
Qed.

Lemma count_status_nonneg statistics_data name st :
  0 <= count_status statistics_data name st.
Proof. unfold count_status. lia. Qed.

Lemma count_status_app statistics_data r name st :
  count_status (statistics_data ++ [r]) name st
  = count_status statistics_data name st
    + (if String.eqb (st_name r) name && bool_decide (st_status r = st) then 1 else 0).
Proof.
  unfold count_status. rewrite List.filter_app, length_app. simpl.
  destruct (_ && _); simpl; lia.
Qed.

Lemma bump_lookup (d : gmap string Z) name n :
  bump d name !! n
  = if decide (n = name) then Some (default 0 (d !! name) + 1) else d !! n.
Proof.
  unfold bump. destruct (d !! name) as [v|] eqn:Hv; simpl.
  - rewrite Hv. simpl. case_decide as Hn.
    + subst. now rewrite lookup_insert_eq.
    + now rewrite lookup_insert_ne by congruence.
  - rewrite lookup_insert_eq. simpl. case_decide as Hn.
    + subst. now rewrite lookup_insert_eq.
    + now rewrite !lookup_insert_ne by congruence.
Qed.

Lemma summary_map_count sd st0 name0 st :
  st <> Normal ->
  summary_map (summary_count sd st0 name0) st
  = if decide (st = st0) then bump (summary_map sd st) name0 else summary_map sd st.
Proof.
  intros Hst. destruct st0, st; simpl; try congruence;
    case_decide; try congruence; reflexivity.
Qed.

Lemma summary_counts_step statistics_data sd r :
  summary_counts statistics_data sd ->
  summary_counts (statistics_data ++ [r])
                 (summary_count sd (st_status r) (st_name r)).
Proof.
  intros Hinv st name Hst. rewrite count_status_app.
  rewrite summary_map_count by exact Hst.
  pose proof (count_status_nonneg statistics_data name st) as Hc.
  specialize (Hinv st name Hst).
  case_decide as Hs.
  - subst st. rewrite bump_lookup.
    rewrite bool_decide_eq_true_2 by reflexivity. rewrite andb_true_r.
    case_decide as Hn.
    + subst name. rewrite String.eqb_refl, Hinv.
      destruct (Z.eqb_spec (count_status statistics_data (st_name r) (st_status r)) 0)
        as [E|E]; simpl.
      * rewrite E. reflexivity.
      * destruct (Z.eqb_spec (count_status statistics_data (st_name r) (st_status r) + 1) 0);
          [lia | reflexivity].
    + destruct (String.eqb_spec (st_name r) name); [congruence|].
      now rewrite Z.add_0_r.
  - rewrite bool_decide_eq_false_2 by congruence.
    now rewrite andb_false_r, Z.add_0_r.
Qed.

Section Loops.

Variables (kaoqin_df : list (string * datetime))
          (xiujia_df waichu_df chuchai_df : list absence_row)
          (employee_info : gmap string string) (linshika_df : list card_row).

Lemma employee_loop day names :
  1 <= day <= 3652059 ->
  forall statistics_data sd,
    summary_counts statistics_data sd ->
    exists rows sd',
      foldM (analyze_employee_day kaoqin_df xiujia_df waichu_df chuchai_df
                                  employee_info linshika_df day)
            names (statistics_data, sd)
      = Some (statistics_data ++ rows, sd')
      /\ summary_counts (statistics_data ++ rows) sd'
      /\ map (fun r => (st_date r, st_name r)) rows = map (fun name => (isoformat day, name)) names.
Proof.
  intros Hday. induction names as [|name names IH]; intros statistics_data sd Hinv.
  - exists [], sd. simpl. now rewrite app_nil_r.
  - simpl.
    destruct (compute_day_metrics_total kaoqin_df xiujia_df waichu_df chuchai_df
                day name Hday) as [dm Hdm].
    rewrite Hdm. simpl.
    set (r := stat_row_of employee_info linshika_df day name dm).
    assert (Hinv' : summary_counts (statistics_data ++ [r])
                                   (summary_count sd (dm_status dm) name))
      by apply (summary_counts_step statistics_data sd r Hinv).
    destruct (IH _ _ Hinv') as (rows & sd' & Hrun & Hinv'' & Hkeys).
    exists (r :: rows), sd'. rewrite Hrun.
    rewrite <- app_assoc in *. simpl in *.
    split; [reflexivity|]. split; [exact Hinv''|]. now rewrite Hkeys.
Qed.

Lemma day_loop names days :
  Forall (fun day => 1 <= day <= 3652059) days ->
  forall statistics_data sd,
    summary_counts statistics_data sd ->
    exists rows sd',
      foldM (fun acc day =>
               foldM (analyze_employee_day kaoqin_df xiujia_df waichu_df chuchai_df
                                           employee_info linshika_df day)
                     names acc)
            days (statistics_data, sd)
      = Some (statistics_data ++ rows, sd')
      /\ summary_counts (statistics_data ++ rows) sd'
      /\ map (fun r => (st_date r, st_name r)) rows
         = flat_map (fun day => map (fun name => (isoformat day, name)) names) days.
Proof.
  induction 1 as [|day days Hday _ IH]; intros statistics_data sd Hinv.
  - exists [], sd. simpl. now rewrite app_nil_r.
  - simpl.
    destruct (employee_loop day names Hday _ _ Hinv) as (rows1 & sd1 & Hrun1 & Hinv1 & Hk1).
    rewrite Hrun1. simpl.
    destruct (IH _ _ Hinv1) as (rows2 & sd2 & Hrun2 & Hinv2 & Hk2).
    exists (rows1 ++ rows2), sd2. rewrite Hrun2.
    rewrite <- app_assoc in *.
    split; [reflexivity|]. split; [exact Hinv2|].
    now rewrite map_app, Hk1, Hk2.
Qed.

End Loops.

Lemma isoformat_inj d d' :
  1 <= d <= 3652059 -> 1 <= d' <= 3652059 -> isoformat d = isoformat d' -> d = d'.
Proof.
  intros Hd Hd' E. pose proof (strptime_date_isoformat d Hd) as H.
  rewrite E, strptime_date_isoformat in H by exact Hd'. congruence.
Qed.

Lemma events_in_range_date kaoqin_df start_date end_date e :
  In e (events_in_range kaoqin_df start_date end_date) ->
  1 <= date_of (snd e) <= 3652059
  /\ start_date <= date_of (snd e) <= end_date.
Proof.
  unfold events_in_range. rewrite filter_In, andb_true_iff, !Z.leb_le.
  intros [Hin Hr]. split; [|exact Hr].
  destruct e as [holder t]. apply date_of_timestamp.
  eapply coerce_events_in, Hin.
Qed.

Lemma work_dates_of_In ev work_days holiday_days d :
  In d (work_dates_of ev work_days holiday_days)
  <-> is_workday_from_calendar d work_days holiday_days = true
      /\ exists e, In e ev /\ date_of (snd e) = d.
Proof.
  unfold work_dates_of. rewrite filter_In.
  assert (Hsort : In d (py_sorted Z.leb (unique (map (fun e => date_of (snd e)) ev)))
                  <-> exists e, In e ev /\ date_of (snd e) = d).
  { split.
    - intros H. apply (Permutation_in _ (Permutation_sym (py_sorted_perm Z.leb _))) in H.
      apply unique_In, in_map_iff in H as (e & He & Hin). eauto.
    - intros (e & Hin & He).
      apply (Permutation_in _ (py_sorted_perm Z.leb _)).
      apply unique_In, in_map_iff. eauto. }
  rewrite Hsort. tauto.
Qed.

Lemma work_dates_of_NoDup ev work_days holiday_days :
  List.NoDup (work_dates_of ev work_days holiday_days).
Proof.
  unfold work_dates_of. apply List.NoDup_filter.
  eapply Permutation_NoDup; [apply py_sorted_perm | apply unique_NoDup].
Qed.

Lemma product_keys_In (f : Z -> string) (names : list string) (days : list Z) k n :
  In (k, n) (flat_map (fun day => map (fun name => (f day, name)) names) days)
  <-> (exists day, In day days /\ f day = k) /\ In n names.
Proof.
  rewrite in_flat_map. split.
  - intros (day & Hday & Hin). apply in_map_iff in Hin as (name & [= <- <-] & Hn).
    eauto.
  - intros [(day & Hday & <-) Hn]. exists day. split; [exact Hday|].
    apply in_map_iff. eauto.
Qed.

Lemma product_keys_NoDup (f : Z -> string) (names : list string) (days : list Z) :
  List.NoDup names -> List.NoDup days ->
  (forall d d', In d days -> In d' days -> f d = f d' -> d = d') ->
  List.NoDup (flat_map (fun day => map (fun name => (f day, name)) names) days).
Proof.
  intros Hn Hd Hinj. induction Hd as [|day days Hnot Hd IH]; simpl; [constructor|].
  apply List.NoDup_app.
  - apply List.NoDup_map_NoDup_ForallPairs; [|exact Hn].
    intros a b _ _ [= E]. exact E.
  - apply IH. intros d d' H1 H2. apply Hinj; now right.
  - intros [k n] Hin1 Hin2.
    apply in_map_iff in Hin1 as (name & [= <- <-] & _).
    apply product_keys_In in Hin2 as [(d' & Hd' & E) _].
    apply Hnot. rewrite (Hinj day d'); [exact Hd' | now left | now right | now symmetry].
Qed.

Lemma rows_for_cons r statistics_data day name :
  rows_for (r :: statistics_data) day name
  = if decide ((st_date r, st_name r) = (isoformat day, name))
    then r :: rows_for statistics_data day name
    else rows_for statistics_data day name.
Proof.
  unfold rows_for. simpl.
  destruct (String.eqb_spec (st_date r) (isoformat day));
    destruct (String.eqb_spec (st_name r) name); simpl;
    case_decide; congruence.
Qed.

Lemma rows_for_nil statistics_data day name :
  ~ In (isoformat day, name) (map (fun r => (st_date r, st_name r)) statistics_data) ->
  rows_for statistics_data day name = [].
Proof.
  induction statistics_data as [|r l IH]; [reflexivity|]. intros Hnot.
  rewrite rows_for_cons. simpl in Hnot. case_decide; [tauto|]. apply IH. tauto.
Qed.

Lemma rows_for_one statistics_data day name :
  List.NoDup (map (fun r => (st_date r, st_name r)) statistics_data) ->
  In (isoformat day, name) (map (fun r => (st_date r, st_name r)) statistics_data) ->
  length (rows_for statistics_data day name) = 1%nat.
Proof.
  induction statistics_data as [|r l IH]; [contradiction|].
  intros Hnd Hin. simpl in Hnd, Hin. inversion Hnd as [|? ? Hnot Hnd']; subst.
  rewrite rows_for_cons. case_decide as Hk.
  - rewrite Hk in Hnot. now rewrite rows_for_nil.
  - destruct Hin as [Hin|Hin]; [congruence|]. now apply IH.
Qed.

(** The run completes; its rows are those of the days that have a badge
    event in the range and are workdays, one per qualified employee, and
    its counters count the exception rows. *)
Lemma analyze_attendance_run
    kaoqin_df xiujia_df waichu_df chuchai_df employee_df linshika_df
    start_date end_date work_days holiday_days :
  exists statistics_data summary_data,
    analyze_attendance kaoqin_df xiujia_df waichu_df chuchai_df employee_df
                       linshika_df start_date end_date work_days holiday_days
    = Some (statistics_data, summary_data)
    /\ summary_counts statistics_data summary_data
    /\ map (fun r => (st_date r, st_name r)) statistics_data
       = flat_map
           (fun day => map (fun name => (isoformat day, name))
                           (unique (map emp_name employee_df)))
           (work_dates_of (events_in_range kaoqin_df start_date end_date)
                          work_days holiday_days).
Proof.
  unfold analyze_attendance. fold (events_in_range kaoqin_df start_date end_date).
  set (ev := events_in_range kaoqin_df start_date end_date).
  assert (Hdays : Forall (fun day => 1 <= day <= 3652059)
                         (work_dates_of ev work_days holiday_days)).
  { apply List.Forall_forall. intros d Hd.
    apply work_dates_of_In in Hd as (_ & e & He & <-).
    now apply events_in_range_date in He. }
  assert (Hinv0 : summary_counts [] summary_empty).
  { intros st name _. destruct st; reflexivity. }
  destruct (day_loop ev xiujia_df waichu_df chuchai_df (employee_info_of employee_df)
              linshika_df (unique (map emp_name employee_df)) _ Hdays [] _ Hinv0)
    as (rows & sd & Hrun & Hinv & Hkeys).
  exists rows, sd. simpl in Hrun, Hinv. auto.
Qed.

End Run.

(** C1 (amended): the run completes, and for every qualified employee
    and every workday on which some badge event of the range falls there
    is exactly one row for the employee and the day; for a day without
    any badge event, for a day that is no workday, and for a name that is
    not on the roster there is none. *)
Theorem one_row_per_employee_and_event_workday
    kaoqin_df xiujia_df waichu_df chuchai_df employee_df linshika_df
    start_date end_date work_days holiday_days :
  exists statistics_data summary_data,
    analyze_attendance kaoqin_df xiujia_df waichu_df chuchai_df employee_df
                       linshika_df start_date end_date work_days holiday_days
    = Some (statistics_data, summary_data)
    /\ (forall name day,
          In name (map emp_name employee_df) ->
          is_workday_from_calendar day work_days holiday_days = true ->
          (exists e, In e (events_in_range kaoqin_df start_date end_date)
                     /\ date_of (snd e) = day) ->
          length (rows_for statistics_data day name) = 1%nat)
    /\ (forall name day,
          1 <= day <= 3652059 ->
          ~ (In name (map emp_name employee_df)
             /\ is_workday_from_calendar day work_days holiday_days = true
             /\ exists e, In e (events_in_range kaoqin_df start_date end_date)
                          /\ date_of (snd e) = day) ->
          rows_for statistics_data day name = []).
Proof.
  destruct (analyze_attendance_run kaoqin_df xiujia_df waichu_df chuchai_df
              employee_df linshika_df start_date end_date work_days holiday_days)
    as (statistics_data & summary_data & Hrun & _ & Hkeys).
  exists statistics_data, summary_data. split; [exact Hrun|].
  set (ev := events_in_range kaoqin_df start_date end_date) in *.
  assert (Hrange : forall d, In d (work_dates_of ev work_days holiday_days) ->
                             1 <= d <= 3652059).
  { intros d Hd. apply work_dates_of_In in Hd as (_ & e & He & <-).
    now apply events_in_range_date in He. }
  split.
  - intros name day Hname Hwork Hev. apply rows_for_one; rewrite Hkeys.
    + apply product_keys_NoDup.
      * apply unique_NoDup.
      * apply work_dates_of_NoDup.
      * intros d d' Hd Hd'. apply isoformat_inj; auto.
    + apply product_keys_In. split.
      * exists day. split; [|reflexivity]. apply work_dates_of_In. auto.
      * now apply unique_In.
  - intros name day Hday Hnot. apply rows_for_nil. rewrite Hkeys.
    intros Hin. apply product_keys_In in Hin as [(d & Hd & E) Hn].
    assert (d = day) as -> by (apply isoformat_inj; auto).
    apply Hnot. apply work_dates_of_In in Hd as [Hw He].
    apply (proj1 (unique_In _ _)) in Hn. auto.
Qed.

Lemma one_row_per_employee_and_event_workday_witness :
  let events := [ {| ev_holder := "A"; ev_time := Some (datetime_at 2025 4 28 8 55) |} ] in
  let roster := [ {| emp_name := "A"; emp_dept := "R&D" |} ] in
  let day := ymd2ord 2025 4 28 in
  In "A"%string (map emp_name roster)
  /\ is_workday_from_calendar day ∅ ∅ = true
  /\ exists statistics_data summary_data,
       analyze_attendance events [] [] [] roster [] day day ∅ ∅
       = Some (statistics_data, summary_data)
       /\ length (rows_for statistics_data day "A") = 1%nat.
Proof.
  assert (H1 : In "A"%string
                 (map emp_name [ {| emp_name := "A"; emp_dept := "R&D" |} ]))
    by (left; reflexivity).
  assert (H2 : is_workday_from_calendar (ymd2ord 2025 4 28) ∅ ∅ = true)
    by (vm_compute; reflexivity).
  assert (H3 : exists e,
             In e (events_in_range
                     [ {| ev_holder := "A";
                          ev_time := Some (datetime_at 2025 4 28 8 55) |} ]
                     (ymd2ord 2025 4 28) (ymd2ord 2025 4 28))
             /\ date_of (snd e) = ymd2ord 2025 4 28).
  { exists ("A"%string, datetime_at 2025 4 28 8 55). split; [left|]; vm_compute; reflexivity. }
  split; [exact H1|]. split; [exact H2|].
  destruct (one_row_per_employee_and_event_workday
              [ {| ev_holder := "A"; ev_time := Some (datetime_at 2025 4 28 8 55) |} ]
              [] [] [] [ {| emp_name := "A"; emp_dept := "R&D" |} ] []
              (ymd2ord 2025 4 28) (ymd2ord 2025 4 28) ∅ ∅)
    as (statistics_data & summary_data & Hrun & Hone & _).
  exists statistics_data, summary_data. split; [exact Hrun|].
  exact (Hone _ _ H1 H2 H3).
Defined.

(** C1 as stated fails: badge events on Monday 2025-04-28 and Wednesday
    2025-04-30 only.  Tuesday the 29th lies in the range and is a
    workday, yet the run has no row for it. *)
Lemma workday_without_events_has_no_row :
  let events :=
    [ {| ev_holder := "A"; ev_time := Some (datetime_at 2025 4 28 8 55) |};
      {| ev_holder := "A"; ev_time := Some (datetime_at 2025 4 28 18 5) |};
      {| ev_holder := "A"; ev_time := Some (datetime_at 2025 4 30 8 55) |};
      {| ev_holder := "A"; ev_time := Some (datetime_at 2025 4 30 18 5) |} ] in
  let roster := [ {| emp_name := "A"; emp_dept := "R&D" |} ] in
  let monday := ymd2ord 2025 4 28 in
  let tuesday := ymd2ord 2025 4 29 in
  let wednesday := ymd2ord 2025 4 30 in
  event_date_range events = Some (monday, wednesday)
  /\ monday <= tuesday <= wednesday
  /\ is_workday_from_calendar tuesday ∅ ∅ = true
  /\ In "A"%string (map emp_name roster)
  /\ exists statistics_data summary_data,
       analyze_attendance events [] [] [] roster [] monday wednesday ∅ ∅
       = Some (statistics_data, summary_data)
       /\ map st_date statistics_data = ["2025-04-28"%string; "2025-04-30"%string]
       /\ rows_for statistics_data tuesday "A" = []
       /\ length (rows_for statistics_data tuesday "A") <> 1%nat.
Proof.
  cbv zeta. split; [vm_compute; reflexivity|].
  split; [vm_compute; split; discriminate|].
  split; [vm_compute; reflexivity|].
  split; [left; reflexivity|].
  eexists. eexists. split; [vm_compute; reflexivity|].
  split; [vm_compute; reflexivity|].
  split; [vm_compute; reflexivity|].
  vm_compute. discriminate.
Qed.

(** ** Exception summary *)

Lemma count_status_exists statistics_data name st :
  count_status statistics_data name st <> 0
  <-> exists r, In r statistics_data /\ st_name r = name /\ st_status r = st.
Proof.
  unfold count_status.
  set (f := fun r => String.eqb (st_name r) name && bool_decide (st_status r = st)).
  assert (Hf : forall r, f r = true <-> st_name r = name /\ st_status r = st).
  { intros r. unfold f. rewrite andb_true_iff, String.eqb_eq, bool_decide_eq_true.
    tauto. }
  split.
  - intros Hne. destruct (List.filter f statistics_data) as [|r l] eqn:E;
      [simpl in Hne; lia|].
    assert (Hin : In r (List.filter f statistics_data)) by (rewrite E; now left).
    apply filter_In in Hin as [Hin Hr]. apply Hf in Hr. eauto.
  - intros (r & Hin & Hr).
    assert (Hin' : In r (List.filter f statistics_data))
      by (apply filter_In; split; [exact Hin | now apply Hf]).
    destruct (List.filter f statistics_data); [contradiction | simpl; lia].
Qed.

Lemma summary_counts_default statistics_data sd st name :
  summary_counts statistics_data sd -> st <> Normal ->
  default 0 (summary_map sd st !! name) = count_status statistics_data name st.
Proof.
  intros Hinv Hst. rewrite (Hinv st name Hst).
  destruct (Z.eqb_spec (count_status statistics_data name st) 0) as [->|]; reflexivity.
Qed.

Lemma summary_counts_dom statistics_data sd st name :
  summary_counts statistics_data sd -> st <> Normal ->
  name ∈ dom (summary_map sd st) <-> count_status statistics_data name st <> 0.
Proof.
  intros Hinv Hst. rewrite elem_of_dom, (Hinv st name Hst).
  destruct (Z.eqb_spec (count_status statistics_data name st) 0) as [E|E].
  - rewrite E. split; [intros [? [=]] | congruence].
  - split; [auto | eauto].
Qed.

Lemma summary_rows_names sd name :
  In name (map sr_name (summary_rows sd))
  <-> name ∈ dom (sum_no_punch sd) ∪ dom (sum_single_punch sd)
             ∪ dom (sum_insufficient sd).
Proof.
  unfold summary_rows.
  destruct (bool_decide (sum_no_punch sd = ∅) && bool_decide (sum_single_punch sd = ∅)
            && bool_decide (sum_insufficient sd = ∅)) eqn:Hempty.
  - rewrite !andb_true_iff, !bool_decide_eq_true in Hempty.
    destruct Hempty as [[-> ->] ->]. rewrite !dom_empty_L, !elem_of_union.
    rewrite elem_of_empty. simpl. tauto.
  - clear Hempty.
    set (U := dom (sum_no_punch sd) ∪ dom (sum_single_punch sd)
              ∪ dom (sum_insufficient sd)).
    set (mk := fun employee : string => _).
    assert (Hperm : Permutation (map sr_name
                       (py_sorted (fun x y => sr_total y <=? sr_total x)
                                  (map mk (py_sorted String.leb (elements U)))))
                                (elements U)).
    { rewrite <- (py_sorted_perm (fun x y => sr_total y <=? sr_total x)).
      rewrite map_map. simpl. rewrite map_id.
      symmetry. apply py_sorted_perm. }
    rewrite <- elem_of_elements, <- list_elem_of_In.
    split; intros H; [now rewrite <- Hperm | now rewrite Hperm].
Qed.

Lemma summary_rows_row sd row :
  In row (summary_rows sd) ->
  sr_no_punch row = default 0 (sum_no_punch sd !! sr_name row)
  /\ sr_single_punch row = default 0 (sum_single_punch sd !! sr_name row)
  /\ sr_insufficient row = default 0 (sum_insufficient sd !! sr_name row)
  /\ sr_total row = sr_no_punch row + sr_single_punch row + sr_insufficient row.
Proof.
  unfold summary_rows. destruct (_ && _); [contradiction|].
  intros H.
  apply (Permutation_in _ (Permutation_sym (py_sorted_perm _ _))) in H.
  apply in_map_iff in H as (employee & <- & _). simpl. auto.
Qed.

Lemma summary_rows_NoDup sd : List.NoDup (map sr_name (summary_rows sd)).
Proof.
  unfold summary_rows. destruct (_ && _); [constructor|].
  eapply Permutation_NoDup.
  - apply Permutation_map. apply py_sorted_perm.
  - rewrite map_map. simpl. rewrite map_id.
    eapply Permutation_NoDup; [apply py_sorted_perm|].
    apply NoDup_ListNoDup, NoDup_elements.
Qed.

(** C10: the run completes, and the summary has a row for an employee
    exactly when some row of the statistics gives the employee an
    exception status; an employee whose rows are all normal has no
    summary row.  The counts of a summary row are the numbers of such
    statistics rows, their total is at least 1, and no employee has two
    summary rows. *)
Theorem summary_rows_only_for_exceptions
    kaoqin_df xiujia_df waichu_df chuchai_df employee_df linshika_df
    start_date end_date work_days holiday_days :
  exists statistics_data summary_data,
    analyze_attendance kaoqin_df xiujia_df waichu_df chuchai_df employee_df
                       linshika_df start_date end_date work_days holiday_days
    = Some (statistics_data, summary_data)
    /\ (forall name,
          In name (map sr_name (summary_rows summary_data))
          <-> exists r, In r statistics_data /\ st_name r = name
                        /\ st_status r <> Normal)
    /\ (forall name,
          (forall r, In r statistics_data -> st_name r = name -> st_status r = Normal) ->
          ~ In name (map sr_name (summary_rows summary_data)))
    /\ (forall row,
          In row (summary_rows summary_data) ->
          sr_no_punch row = count_status statistics_data (sr_name row) NoPunch
          /\ sr_single_punch row
             = count_status statistics_data (sr_name row) SinglePunchMissing
          /\ sr_insufficient row
             = count_status statistics_data (sr_name row) InsufficientAttendance
          /\ sr_total row
             = sr_no_punch row + sr_single_punch row + sr_insufficient row
          /\ 1 <= sr_total row)
    /\ List.NoDup (map sr_name (summary_rows summary_data)).
Proof.
  destruct (analyze_attendance_run kaoqin_df xiujia_df waichu_df chuchai_df
              employee_df linshika_df start_date end_date work_days holiday_days)
    as (statistics_data & sd & Hrun & Hinv & _).
  exists statistics_data, sd. split; [exact Hrun|].
  assert (Hmem : forall name,
            In name (map sr_name (summary_rows sd))
            <-> exists r, In r statistics_data /\ st_name r = name
                          /\ st_status r <> Normal).
  { intros name. rewrite summary_rows_names, !elem_of_union.
    change (sum_no_punch sd) with (summary_map sd NoPunch).
    change (sum_single_punch sd) with (summary_map sd SinglePunchMissing).
    change (sum_insufficient sd) with (summary_map sd InsufficientAttendance).
    rewrite !(summary_counts_dom statistics_data sd) by (exact Hinv || discriminate).
    rewrite !count_status_exists. split.
    - intros [[(r & ? & ? & E)|(r & ? & ? & E)]|(r & ? & ? & E)];
        exists r; rewrite E; repeat split; auto; discriminate.
    - intros (r & Hin & Hn & Hst).
      destruct (st_status r) eqn:E; [congruence | | |]; eauto 10. }
  split; [exact Hmem|]. split; [|split].
  - intros name Hall Hin. apply Hmem in Hin as (r & Hr & Hn & Hst).
    apply Hst, Hall; assumption.
  - intros row Hrow.
    destruct (summary_rows_row sd row Hrow) as (Ha & Hb & Hc & Ht).
    change (sum_no_punch sd) with (summary_map sd NoPunch) in Ha.
    change (sum_single_punch sd) with (summary_map sd SinglePunchMissing) in Hb.
    change (sum_insufficient sd) with (summary_map sd InsufficientAttendance) in Hc.
    rewrite (summary_counts_default statistics_data) in Ha, Hb, Hc
      by (exact Hinv || discriminate).
    split; [exact Ha|]. split; [exact Hb|]. split; [exact Hc|]. split; [exact Ht|].
    assert (Hin : In (sr_name row) (map sr_name (summary_rows sd)))
      by (apply in_map; exact Hrow).
    apply Hmem in Hin as (r & Hr & Hn & Hst).
    pose proof (count_status_nonneg statistics_data (sr_name row) NoPunch).
    pose proof (count_status_nonneg statistics_data (sr_name row) SinglePunchMissing).
    pose proof (count_status_nonneg statistics_data (sr_name row) InsufficientAttendance).
    assert (Hpos : count_status statistics_data (sr_name row) (st_status r) <> 0)
      by (apply count_status_exists; eauto).
    destruct (st_status r); [congruence | lia | lia | lia].
  - apply summary_rows_NoDup.
Qed.

(** Two employees on one workday: A badges in and out for a full day, B
    does not badge.  The summary has a row for B only. *)
Example summary_omits_normal_employee :
  let events :=
    [ {| ev_holder := "A"; ev_time := Some (datetime_at 2025 4 28 8 55) |};
      {| ev_holder := "A"; ev_time := Some (datetime_at 2025 4 28 18 5) |} ] in
  let roster := [ {| emp_name := "A"; emp_dept := "R&D" |};
                  {| emp_name := "B"; emp_dept := "R&D" |} ] in
  option_map (fun '(statistics_data, summary_data) =>
                (map (fun r => (st_name r, st_status r)) statistics_data,
                 map (fun row => (sr_name row, sr_total row)) (summary_rows summary_data)))
    (analyze_attendance events [] [] [] roster []
                        (ymd2ord 2025 4 28) (ymd2ord 2025 4 28) ∅ ∅)
  = Some ([("A"%string, Normal); ("B"%string, NoPunch)], [("B"%string, 1)]).
Proof. vm_compute. reflexivity. Qed.

(** * Part III: further properties of the code *)

(** ** Interval merging, continued *)

Lemma merge_two_none_iff (p q : Z * Z) :
  merge_two_datetime_periods p q = None <-> snd p < fst q \/ snd q < fst p.
Proof.
  destruct p as [s1 e1], q as [s2 e2]. simpl.
  destruct (Z.ltb_spec e1 s2); destruct (Z.ltb_spec e2 s1); simpl;
    split; try discriminate; try lia; auto.
Qed.

(** X1: [merge_two_datetime_periods] does not depend on the order of its
    two arguments; it returns nothing exactly when one period ends before
    the other starts; a period it returns starts at the earlier start and
    ends at the later end, and for valid periods it covers exactly the
    times that one of the two covers. *)
Theorem merge_two_datetime_periods_hull (p q : Z * Z) :
  merge_two_datetime_periods p q = merge_two_datetime_periods q p
  /\ (merge_two_datetime_periods p q = None <-> snd p < fst q \/ snd q < fst p)
  /\ (forall r, merge_two_datetime_periods p q = Some r ->
        r = (Z.min (fst p) (fst q), Z.max (snd p) (snd q))
        /\ (valid p -> valid q ->
            forall t, fst r <= t <= snd r
                      <-> (fst p <= t <= snd p \/ fst q <= t <= snd q))).
Proof.
  split; [|split].
  - destruct p as [s1 e1], q as [s2 e2]. simpl.
    rewrite (orb_comm (e1 <? s2)), (Z.min_comm s1), (Z.max_comm e1). reflexivity.
  - apply merge_two_none_iff.
  - intros r Hr.
    assert (Hn : ~ (snd p < fst q \/ snd q < fst p)).
    { rewrite <- merge_two_none_iff, Hr. discriminate. }
    destruct p as [s1 e1], q as [s2 e2]. simpl in *.
    destruct ((e1 <? s2) || (e2 <? s1)); [discriminate|].
    injection Hr as <-. split; [reflexivity|].
    unfold valid. simpl. intros Hp Hq t. lia.
Qed.

(** The ends of what the sweep emits: every start is a start and every
    end is an end of a period it was given. *)
Lemma sweep_starts_ends (Ps Pe : Z -> Prop) rest : forall cur,
  Ps (fst cur) /\ Pe (snd cur) ->
  Forall (fun p => Ps (fst p) /\ Pe (snd p)) rest ->
  Forall (fun p => Ps (fst p) /\ Pe (snd p)) (sweep cur rest).
Proof.
  induction rest as [|nxt rest IH]; intros cur Hc Hr; simpl.
  - now constructor.
  - inversion Hr as [|? ? Hn Hr']; subst.
    destruct cur as [s1 e1], nxt as [s2 e2]. simpl.
    destruct ((e1 <? s2) || (e2 <? s1)).
    + constructor; [exact Hc | now apply IH].
    + apply IH; [|exact Hr'].
      destruct Hc as [Hc1 Hc2], Hn as [Hn1 Hn2]. simpl in *. split.
      * destruct (Z.min_spec s1 s2) as [[_ ->]|[_ ->]]; assumption.
      * destruct (Z.max_spec e1 e2) as [[_ ->]|[_ ->]]; assumption.
Qed.

Lemma sweep_length rest : forall cur,
  (1 <= length (sweep cur rest) <= S (length rest))%nat.
Proof.
  induction rest as [|nxt rest IH]; intros cur; simpl; [lia|].
  destruct (merge_two_datetime_periods cur nxt) as [r|].
  - specialize (IH r). lia.
  - specialize (IH nxt). simpl. lia.
Qed.

Lemma merge_datetime_periods_nil (x : list (Z * Z)) :
  merge_datetime_periods x = [] <-> x = [].
Proof.
  unfold merge_datetime_periods. destruct x as [|p0 x0]; [tauto|].
  pose proof (sorted_by_start_perm (p0 :: x0)) as HP.
  destruct (sorted_by_start (p0 :: x0)) as [|cur rest].
  - symmetry in HP. apply Permutation_nil in HP. discriminate.
  - pose proof (sweep_length rest cur) as Hl.
    split; [|discriminate]. intros E. rewrite E in Hl. simpl in Hl. lia.
Qed.

(** Merging periods that are not empty gives periods that are not empty. *)
Lemma sweep_strict rest : forall cur,
  fst cur < snd cur -> Forall (fun p => fst p < snd p) rest ->
  Forall (fun p => fst p < snd p) (sweep cur rest).
Proof.
  induction rest as [|nxt rest IH]; intros cur Hc Hr; simpl.
  - now constructor.
  - inversion Hr as [|? ? Hn Hr']; subst.
    destruct cur as [s1 e1], nxt as [s2 e2]. simpl in *.
    destruct ((e1 <? s2) || (e2 <? s1)).
    + constructor; [exact Hc | now apply IH].
    + apply IH; [simpl; lia | exact Hr'].
Qed.

Lemma merge_strict (x : list (Z * Z)) :
  Forall (fun p => fst p < snd p) x ->
  Forall (fun p => fst p < snd p) (merge_datetime_periods x).
Proof.
  intros H. unfold merge_datetime_periods.
  destruct x as [|p0 x0]; [constructor|].
  rewrite (sorted_by_start_perm (p0 :: x0)) in H.
  destruct (sorted_by_start (p0 :: x0)) as [|cur rest]; [constructor|].
  inversion H; subst. now apply sweep_strict.
Qed.

(** X2: merging never invents an end point and never lengthens the list:
    every start of a merged period is the start of a given period, every
    end is the end of a given period, the result has at most as many
    periods as were given, and it is empty only for the empty list. *)
Theorem merge_datetime_periods_ends (x : list (Z * Z)) :
  Forall (fun p => (exists q, In q x /\ fst q = fst p)
                   /\ (exists q, In q x /\ snd q = snd p))
         (merge_datetime_periods x)
  /\ (length (merge_datetime_periods x) <= length x)%nat
  /\ (merge_datetime_periods x = [] <-> x = []).
Proof.
  unfold merge_datetime_periods. destruct x as [|p0 x0].
  - repeat split; constructor.
  - pose proof (sorted_by_start_perm (p0 :: x0)) as HP.
    set (x := p0 :: x0) in *.
    assert (Hall : Forall (fun p => (exists q, In q x /\ fst q = fst p)
                                    /\ (exists q, In q x /\ snd q = snd p))
                          (sorted_by_start x)).
    { apply List.Forall_forall. intros p Hp.
      apply (Permutation_in _ (Permutation_sym HP)) in Hp. split; eauto. }
    pose proof (Permutation_length HP) as Hlen.
    destruct (sorted_by_start x) as [|cur rest].
    + symmetry in HP. apply Permutation_nil in HP. discriminate.
    + inversion Hall as [|? ? Hc Hr]; subst.
      pose proof (sweep_length rest cur) as Hl. simpl in Hlen.
      split; [|split].
      * now apply (sweep_starts_ends (fun t => exists q, In q x /\ fst q = t)
                                     (fun t => exists q, In q x /\ snd q = t)).
      * unfold x. simpl. lia.
      * split; [|discriminate]. intros E. rewrite E in Hl. simpl in Hl. lia.
Qed.

(** X3: merging keeps the covered time: a time lies in a merged period
    exactly when it lies in one of the given periods. *)
Theorem merge_datetime_periods_covers (x : list (Z * Z)) t :
  Forall valid x ->
  Exists (fun p => fst p <= t <= snd p) (merge_datetime_periods x)
  <-> Exists (fun p => fst p <= t <= snd p) x.
Proof.
  intros Hv. pose proof (merge_covered x (2 * t) Hv) as H.
  unfold covered in H.
  assert (E : forall l, Exists (covers (2 * t)) l
                        <-> Exists (fun p => fst p <= t <= snd p) l).
  { intros l. rewrite !List.Exists_exists.
    split; intros (p & Hin & Hp); exists p; (split; [exact Hin|]);
      unfold covers in *; lia. }
  now rewrite <- !E.
Qed.

Lemma merge_datetime_periods_covers_witness :
  let x := [(10, 12); (0, 5); (5, 9); (11, 20)] in
  Forall valid x
  /\ (Exists (fun p => fst p <= 7 <= snd p) (merge_datetime_periods x)
      <-> Exists (fun p => fst p <= 7 <= snd p) x).
Proof.
  assert (H : Forall valid [(10, 12); (0, 5); (5, 9); (11, 20)]).
  { repeat constructor; unfold valid; simpl; lia. }
  split; [exact H|].
  exact (merge_datetime_periods_covers _ 7 H).
Defined.

(** ** Time expressions, continued *)

Lemma number_field_bounds a b lo hi s v r :
  number_field a b lo hi s = Some (v, r) -> lo <= v <= hi.
Proof.
  unfold number_field. destruct (span_digits s) as [d r'].
  destruct (_ && _) eqn:E; [|discriminate]. intros [= <- _].
  rewrite !andb_true_iff, !Z.leb_le in E. lia.
Qed.

Lemma time_of_day_on_minute hh mm : on_minute (time_of_day hh mm).
Proof.
  exists (hh * 60 + mm). unfold time_of_day, us_per_hour. lia.
Qed.

Lemma combine_on_minute d tod : on_minute tod -> on_minute (combine d tod).
Proof.
  intros [k Hk]. exists (d * 1440 + k).
  unfold combine, us_per_day, us_per_hour. lia.
Qed.

Lemma strptime_datetime_form s t :
  strptime_datetime s = Some t ->
  exists day hh mm,
    t = combine day (time_of_day hh mm) /\ 0 <= hh <= 23 /\ 0 <= mm <= 59.
Proof.
  unfold strptime_datetime, match_time, directive_H, directive_M.
  destruct (match_date s) as [[[[y m] d] r]|]; simpl; [|discriminate].
  destruct (spaces1 r) as [r1|]; simpl; [|discriminate].
  destruct (number_field 1 2 0 23 r1) as [[hh r2]|] eqn:Hh; simpl; [|discriminate].
  destruct (expect ":" r2) as [r3|]; simpl; [|discriminate].
  destruct (number_field 1 2 0 59 r3) as [[mm [|c r4]]|] eqn:Hm; simpl; [|discriminate..].
  destruct (mk_date y m d) as [day|]; simpl; [|discriminate].
  intros [= <-]. exists day, hh, mm.
  apply number_field_bounds in Hh, Hm. auto.
Qed.

Lemma parse_datetime_str_strptime s is_end_time t :
  parse_datetime_str s is_end_time = Some t ->
  exists s', strptime_datetime s' = Some t.
Proof.
  unfold parse_datetime_str.
  destruct (strptime_datetime (strip (list_ascii_of_string s))) as [t'|] eqn:E.
  - intros [= <-]. eauto.
  - destruct (split _) as [|date_str parts1]; [discriminate|].
    destruct (strptime_date date_str); [|discriminate].
    destruct (match parts1 with [] => [] | t0 :: _ => t0 end) as [|c ts].
    + eauto.
    + destruct (contains morning_marker (c :: ts)); [destruct is_end_time; eauto|].
      destruct (contains afternoon_marker (c :: ts)); [destruct is_end_time; eauto|].
      eauto.
Qed.

Lemma time_of_day_range hh mm :
  0 <= hh <= 23 -> 0 <= mm <= 59 -> 0 <= time_of_day hh mm < us_per_day.
Proof.
  unfold time_of_day, us_per_day, us_per_hour, us_per_minute, us_per_second. lia.
Qed.

Lemma parse_datetime_str_form s is_end_time t :
  parse_datetime_str s is_end_time = Some t ->
  exists day hh mm,
    t = combine day (time_of_day hh mm) /\ 0 <= hh <= 23 /\ 0 <= mm <= 59.
Proof.
  intros H. apply parse_datetime_str_strptime in H as [s' H].
  now apply strptime_datetime_form in H.
Qed.

Lemma parse_datetime_str_on_minute s is_end_time t :
  parse_datetime_str s is_end_time = Some t -> on_minute t.
Proof.
  intros H. apply parse_datetime_str_form in H as (day & hh & mm & -> & _).
  apply combine_on_minute, time_of_day_on_minute.
Qed.

(** X4: whatever the expression, a time that [parse_datetime_str] returns
    is a whole minute of a day: an hour from 0 to 23 and a minute from 0
    to 59 on the date it falls on, with no seconds. *)
Theorem parse_datetime_str_whole_minute s is_end_time t :
  parse_datetime_str s is_end_time = Some t ->
  on_minute t
  /\ exists hh mm,
       0 <= hh <= 23 /\ 0 <= mm <= 59
       /\ t = combine (date_of t) (time_of_day hh mm)
       /\ tod_of t = time_of_day hh mm.
Proof.
  intros H. apply parse_datetime_str_form in H as (day & hh & mm & -> & Hh & Hm).
  pose proof (time_of_day_range hh mm Hh Hm) as Hr.
  split.
  - apply combine_on_minute, time_of_day_on_minute.
  - exists hh, mm. rewrite date_of_combine by exact Hr.
    repeat split; try lia.
    unfold tod_of, combine.
    rewrite Z.add_comm, Z.mod_add by discriminate. now apply Z.mod_small.
Qed.

Lemma parse_datetime_str_whole_minute_witness :
  parse_datetime_str "2025-04-28 下午" false = Some (datetime_at 2025 4 28 13 0)
  /\ on_minute (datetime_at 2025 4 28 13 0).
Proof.
  assert (H : parse_datetime_str "2025-04-28 下午" false
              = Some (datetime_at 2025 4 28 13 0)) by (vm_compute; reflexivity).
  split; [exact H|].
  exact (proj1 (parse_datetime_str_whole_minute _ _ _ H)).
Defined.

Lemma lstrip_spaces ws s :
  Forall (fun c => is_space c = true) ws -> lstrip (ws ++ s) = lstrip s.
Proof.
  induction 1 as [|c ws Hc _ IH]; simpl; [reflexivity|]. now rewrite Hc.
Qed.

Lemma lstrip_app_spaces s ws :
  Forall (fun c => is_space c = true) ws ->
  lstrip (s ++ ws) = [] /\ lstrip s = []
  \/ lstrip (s ++ ws) = lstrip s ++ ws /\ lstrip s <> [].
Proof.
  intros Hws. induction s as [|c s IH]; simpl.
  - left. split; [|reflexivity].
    rewrite <- (app_nil_r ws). now rewrite lstrip_spaces.
  - destruct (is_space c); [exact IH|]. right. split; [reflexivity | discriminate].
Qed.

Lemma strip_spaces ws1 s ws2 :
  Forall (fun c => is_space c = true) ws1 ->
  Forall (fun c => is_space c = true) ws2 ->
  strip (ws1 ++ s ++ ws2) = strip s.
Proof.
  intros H1 H2. unfold strip. rewrite lstrip_spaces by exact H1.
  destruct (lstrip_app_spaces s ws2 H2) as [[-> ->]|[-> _]]; [reflexivity|].
  rewrite rev_app_distr, lstrip_spaces; [reflexivity|].
  now apply List.Forall_rev.
Qed.

(** X5: whitespace before and after a time expression does not change
    what it parses to. *)
Theorem parse_datetime_str_ignores_outer_space ws1 s ws2 is_end_time :
  Forall (fun c => is_space c = true) ws1 ->
  Forall (fun c => is_space c = true) ws2 ->
  parse_datetime_str
    (string_of_list_ascii (ws1 ++ list_ascii_of_string s ++ ws2)) is_end_time
  = parse_datetime_str s is_end_time.
Proof.
  intros H1 H2. unfold parse_datetime_str.
  now rewrite list_ascii_of_string_of_list_ascii, strip_spaces.
Qed.

Lemma parse_datetime_str_ignores_outer_space_witness :
  Forall (fun c => is_space c = true) (list_ascii_of_string "  ")
  /\ Forall (fun c => is_space c = true) [" "%char; "009"%char]
  /\ parse_datetime_str
       (string_of_list_ascii
          (list_ascii_of_string "  " ++ list_ascii_of_string "2025-04-28 11:00"
           ++ [" "%char; "009"%char])) true
     = parse_datetime_str "2025-04-28 11:00" true.
Proof.
  assert (H1 : Forall (fun c => is_space c = true) (list_ascii_of_string "  "))
    by (repeat constructor).
  assert (H2 : Forall (fun c => is_space c = true) [" "%char; "009"%char])
    by (repeat constructor).
  split; [exact H1|]. split; [exact H2|].
  exact (parse_datetime_str_ignores_outer_space _ _ _ true H1 H2).
Defined.

(** ** Absence resolver, continued *)

Lemma on_minute_max a b : on_minute a -> on_minute b -> on_minute (Z.max a b).
Proof. intros. destruct (Z.max_spec a b) as [[_ ->]|[_ ->]]; assumption. Qed.

Lemma on_minute_min a b : on_minute a -> on_minute b -> on_minute (Z.min a b).
Proof. intros. destruct (Z.min_spec a b) as [[_ ->]|[_ ->]]; assumption. Qed.

Lemma clipped_periods_aligned name d absence_dfs record p :
  In (record, p) (clipped_periods name (combine d 0) absence_dfs) -> aligned p.
Proof.
  intros Hin. apply clipped_periods_in in Hin.
  apply process_absence_record_clip in Hin
    as (s & e & Hs & He & -> & _).
  apply parse_datetime_str_on_minute in Hs.
  apply parse_datetime_str_on_minute in He.
  assert (H0 : on_minute (combine d 0)) by (apply combine_on_minute; now exists 0).
  split; simpl.
  - apply on_minute_max; [exact Hs|].
    destruct H0 as [k Hk], (time_of_day_on_minute 9 0) as [k' Hk'].
    exists (k + k'). lia.
  - apply on_minute_min; [exact He|].
    destruct H0 as [k Hk], (time_of_day_on_minute 18 0) as [k' Hk'].
    exists (k + k'). lia.
Qed.

(** Periods that are pairwise apart inside a window do not add up to
    more than the window. *)
Lemma chain_minutes_within l : forall lo hi,
  chain l -> Forall (fun p => lo <= fst p /\ snd p <= hi) l -> lo <= hi ->
  calculate_datetime_minutes l * us_per_minute <= hi - lo.
Proof.
  induction l as [|p l IH]; intros lo hi [Hv Hs] Hw Hlh.
  - change (calculate_datetime_minutes []) with 0. lia.
  - inversion Hv as [|? ? Hp Hv']; inversion Hs as [|? ? Hs' Hap];
      inversion Hw as [|? ? Hwp Hw']; subst.
    rewrite calculate_datetime_minutes_cons.
    unfold valid in Hp.
    assert (Hq : timedelta_minutes (fst p) (snd p) * us_per_minute <= snd p - fst p).
    { unfold timedelta_minutes.
      rewrite Z.quot_div_nonneg by (lia || reflexivity).
      rewrite Z.mul_comm. apply Z.mul_div_le. reflexivity. }
    assert (IH' : calculate_datetime_minutes l * us_per_minute <= hi - snd p).
    { apply IH; [now split| |lia].
      rewrite List.Forall_forall in *. intros q Hq'.
      specialize (Hap q Hq'). specialize (Hw' q Hq'). unfold apart in Hap. lia. }
    lia.
Qed.


Lemma calculate_datetime_minutes_positive l :
  l <> [] -> Forall valid l -> Forall aligned l ->
  Forall (fun p => fst p < snd p) l ->
  0 < calculate_datetime_minutes l.
Proof.
  intros Hne Hv Ha Hlt. destruct l as [|p l]; [congruence|].
  inversion Hv; inversion Ha as [|? ? [Ha1 Ha2] _]; inversion Hlt; subst.
  rewrite calculate_datetime_minutes_cons.
  pose proof (calculate_datetime_minutes_nonneg l ltac:(assumption)).
  pose proof (timedelta_minutes_aligned _ _ Ha1 Ha2) as E.
  unfold us_per_minute, us_per_second in E. lia.
Qed.

Lemma clipped_periods_window name d absence_dfs record p :
  In (record, p) (clipped_periods name (combine d 0) absence_dfs) ->
  combine d (time_of_day 9 0) <= fst p
  /\ fst p < snd p
  /\ snd p <= combine d (time_of_day 18 0).
Proof.
  intros Hin. apply clipped_periods_in in Hin.
  apply process_absence_record_clip in Hin as (s & e & _ & _ & _ & H).
  unfold combine in *. lia.
Qed.

Lemma get_raw_absence_hours_inv name day absence_dfs raw merged :
  get_raw_absence_hours name day absence_dfs = Some (raw, merged) ->
  exists d,
    strptime_date (list_ascii_of_string day) = Some d
    /\ let all := map snd (clipped_periods name (combine d 0) absence_dfs) in
       (all = [] /\ raw = 0%Q /\ merged = [])
       \/ (all <> []
           /\ merged = merge_datetime_periods all
           /\ raw = Qmin (hours_of_minutes (calculate_datetime_minutes merged)) 9).
Proof.
  unfold get_raw_absence_hours.
  destruct (strptime_date (list_ascii_of_string day)) as [d|]; [|discriminate].
  simpl. intros H. exists d. split; [reflexivity|]. cbv zeta.
  destruct (map snd (clipped_periods name (combine d 0) absence_dfs)) as [|p l].
  - left. now injection H as <- <-.
  - right. injection H as <- <-. split; [discriminate|]. auto.
Qed.

(** What merging makes of the periods the resolver keeps for a day. *)
Lemma resolver_merged name d absence_dfs :
  let all := map snd (clipped_periods name (combine d 0) absence_dfs) in
  let merged := merge_datetime_periods all in
  chain merged
  /\ Forall aligned merged
  /\ Forall (fun p => combine d (time_of_day 9 0) <= fst p
                      /\ snd p <= combine d (time_of_day 18 0)) merged
  /\ Forall (fun p => fst p < snd p) merged
  /\ calculate_datetime_minutes merged <= 540
  /\ calculate_datetime_minutes merged <= calculate_datetime_minutes all
  /\ (all <> [] -> 0 < calculate_datetime_minutes merged).
Proof.
  intros all merged.
  assert (Hall : forall p, In p all ->
            aligned p /\ combine d (time_of_day 9 0) <= fst p
            /\ fst p < snd p /\ snd p <= combine d (time_of_day 18 0)).
  { intros p Hp. apply in_map_iff in Hp as ([record q] & <- & Hin). simpl.
    split; [eapply clipped_periods_aligned, Hin|].
    eapply clipped_periods_window, Hin. }
  assert (Hv : Forall valid all).
  { apply List.Forall_forall. intros p Hp. apply Hall in Hp. unfold valid. lia. }
  assert (Ha : Forall aligned all).
  { apply List.Forall_forall. intros p Hp. now apply Hall in Hp. }
  assert (Hc : chain merged) by now apply merge_chain.
  assert (Ham : Forall aligned merged) by now apply (merge_ends on_minute).
  assert (Hw : Forall (fun p => combine d (time_of_day 9 0) <= fst p
                               /\ snd p <= combine d (time_of_day 18 0)) merged).
  { assert (Hin : Forall (fun p => (combine d (time_of_day 9 0) <= fst p
                                     <= combine d (time_of_day 18 0))
                                    /\ (combine d (time_of_day 9 0) <= snd p
                                        <= combine d (time_of_day 18 0))) all).
    { apply List.Forall_forall. intros q Hq. apply Hall in Hq. simpl. lia. }
    apply (merge_ends (fun t => combine d (time_of_day 9 0) <= t
                                <= combine d (time_of_day 18 0))) in Hin.
    eapply Forall_impl; [exact Hin|]. simpl. intros; lia. }
  assert (Hst : Forall (fun p => fst p < snd p) merged).
  { apply merge_strict, List.Forall_forall. intros p Hp. apply Hall in Hp.
    simpl. lia. }
  assert (H540 : calculate_datetime_minutes merged <= 540).
  { pose proof (chain_minutes_within merged _ _ Hc Hw
                  ltac:(unfold combine, time_of_day, us_per_hour, us_per_minute,
                          us_per_second; lia)) as H.
    unfold combine, time_of_day, us_per_hour, us_per_minute, us_per_second in H.
    lia. }
  repeat split; try assumption; try apply Hc.
  - now apply merge_minutes_le.
  - intros Hne. apply calculate_datetime_minutes_positive; try assumption.
    + unfold merged. now rewrite merge_datetime_periods_nil.
    + apply Hc.
Qed.

Lemma hours_of_minutes_le_9 m : m <= 540 -> (hours_of_minutes m <= 9)%Q.
Proof.
  intros H. unfold hours_of_minutes, Qle, Qdiv, Qmult, Qinv, inject_Z. simpl. lia.
Qed.

(** X6: the 9-hour cap of [get_raw_absence_hours] never changes its
    result: the merged periods lie on whole minutes and total at most 540
    minutes, the raw hours are that total divided by 60, and the total is
    at most the sum of the minutes of the periods kept. *)
Theorem raw_absence_hours_uncapped name day absence_dfs raw merged :
  get_raw_absence_hours name day absence_dfs = Some (raw, merged) ->
  raw == hours_of_minutes (calculate_datetime_minutes merged)
  /\ 0 <= calculate_datetime_minutes merged <= 540
  /\ Forall aligned merged
  /\ exists d,
       strptime_date (list_ascii_of_string day) = Some d
       /\ calculate_datetime_minutes merged
          <= calculate_datetime_minutes
               (map snd (clipped_periods name (combine d 0) absence_dfs)).
Proof.
  intros H. apply get_raw_absence_hours_inv in H as (d & Hd & H). cbv zeta in H.
  destruct (resolver_merged name d absence_dfs)
    as (Hc & Ha & _ & _ & H540 & Hle & _).
  destruct H as [(Hall & -> & ->)|(Hall & -> & ->)].
  - change (calculate_datetime_minutes []) with 0.
    split; [reflexivity|]. split; [lia|]. split; [constructor|].
    exists d. split; [exact Hd|]. rewrite Hall.
    change (calculate_datetime_minutes []) with 0. lia.
  - pose proof (calculate_datetime_minutes_nonneg _ (proj1 Hc)) as H0.
    split; [|split; [lia|split; [exact Ha|eauto]]].
    apply Q.min_l. apply (hours_of_minutes_le_9 _ H540).
Qed.

Lemma raw_absence_hours_uncapped_witness :
  exists raw merged,
    get_raw_absence_hours "A" "2025-04-28"
      [[ {| ab_name := "A"; ab_status := status_effective; ab_type := "年假";
            ab_start := "2025-04-25"; ab_end := "2025-04-29" |} ]]
    = Some (raw, merged)
    /\ raw == hours_of_minutes (calculate_datetime_minutes merged).
Proof.
  destruct (get_raw_absence_hours "A" "2025-04-28"
      [[ {| ab_name := "A"; ab_status := status_effective; ab_type := "年假";
            ab_start := "2025-04-25"; ab_end := "2025-04-29" |} ]])
    as [[raw merged]|] eqn:H.
  - exists raw, merged. split; [reflexivity|].
    exact (proj1 (raw_absence_hours_uncapped _ _ _ _ _ H)).
  - vm_compute in H. discriminate.
Defined.

Lemma hours_of_minutes_zero m : hours_of_minutes m == 0 <-> m = 0.
Proof.
  unfold hours_of_minutes, Qeq, Qdiv, Qmult, Qinv, inject_Z. simpl. lia.
Qed.

Lemma append_nil_inv (a b : string) : (a +:+ b)%string = ""%string -> a = ""%string.
Proof. destruct a; [reflexivity | discriminate]. Qed.

Lemma join_nil_inv sep l :
  Forall (fun s => s <> ""%string) l -> join sep l = ""%string -> l = [].
Proof.
  destruct l as [|s l]; [reflexivity|]. intros H E.
  inversion H as [|? ? Hs _]; subst. exfalso. apply Hs.
  simpl in E. destruct l; [exact E | now apply append_nil_inv in E].
Qed.

Lemma get_absence_description_empty name day absence_dfs d text :
  strptime_date (list_ascii_of_string day) = Some d ->
  get_absence_description name day absence_dfs = Some text ->
  text = ""%string <-> clipped_periods name (combine d 0) absence_dfs = [].
Proof.
  unfold get_absence_description. intros ->. simpl. intros [= <-].
  split.
  - intros E. apply join_nil_inv in E.
    + now apply map_eq_nil in E.
    + apply List.Forall_forall. intros s Hs.
      apply in_map_iff in Hs as ([record p] & <- & _).
      intros E'. destruct (ab_type record); discriminate.
  - intros ->. reflexivity.
Qed.

(** X7: the description that [get_absence_hours] returns is empty exactly
    when the raw hours are 0, that is when no record gives a period on
    that day; then the actual hours are 0 too. *)
Theorem absence_description_empty_iff
    name day xiujia_df waichu_df chuchai_df raw actual text :
  get_absence_hours name day xiujia_df waichu_df chuchai_df
  = Some (raw, actual, text) ->
  (text = ""%string <-> raw == 0)
  /\ (text = ""%string -> actual == 0)
  /\ exists d,
       strptime_date (list_ascii_of_string day) = Some d
       /\ (text = ""%string
           <-> clipped_periods name (combine d 0) [xiujia_df; waichu_df; chuchai_df]
               = []).
Proof.
  unfold get_absence_hours.
  destruct (get_raw_absence_hours name day _) as [[raw' merged]|] eqn:Hraw;
    simpl; [|discriminate].
  destruct (get_absence_description name day _) as [text'|] eqn:Htext;
    simpl; [|discriminate].
  intros [= <- <- <-].
  apply get_raw_absence_hours_inv in Hraw as (d & Hd & Hraw). cbv zeta in Hraw.
  pose proof (get_absence_description_empty _ _ _ _ _ Hd Htext) as Hempty.
  destruct (resolver_merged name d [xiujia_df; waichu_df; chuchai_df])
    as (_ & _ & _ & _ & H540 & _ & Hpos).
  assert (Hmap : map snd (clipped_periods name (combine d 0)
                            [xiujia_df; waichu_df; chuchai_df]) = []
                 <-> clipped_periods name (combine d 0)
                       [xiujia_df; waichu_df; chuchai_df] = []).
  { split; [apply map_eq_nil | intros ->; reflexivity]. }
  destruct Hraw as [(Hall & -> & ->)|(Hall & -> & ->)].
  - rewrite Hmap in Hall. split; [|split].
    + rewrite Hempty. split; [reflexivity | intros _; exact Hall].
    + reflexivity.
    + eauto.
  - specialize (Hpos Hall).
    assert (Hrawpos : ~ Qmin (hours_of_minutes
                       (calculate_datetime_minutes
                          (merge_datetime_periods
                             (map snd (clipped_periods name (combine d 0)
                                [xiujia_df; waichu_df; chuchai_df]))))) 9 == 0).
    { rewrite Q.min_l by (apply (hours_of_minutes_le_9 _ H540)).
      rewrite hours_of_minutes_zero. lia. }
    rewrite Hmap in Hall. split; [|split].
    + rewrite Hempty. split; [intros E; contradiction | intros E; contradiction].
    + rewrite Hempty. intros E. contradiction.
    + eauto.
Qed.

Lemma absence_description_empty_iff_witness :
  exists raw actual text,
    get_absence_hours "A" "2025-04-28" [] [] [] = Some (raw, actual, text)
    /\ (text = ""%string <-> raw == 0).
Proof.
  destruct (get_absence_hours "A" "2025-04-28" [] [] []) as [[[raw actual] text]|] eqn:H.
  - exists raw, actual, text. split; [reflexivity|].
    exact (proj1 (absence_description_empty_iff _ _ _ _ _ _ _ _ H)).
  - vm_compute in H. discriminate.
Defined.

(** ** Lunch adjustment, continued *)

Lemma get_actual_absence_hours_cons first rest :
  get_actual_absence_hours (first :: rest)
  = Qmin (hours_of_minutes
            (calculate_datetime_minutes
               (List.filter (not_lunch (date_of (fst first)))
                  (merge_datetime_periods
                     ((first :: rest) ++ [lunch_break (date_of (fst first))])))))
         9.
Proof. reflexivity. Qed.

Lemma not_lunch_true d p : not_lunch d p = true <-> p <> lunch_break d.
Proof.
  unfold not_lunch. rewrite negb_true_iff, andb_false_iff, !Z.eqb_neq.
  destruct p as [s e]. simpl. split.
  - intros H [= -> ->]. lia.
  - intros H. destruct (Z.eq_dec s (combine d (time_of_day 12 0))) as [->|]; [|auto].
    right. intros ->. now apply H.
Qed.

Lemma lunch_break_valid d : valid (lunch_break d).
Proof.
  unfold valid, lunch_break, combine, time_of_day, us_per_hour, us_per_minute,
    us_per_second. simpl. lia.
Qed.






Lemma filter_all {A : Type} (f : A -> bool) l :
  Forall (fun x => f x = true) l -> List.filter f l = l.
Proof. induction 1 as [|x l Hx _ IH]; simpl; [reflexivity|]. now rewrite Hx, IH. Qed.


Lemma lunch_reference_date d first rest :
  Forall (fun p => combine d (time_of_day 9 0) <= fst p
                   /\ snd p <= combine d (time_of_day 18 0)) (first :: rest) ->
  Forall (fun p => fst p < snd p) (first :: rest) ->
  date_of (fst first) = d.
Proof.
  intros Hw Hlt. inversion Hw as [|? ? [H1 H2] _]; inversion Hlt; subst.
  apply date_of_within.
  unfold combine, time_of_day, us_per_day, us_per_hour, us_per_minute, us_per_second in *.
  lia.
Qed.




Lemma StronglySorted_apart_disjoint l :
  StronglySorted apart l -> ForallOrdPairs strictly_disjoint l.
Proof.
  induction 1 as [|p l _ IH Hp]; constructor; [|exact IH].
  eapply Forall_impl; [exact Hp|]. intros q Hq. left. exact Hq.
Qed.

Lemma ForallOrdPairs_snoc {A : Type} (R : A -> A -> Prop) l x :
  ForallOrdPairs R l -> Forall (fun a => R a x) l -> ForallOrdPairs R (l ++ [x]).
Proof.
  induction 1 as [|a l Ha _ IH]; intros Hx; simpl.
  - constructor; constructor.
  - inversion Hx; subst. constructor; [|now apply IH].
    apply Forall_app. split; [exact Ha|]. constructor; [assumption|constructor].
Qed.

Lemma filter_Permutation_list {A : Type} (f : A -> bool) l l' :
  Permutation l l' -> Permutation (List.filter f l) (List.filter f l').
Proof.
  induction 1 as [|x l l' _ IH|x y l|l l' l'' _ IH1 _ IH2]; simpl.
  - constructor.
  - destruct (f x); [now constructor | exact IH].
  - destruct (f x), (f y); try reflexivity. apply perm_swap.
  - now transitivity (List.filter f l').
Qed.

Lemma not_lunch_lunch d : not_lunch d (lunch_break d) = false.
Proof. unfold not_lunch. now rewrite !Z.eqb_refl. Qed.



(** X9: absence periods that neither overlap nor touch the lunch break
    are left as they are by the lunch adjustment: the actual hours are
    the raw hours. *)
Theorem lunch_apart_actual_is_raw name day absence_dfs raw merged d :
  get_raw_absence_hours name day absence_dfs = Some (raw, merged) ->
  strptime_date (list_ascii_of_string day) = Some d ->
  Forall (fun p => strictly_disjoint p (lunch_break d)) merged ->
  get_actual_absence_hours merged == raw.
Proof.
  intros Hraw Hd Hdis.
  apply get_raw_absence_hours_inv in Hraw as (d' & Hd' & Hraw). cbv zeta in Hraw.
  assert (d' = d) as -> by congruence. clear Hd'.
  destruct (resolver_merged name d absence_dfs)
    as (Hc & Ha & Hw & Hlt & H540 & _ & _).
  destruct Hraw as [(_ & -> & ->)|(_ & -> & ->)]; [reflexivity|].
  set (merged := merge_datetime_periods _) in *.
  destruct merged as [|first rest] eqn:Hm; [vm_compute; reflexivity|].
  rewrite get_actual_absence_hours_cons.
  rewrite (lunch_reference_date d first rest Hw Hlt).
  assert (Hv : Forall valid ((first :: rest) ++ [lunch_break d])).
  { apply Forall_app. split; [exact (proj1 Hc)|].
    constructor; [apply lunch_break_valid | constructor]. }
  rewrite merge_disjoint_is_sort; [|exact Hv|].
  2:{ apply ForallOrdPairs_snoc; [|exact Hdis].
      apply StronglySorted_apart_disjoint, (proj2 Hc). }
  rewrite <- (calculate_datetime_minutes_perm _ _
                (filter_Permutation_list (not_lunch d) _ _
                   (sorted_by_start_perm ((first :: rest) ++ [lunch_break d])))).
  rewrite List.filter_app. simpl List.filter at 2. rewrite not_lunch_lunch, app_nil_r.
  rewrite filter_all; [reflexivity|].
  eapply Forall_impl; [exact Hdis|]. intros p Hp. apply not_lunch_true.
  intros ->. pose proof (lunch_break_valid d). unfold strictly_disjoint, valid in *. lia.
Qed.

Lemma lunch_apart_actual_is_raw_witness :
  get_actual_absence_hours
    [(datetime_at 2025 4 28 9 0, datetime_at 2025 4 28 11 0)] == (120 # 60).
Proof.
  apply (lunch_apart_actual_is_raw "A" "2025-04-28"
           [[ {| ab_name := "A"; ab_status := status_effective; ab_type := "事假";
                 ab_start := "2025-04-28 09:00"; ab_end := "2025-04-28 11:00" |} ]]
           _ _ (ymd2ord 2025 4 28)).
  - vm_compute. reflexivity.
  - vm_compute. reflexivity.
  - constructor; [|constructor]. left. vm_compute. reflexivity.
Defined.



(** ** One employee on one day *)

Section PySorted.

Context {A : Type} (le : A -> A -> bool).
Hypothesis le_total : forall a b, le a b = false -> le b a = true.
Hypothesis le_trans : forall a b c, le a b = true -> le b c = true -> le a c = true.

Lemma insert_sorted_sorted x l :
  StronglySorted (fun a b => le a b = true) l ->
  StronglySorted (fun a b => le a b = true) (insert_sorted le x l).
Proof.
  induction 1 as [|y l Hs IH Hy]; simpl.
  - constructor; constructor.
  - destruct (le x y) eqn:E.
    + constructor; [now constructor|]. constructor; [exact E|].
      eapply Forall_impl; [exact Hy|]. intros z Hz. now apply (le_trans x y z).
    + constructor; [exact IH|].
      apply List.Forall_forall. intros z Hz.
      apply (Permutation_in _ (Permutation_sym (insert_sorted_perm le x l))) in Hz.
      destruct Hz as [<-|Hz]; [now apply le_total|].
      rewrite List.Forall_forall in Hy. now apply Hy.
Qed.

Lemma py_sorted_sorted l : StronglySorted (fun a b => le a b = true) (py_sorted le l).
Proof.
  induction l as [|x l IH]; simpl; [constructor|]. now apply insert_sorted_sorted.
Qed.

End PySorted.

Lemma sorted_times_ascending l :
  StronglySorted (fun a b => (a <=? b) = true) (py_sorted Z.leb l).
Proof.
  apply py_sorted_sorted.
  - intros a b H. apply Z.leb_gt in H. apply Z.leb_le. lia.
  - intros a b c H1 H2. apply Z.leb_le in H1, H2. apply Z.leb_le. lia.
Qed.

Lemma last_default {A : Type} (l : list A) : forall x d d',
  List.last (x :: l) d = List.last (x :: l) d'.
Proof.
  induction l as [|y l IH]; intros x d d'; [reflexivity|].
  change (List.last (x :: y :: l) d) with (List.last (y :: l) d).
  change (List.last (x :: y :: l) d') with (List.last (y :: l) d').
  apply IH.
Qed.

Lemma sorted_first_last times : forall first,
  StronglySorted (fun a b => (a <=? b) = true) (first :: times) ->
  In (List.last (first :: times) first) (first :: times)
  /\ forall t, In t (first :: times) -> first <= t <= List.last (first :: times) first.
Proof.
  induction times as [|t' times IH]; intros first Hs.
  - simpl. split; [now left|]. intros t [<-|[]]. lia.
  - inversion Hs as [|? ? Hs' Hf]; subst.
    destruct (IH t' Hs') as [Hin Hb].
    change (List.last (first :: t' :: times) first)
      with (List.last (t' :: times) first).
    rewrite (last_default times t' first t').
    split; [now right|].
    rewrite List.Forall_forall in Hf.
    assert (Hft : first <= t') by (apply Z.leb_le, Hf; now left).
    intros t [<-|Ht].
    + specialize (Hb t' ltac:(now left)). lia.
    + specialize (Hb t Ht). lia.
Qed.

(** The clock values and the record count of [compute_day_metrics], read
    off the day's badge events. *)
Lemma compute_day_metrics_clock kaoqin_df xiujia_df waichu_df chuchai_df day name dm :
  compute_day_metrics kaoqin_df xiujia_df waichu_df chuchai_df day name = Some dm ->
  let day_df :=
    List.filter (fun e => (date_of (snd e) =? day) && String.eqb (fst e) name)
                kaoqin_df in
  dm_record_count dm = length day_df
  /\ match py_sorted Z.leb (map snd day_df) with
     | [] => dm_first_in dm = None /\ dm_last_out dm = None /\ dm_work_hours dm = 0%Q
     | first_in :: times =>
         dm_first_in dm = Some first_in
         /\ dm_last_out dm = Some (List.last (first_in :: times) first_in)
         /\ dm_work_hours dm
            = fl (total_seconds (List.last (first_in :: times) first_in - first_in)
                  / 3600)
     end.
Proof.
  unfold compute_day_metrics. cbv zeta.
  set (day_df := List.filter _ kaoqin_df).
  pose proof (py_sorted_perm Z.leb (map snd day_df)) as HP.
  destruct (py_sorted Z.leb (map snd day_df)) as [|first_in times];
    destruct (get_absence_hours _ _ _ _ _) as [[[raw_h actual_h] text]|];
    simpl; intros H; inversion H; subst; clear H; simpl.
  - apply Permutation_sym, Permutation_nil in HP.
    apply map_eq_nil in HP. rewrite HP. auto.
  - auto.
Qed.

Lemma day_events_In kaoqin_df day name t :
  In t (map snd (List.filter (fun e : string * Z =>
                                (date_of (snd e) =? day) && String.eqb (fst e) name)
                             kaoqin_df))
  <-> In (name, t) kaoqin_df /\ date_of t = day.
Proof.
  rewrite in_map_iff. split.
  - intros ([n t'] & <- & H). apply filter_In in H as [Hin H]. simpl in H.
    apply andb_true_iff in H as [H1 H2]. apply Z.eqb_eq in H1.
    apply String.eqb_eq in H2. subst. auto.
  - intros [Hin Hd]. exists (name, t). split; [reflexivity|].
    apply filter_In. split; [exact Hin|]. simpl.
    now rewrite Hd, Z.eqb_refl, String.eqb_refl.
Qed.

Lemma total_seconds_range delta :
  0 <= delta < us_per_day ->
  (0 <= total_seconds delta <= fl (86399 + fl (999999 / 1000000)))%Q.
Proof.
  intros Hd. unfold total_seconds.
  assert (Hs : 0 <= delta / us_per_second <= 86399).
  { split; [apply Z.div_pos; [lia | reflexivity]|].
    assert (delta / us_per_second < 86400); [|lia].
    apply Z.div_lt_upper_bound; [reflexivity|].
    unfold us_per_day, us_per_hour, us_per_minute, us_per_second in *. lia. }
  pose proof (Z.mod_pos_bound delta us_per_second ltac:(reflexivity)) as Hu.
  set (S := delta / us_per_second) in *. set (u := delta mod us_per_second) in *.
  assert (HS : (0 <= inject_Z S <= 86399)%Q).
  { change 0%Q with (inject_Z 0). change 86399%Q with (inject_Z 86399).
    rewrite <- !Zle_Qle. exact Hs. }
  assert (Hq : (0 <= inject_Z u / 1000000 <= 999999 / 1000000)%Q).
  { assert (Hu' : (0 <= inject_Z u <= 999999)%Q).
    { change 0%Q with (inject_Z 0). change 999999%Q with (inject_Z 999999).
      rewrite <- !Zle_Qle. unfold us_per_second in Hu. lia. }
    split.
    - apply Qle_shift_div_l; [reflexivity | lra].
    - apply Qmult_le_compat_r; [lra | discriminate]. }
  pose proof (fl_nonneg _ (proj1 Hq)) as H0.
  pose proof (fl_mono _ _ (proj1 Hq) (proj2 Hq)) as H1.
  split.
  - apply fl_nonneg. lra.
  - apply fl_mono; lra.
Qed.

Lemma work_hours_range first_in last_out day :
  date_of first_in = day -> date_of last_out = day -> first_in <= last_out ->
  (0 <= fl (total_seconds (last_out - first_in) / 3600) < 24)%Q.
Proof.
  intros H1 H2 Hle. unfold date_of in *.
  pose proof (Z.div_mod first_in us_per_day ltac:(discriminate)) as E1.
  pose proof (Z.div_mod last_out us_per_day ltac:(discriminate)) as E2.
  pose proof (Z.mod_pos_bound first_in us_per_day ltac:(reflexivity)) as B1.
  pose proof (Z.mod_pos_bound last_out us_per_day ltac:(reflexivity)) as B2.
  rewrite H1 in E1. rewrite H2 in E2.
  assert (Hd : 0 <= last_out - first_in < us_per_day) by lia.
  destruct (total_seconds_range _ Hd) as [Hl Hu].
  set (ts := total_seconds (last_out - first_in)) in *.
  set (c := fl (86399 + fl (999999 / 1000000))) in *.
  assert (Hq : (0 <= ts / 3600 <= c / 3600)%Q).
  { split.
    - apply Qle_shift_div_l; [reflexivity | lra].
    - apply Qmult_le_compat_r; [exact Hu | discriminate]. }
  destruct Hq as [Hq1 Hq2]. split.
  - apply fl_nonneg. exact Hq1.
  - apply Qle_lt_trans with (fl (c / 3600)).
    + apply fl_mono; [exact Hq1 | exact Hq2].
    + unfold c. vm_compute. reflexivity.
Qed.

(** X11: the clock-in time is the earliest and the clock-out time the
    latest badge event of the employee on the day, the hours worked are
    their difference, the float quotient of its seconds by 3600, at
    least 0 and less than 24, and the record count is the number of
    those events; without such an event there are no clock times, no
    hours worked and a count of 0. *)
Theorem first_in_is_earliest_last_out_latest
    kaoqin_df xiujia_df waichu_df chuchai_df day name dm :
  compute_day_metrics kaoqin_df xiujia_df waichu_df chuchai_df day name = Some dm ->
  dm_record_count dm
  = length (List.filter (fun e => (date_of (snd e) =? day) && String.eqb (fst e) name)
                        kaoqin_df)
  /\ match dm_first_in dm, dm_last_out dm with
     | Some first_in, Some last_out =>
         (In (name, first_in) kaoqin_df /\ date_of first_in = day)
         /\ (In (name, last_out) kaoqin_df /\ date_of last_out = day)
         /\ (forall t, In (name, t) kaoqin_df -> date_of t = day ->
                       first_in <= t <= last_out)
         /\ dm_work_hours dm = fl (total_seconds (last_out - first_in) / 3600)
         /\ (0 <= dm_work_hours dm < 24)%Q
         /\ (1 <= dm_record_count dm)%nat
     | None, None =>
         (forall t, In (name, t) kaoqin_df -> date_of t <> day)
         /\ dm_work_hours dm = 0%Q
         /\ dm_record_count dm = 0%nat
     | _, _ => False
     end.
Proof.
  intros H. apply compute_day_metrics_clock in H. cbv zeta in H.
  destruct H as [Hcount Hclock]. split; [exact Hcount|].
  set (day_df := List.filter _ kaoqin_df) in *.
  pose proof (py_sorted_perm Z.leb (map snd day_df)) as HP.
  pose proof (sorted_times_ascending (map snd day_df)) as Hs.
  destruct (py_sorted Z.leb (map snd day_df)) as [|first_in times].
  - destruct Hclock as (-> & -> & ->).
    apply Permutation_sym, Permutation_nil in HP.
    split; [|split; [reflexivity|]].
    + intros t Hin Hd.
      assert (Ht : In t (map snd day_df)) by (apply day_events_In; auto).
      rewrite HP in Ht. contradiction.
    + rewrite Hcount. apply map_eq_nil in HP. now rewrite HP.
  - destruct Hclock as (-> & -> & Hw).
    destruct (sorted_first_last times first_in Hs) as [Hlast Hb].
    assert (Hmem : forall t, In t (first_in :: times)
                             <-> In (name, t) kaoqin_df /\ date_of t = day).
    { intros t. rewrite <- day_events_In. fold day_df. split; intros Ht.
      - eapply Permutation_in; [apply Permutation_sym, HP | exact Ht].
      - eapply Permutation_in; [exact HP | exact Ht]. }
    pose proof (proj1 (Hmem first_in) ltac:(now left)) as Hf.
    pose proof (proj1 (Hmem _) Hlast) as Hl.
    split; [exact Hf|]. split; [exact Hl|]. split; [|split; [exact Hw|split]].
    + intros t Hin Hd. apply Hb, Hmem. auto.
    + rewrite Hw. apply (work_hours_range _ _ day); [apply Hf | apply Hl |].
      apply (Hb first_in). now left.
    + rewrite Hcount. apply Permutation_length in HP.
      rewrite length_map in HP. simpl in HP. lia.
Qed.

Lemma first_in_is_earliest_last_out_latest_witness :
  exists dm,
    compute_day_metrics
      [("A"%string, datetime_at 2025 4 28 18 5); ("A"%string, datetime_at 2025 4 28 8 55)]
      [] [] [] (ymd2ord 2025 4 28) "A" = Some dm
    /\ dm_record_count dm = 2%nat.
Proof.
  destruct (compute_day_metrics
      [("A"%string, datetime_at 2025 4 28 18 5); ("A"%string, datetime_at 2025 4 28 8 55)]
      [] [] [] (ymd2ord 2025 4 28) "A") as [dm|] eqn:H.
  - exists dm. split; [reflexivity|].
    exact (proj1 (first_in_is_earliest_last_out_latest _ _ _ _ _ _ _ H)).
  - vm_compute in H. discriminate.
Defined.

Lemma total_seconds_nonneg delta : 0 <= delta -> (0 <= total_seconds delta)%Q.
Proof.
  intros H. unfold total_seconds.
  pose proof (Z.mod_pos_bound delta us_per_second ltac:(reflexivity)) as Hu.
  assert (Hs : 0 <= delta / us_per_second) by (apply Z.div_pos; [lia | reflexivity]).
  assert (H1 : (0 <= inject_Z (delta / us_per_second))%Q)
    by (change 0%Q with (inject_Z 0); rewrite <- Zle_Qle; exact Hs).
  assert (H2 : (0 <= inject_Z (delta mod us_per_second) / 1000000)%Q).
  { apply Qle_shift_div_l; [reflexivity|]. rewrite Qmult_0_l.
    change 0%Q with (inject_Z 0). rewrite <- Zle_Qle. lia. }
  apply fl_nonneg. pose proof (fl_nonneg _ H2). lra.
Qed.

Lemma hours_of_timedelta_nonneg z :
  0 <= z -> (0 <= fl (total_seconds z / 3600))%Q.
Proof.
  intros H. apply fl_nonneg. apply Qle_shift_div_l; [reflexivity|].
  pose proof (total_seconds_nonneg z H). lra.
Qed.

Lemma compute_day_metrics_work kaoqin_df xiujia_df waichu_df chuchai_df day name dm :
  compute_day_metrics kaoqin_df xiujia_df waichu_df chuchai_df day name = Some dm ->
  (0 <= dm_work_hours dm)%Q
  /\ ((dm_record_count dm <= 1)%nat -> dm_work_hours dm == 0).
Proof.
  intros H. apply compute_day_metrics_clock in H. cbv zeta in H.
  destruct H as [Hcount Hclock].
  set (day_df := List.filter _ kaoqin_df) in *.
  pose proof (py_sorted_perm Z.leb (map snd day_df)) as HP.
  pose proof (sorted_times_ascending (map snd day_df)) as Hs.
  destruct (py_sorted Z.leb (map snd day_df)) as [|first_in times].
  - destruct Hclock as (_ & _ & ->). split; [discriminate | reflexivity].
  - destruct Hclock as (_ & _ & ->).
    destruct (sorted_first_last times first_in Hs) as [_ Hb].
    specialize (Hb first_in ltac:(now left)).
    split.
    + apply hours_of_timedelta_nonneg. lia.
    + intros Hle. apply Permutation_length in HP. rewrite length_map in HP.
      simpl in HP. destruct times as [|t times]; [|simpl in HP; lia].
      simpl. rewrite Z.sub_diag. vm_compute. reflexivity.
Qed.

(** X12: for absence tables in plain text, the status in terms of the
    record count and of the floats the code compares: normal exactly
    when the hours worked reach the required hours; no-punch exactly
    when there is no event and hours are required; single-punch-missing
    exactly when there is one event and hours are required, whatever the
    clock time; insufficient-attendance exactly when there are two events
    or more and the hours worked are below the required hours. *)
Theorem status_by_record_count
    kaoqin_df xiujia_df waichu_df chuchai_df day name dm :
  plain_absences (xiujia_df ++ waichu_df ++ chuchai_df) ->
  compute_day_metrics kaoqin_df xiujia_df waichu_df chuchai_df day name = Some dm ->
  (dm_status dm = Normal <-> (dm_required_hours dm <= dm_work_hours dm)%Q)
  /\ (dm_status dm = NoPunch
      <-> dm_record_count dm = 0%nat /\ (0 < dm_required_hours dm)%Q)
  /\ (dm_status dm = SinglePunchMissing
      <-> dm_record_count dm = 1%nat /\ (0 < dm_required_hours dm)%Q)
  /\ (dm_status dm = InsufficientAttendance
      <-> (2 <= dm_record_count dm)%nat
          /\ (dm_work_hours dm < dm_required_hours dm)%Q).
Proof.
  intros _ H.
  destruct (compute_day_metrics_work _ _ _ _ _ _ _ H) as [Hw0 Hw1].
  apply compute_day_metrics_inv in H as (Hreq & Hst & _).
  pose proof (proj1 (required_hours_of_cases (dm_actual_absence_hours dm))) as Hr0.
  rewrite <- Hreq in Hr0. rewrite Hst, classify_spec. unfold spec_status.
  set (n := dm_record_count dm) in *. set (w := dm_work_hours dm) in *.
  set (r := dm_required_hours dm) in *. clearbody n w r.
  assert (Hw : (n <= 1)%nat -> (w < r)%Q <-> (0 < r)%Q).
  { intros Hn. rewrite (Hw1 Hn). tauto. }
  destruct (Qlt_le_dec 0 r) as [H0|H0]; destruct (Qlt_le_dec w r) as [Hwr|Hwr];
    destruct n as [|[|n]];
    try (specialize (Hw ltac:(lia)));
    repeat case_decide;
    try (exfalso; intuition (first [lia | lra | congruence]); fail);
    (split; [|split; [|split]]); split;
    try discriminate; try reflexivity;
    intros Hx; try match type of Hx with _ /\ _ => destruct Hx end;
    try reflexivity;
    try (exfalso; first [lia | lra | congruence | tauto]; fail);
    try (split; first [lia | lra | tauto]; fail);
    try lra.
Qed.

Lemma status_by_record_count_witness :
  exists dm,
    compute_day_metrics
      [("A"%string, datetime_at 2025 4 28 13 2)]
      [{| ab_name := "A"; ab_status := "已生效"; ab_type := "年假";
          ab_start := "2025-04-28 上午"; ab_end := "2025-04-28 上午" |}] [] []
      (ymd2ord 2025 4 28) "A" = Some dm
    /\ (dm_status dm = SinglePunchMissing
        <-> dm_record_count dm = 1%nat /\ (0 < dm_required_hours dm)%Q)
    /\ dm_required_hours dm == 4.75
    /\ dm_status dm = SinglePunchMissing.
Proof.
  destruct (compute_day_metrics
      [("A"%string, datetime_at 2025 4 28 13 2)]
      [{| ab_name := "A"; ab_status := "已生效"; ab_type := "年假";
          ab_start := "2025-04-28 上午"; ab_end := "2025-04-28 上午" |}] [] []
      (ymd2ord 2025 4 28) "A") as [dm|] eqn:H.
  - exists dm. split; [reflexivity|].
    assert (Hp : plain_absences
                   ([{| ab_name := "A"; ab_status := "已生效"; ab_type := "年假";
                        ab_start := "2025-04-28 上午";
                        ab_end := "2025-04-28 上午" |}] ++ [] ++ [])).
    { repeat constructor. }
    split.
    { exact (proj1 (proj2 (proj2 (status_by_record_count _ _ _ _ _ _ _ Hp H)))). }
    vm_compute in H. injection H as <-. split; reflexivity.
  - vm_compute in H. discriminate.
Defined.









(** ** The run, continued *)

Lemma fold_left_min_spec ds : forall d,
  In (fold_left Z.min ds d) (d :: ds)
  /\ forall x, In x (d :: ds) -> fold_left Z.min ds d <= x.
Proof.
  induction ds as [|y ds IH]; intros d; simpl.
  - split; [now left|]. intros x [<-|[]]. lia.
  - destruct (IH (Z.min d y)) as [Hin Hle]. split.
    + destruct Hin as [Hin|Hin]; [|now right; right].
      rewrite <- Hin. destruct (Z.min_spec d y) as [[_ ->]|[_ ->]]; auto.
    + intros x Hx.
      pose proof (Hle (Z.min d y) ltac:(now left)) as H0.
      destruct Hx as [<-|[<-|Hx]]; [lia | lia |].
      apply Hle. now right.
Qed.

Lemma fold_left_max_spec ds : forall d,
  In (fold_left Z.max ds d) (d :: ds)
  /\ forall x, In x (d :: ds) -> x <= fold_left Z.max ds d.
Proof.
  induction ds as [|y ds IH]; intros d; simpl.
  - split; [now left|]. intros x [<-|[]]. lia.
  - destruct (IH (Z.max d y)) as [Hin Hle]. split.
    + destruct Hin as [Hin|Hin]; [|now right; right].
      rewrite <- Hin. destruct (Z.max_spec d y) as [[_ ->]|[_ ->]]; auto.
    + intros x Hx.
      pose proof (Hle (Z.max d y) ltac:(now left)) as H0.
      destruct Hx as [<-|[<-|Hx]]; [lia | lia |].
      apply Hle. now right.
Qed.

(** X14: the range that [main] hands to the run is spanned by the first
    and the last day with a valid badge event, so the range filter of
    the run drops no event; there is no range exactly when no event has
    a valid time. *)
Theorem main_range_keeps_every_event kaoqin_df :
  match event_date_range kaoqin_df with
  | None => coerce_events kaoqin_df = []
  | Some (start_date, end_date) =>
      start_date <= end_date
      /\ (exists e, In e (coerce_events kaoqin_df) /\ date_of (snd e) = start_date)
      /\ (exists e, In e (coerce_events kaoqin_df) /\ date_of (snd e) = end_date)
      /\ (forall e, In e (coerce_events kaoqin_df) ->
                    start_date <= date_of (snd e) <= end_date)
      /\ events_in_range kaoqin_df start_date end_date = coerce_events kaoqin_df
  end.
Proof.
  unfold event_date_range, events_in_range.
  destruct (map (fun e => date_of (snd e)) (coerce_events kaoqin_df)) as [|d ds] eqn:E.
  - now apply map_eq_nil in E.
  - destruct (fold_left_min_spec ds d) as [Hmin Hle].
    destruct (fold_left_max_spec ds d) as [Hmax Hge].
    rewrite <- E in Hmin, Hmax.
    assert (Hall : forall e, In e (coerce_events kaoqin_df) ->
              fold_left Z.min ds d <= date_of (snd e) <= fold_left Z.max ds d).
    { intros e He.
      assert (Hin : In (date_of (snd e)) (d :: ds))
        by (rewrite <- E; apply in_map_iff; eauto).
      split; [apply Hle | apply Hge]; exact Hin. }
    apply in_map_iff in Hmin as (e1 & He1 & Hin1).
    apply in_map_iff in Hmax as (e2 & He2 & Hin2).
    split; [specialize (Hall e1 Hin1); lia|].
    split; [eauto|]. split; [eauto|]. split; [exact Hall|].
    apply filter_all. apply List.Forall_forall. intros e He.
    specialize (Hall e He). apply andb_true_iff. rewrite !Z.leb_le. lia.
Qed.

Lemma StronglySorted_filter {A : Type} (R : A -> A -> Prop) (f : A -> bool) l :
  StronglySorted R l -> StronglySorted R (List.filter f l).
Proof.
  induction 1 as [|x l _ IH Hx]; simpl; [constructor|].
  destruct (f x); [|exact IH]. constructor; [exact IH|].
  apply List.Forall_forall. intros y Hy. apply filter_In in Hy as [Hy _].
  rewrite List.Forall_forall in Hx. now apply Hx.
Qed.

Lemma StronglySorted_le_NoDup_lt l :
  StronglySorted (fun a b => (a <=? b) = true) l -> List.NoDup l ->
  StronglySorted Z.lt l.
Proof.
  induction 1 as [|x l _ IH Hx]; intros Hnd; [constructor|].
  inversion Hnd as [|? ? Hnot Hnd']; subst. constructor; [now apply IH|].
  apply List.Forall_forall. intros y Hy. rewrite List.Forall_forall in Hx.
  specialize (Hx y Hy). apply Z.leb_le in Hx.
  assert (x <> y) by (intros ->; contradiction). lia.
Qed.

Lemma work_dates_of_ascending ev work_days holiday_days :
  StronglySorted Z.lt (work_dates_of ev work_days holiday_days).
Proof.
  apply StronglySorted_le_NoDup_lt; [|apply work_dates_of_NoDup].
  unfold work_dates_of. apply StronglySorted_filter, sorted_times_ascending.
Qed.

Lemma length_product_keys {A B C : Type} (f : A -> B -> C) (names : list B) days :
  length (flat_map (fun day => map (f day) names) days)
  = (length days * length names)%nat.
Proof.
  induction days as [|d days IH]; simpl; [reflexivity|].
  now rewrite length_app, length_map, IH.
Qed.

(** X15: the run completes and the statistics rows come day by day, the
    days in strictly ascending order, and within a day in roster order,
    each employee once; their number is the number of days walked times
    the number of employees. *)
Theorem statistics_rows_by_day_then_roster
    kaoqin_df xiujia_df waichu_df chuchai_df employee_df linshika_df
    start_date end_date work_days holiday_days :
  exists statistics_data summary_data work_dates,
    analyze_attendance kaoqin_df xiujia_df waichu_df chuchai_df employee_df
                       linshika_df start_date end_date work_days holiday_days
    = Some (statistics_data, summary_data)
    /\ StronglySorted Z.lt work_dates
    /\ (forall d, In d work_dates
                  <-> is_workday_from_calendar d work_days holiday_days = true
                      /\ exists e, In e (events_in_range kaoqin_df start_date end_date)
                                   /\ date_of (snd e) = d)
    /\ List.NoDup (unique (map emp_name employee_df))
    /\ map (fun r => (st_date r, st_name r)) statistics_data
       = flat_map (fun day => map (fun name => (isoformat day, name))
                                  (unique (map emp_name employee_df)))
                  work_dates
    /\ length statistics_data
       = (length work_dates * length (unique (map emp_name employee_df)))%nat.
Proof.
  destruct (analyze_attendance_run kaoqin_df xiujia_df waichu_df chuchai_df
              employee_df linshika_df start_date end_date work_days holiday_days)
    as (statistics_data & summary_data & Hrun & _ & Hkeys).
  exists statistics_data, summary_data,
    (work_dates_of (events_in_range kaoqin_df start_date end_date)
                   work_days holiday_days).
  split; [exact Hrun|]. split; [apply work_dates_of_ascending|].
  split; [intros d; apply work_dates_of_In|].
  split; [apply unique_NoDup|]. split; [exact Hkeys|].
  rewrite <- (length_map (fun r => (st_date r, st_name r))), Hkeys.
  apply (length_product_keys (fun day name => (isoformat day, name))).
Qed.






(** ** Exception summary, continued *)

Lemma string_compare_refl s : String.compare s s = Eq.
Proof.
  induction s as [|c s IH]; simpl; [reflexivity|].
  unfold Ascii.compare. now rewrite N.compare_refl.
Qed.

Lemma string_compare_lt_trans s1 : forall s2 s3,
  String.compare s1 s2 = Lt -> String.compare s2 s3 = Lt -> String.compare s1 s3 = Lt.
Proof.
  induction s1 as [|c1 s1 IH]; intros [|c2 s2] [|c3 s3]; simpl; try congruence.
  unfold Ascii.compare.
  destruct (N.compare_spec (N_of_ascii c1) (N_of_ascii c2)) as [E12|L12|G12];
    destruct (N.compare_spec (N_of_ascii c2) (N_of_ascii c3)) as [E23|L23|G23];
    try congruence; intros H12 H23.
  - rewrite E12, E23, N.compare_refl. eapply IH; eassumption.
  - rewrite E12. now apply N.compare_lt_iff in L23 as ->.
  - rewrite <- E23. now apply N.compare_lt_iff in L12 as ->.
  - assert (L13 : (N_of_ascii c1 < N_of_ascii c3)%N) by lia.
    now apply N.compare_lt_iff in L13 as ->.
Qed.

Lemma string_leb_trans a b c :
  String.leb a b = true -> String.leb b c = true -> String.leb a c = true.
Proof.
  unfold String.leb.
  destruct (String.compare a b) eqn:Hab; try discriminate;
    destruct (String.compare b c) eqn:Hbc; try discriminate; intros _ _.
  - apply String.compare_eq_iff in Hab, Hbc. subst. now rewrite string_compare_refl.
  - apply String.compare_eq_iff in Hab. subst. now rewrite Hbc.
  - apply String.compare_eq_iff in Hbc. subst. now rewrite Hab.
  - now rewrite (string_compare_lt_trans a b c Hab Hbc).
Qed.

Lemma sorted_names_ascending l :
  StronglySorted (fun a b => String.leb a b = true) (py_sorted String.leb l).
Proof.
  apply py_sorted_sorted.
  - intros a b H. destruct (String.leb_total a b) as [H'|H']; [congruence | exact H'].
  - exact string_leb_trans.
Qed.

Section Stable.

Context {A : Type} (le : A -> A -> bool) (before : A -> A -> Prop).
Hypothesis le_total : forall a b, le a b = false -> le b a = true.
Hypothesis le_trans : forall a b c, le a b = true -> le b c = true -> le a c = true.

Lemma insert_sorted_stable x l :
  Forall (before x) l ->
  StronglySorted (fun a b => le a b = true /\ (le b a = true -> before a b)) l ->
  StronglySorted (fun a b => le a b = true /\ (le b a = true -> before a b))
                 (insert_sorted le x l).
Proof.
  intros Hx Hs. induction Hs as [|y l Hs IH Hy]; simpl.
  - constructor; constructor.
  - inversion Hx as [|? ? Hxy Hxl]; subst.
    destruct (le x y) eqn:E.
    + constructor; [now constructor|]. constructor; [now split|].
      rewrite List.Forall_forall in Hy, Hxl. apply List.Forall_forall.
      intros z Hz. split; [|intros _; now apply Hxl].
      apply (le_trans x y z E). now apply Hy.
    + constructor; [now apply IH|].
      apply List.Forall_forall. intros z Hz.
      apply (Permutation_in _ (Permutation_sym (insert_sorted_perm le x l))) in Hz.
      destruct Hz as [<-|Hz].
      * split; [now apply le_total | congruence].
      * rewrite List.Forall_forall in Hy. now apply Hy.
Qed.

Lemma py_sorted_stable l :
  StronglySorted before l ->
  StronglySorted (fun a b => le a b = true /\ (le b a = true -> before a b))
                 (py_sorted le l).
Proof.
  induction 1 as [|x l _ IH Hx]; simpl; [constructor|].
  apply insert_sorted_stable; [|exact IH].
  apply List.Forall_forall. intros y Hy.
  apply (Permutation_in _ (Permutation_sym (py_sorted_perm le l))) in Hy.
  rewrite List.Forall_forall in Hx. now apply Hx.
Qed.

End Stable.

Lemma StronglySorted_map {A B : Type} (R : B -> B -> Prop) (f : A -> B) l :
  StronglySorted (fun a b => R (f a) (f b)) l -> StronglySorted R (map f l).
Proof.
  induction 1 as [|x l _ IH Hx]; simpl; constructor; [exact IH|].
  apply List.Forall_forall. intros y Hy. apply in_map_iff in Hy as (a & <- & Ha).
  rewrite List.Forall_forall in Hx. now apply Hx.
Qed.

Lemma StronglySorted_weaken {A : Type} (R R' : A -> A -> Prop) l :
  (forall a b, R a b -> R' a b) -> StronglySorted R l -> StronglySorted R' l.
Proof.
  intros HR. induction 1 as [|x l _ IH Hx]; constructor; [exact IH|].
  eapply Forall_impl; [exact Hx|]. intros y. apply HR.
Qed.

(** X17: the rows of the summary sheet are ordered by their total,
    largest first, and rows with the same total by employee name in
    ascending order. *)
Theorem summary_rows_order summary_data :
  StronglySorted
    (fun x y =>
       sr_total y < sr_total x
       \/ (sr_total x = sr_total y /\ String.leb (sr_name x) (sr_name y) = true))
    (summary_rows summary_data).
Proof.
  unfold summary_rows. destruct (_ && _); [constructor|].
  set (all_employees := py_sorted String.leb _).
  set (mk := fun employee : string => _).
  assert (Hin : StronglySorted
                  (fun x y => String.leb (sr_name x) (sr_name y) = true)
                  (map mk all_employees)).
  { apply StronglySorted_map. simpl. apply sorted_names_ascending. }
  pose proof (py_sorted_stable (fun x y => sr_total y <=? sr_total x)
                (fun x y => String.leb (sr_name x) (sr_name y) = true)
                ltac:(intros a b H; apply Z.leb_gt in H; apply Z.leb_le; lia)
                ltac:(intros a b c H1 H2; apply Z.leb_le in H1, H2; apply Z.leb_le; lia)
                _ Hin) as Hs.
  eapply StronglySorted_weaken; [|exact Hs].
  intros x y [H1 H2]. apply Z.leb_le in H1.
  destruct (Z.eq_dec (sr_total x) (sr_total y)) as [E|E]; [|left; lia].
  right. split; [exact E|]. apply H2. apply Z.leb_le. lia.
Qed.

(** ** Roster filter *)

Lemma is_digit_not_space c : is_digit c = true -> is_space c = false.
Proof.
  unfold is_digit, is_space. cbv zeta.
  set (n := Z.of_N (N_of_ascii c)).
  rewrite andb_true_iff, !Z.leb_le. intros [H1 H2].
  apply orb_false_iff. split; apply andb_false_iff.
  - right. apply Z.leb_gt. lia.
  - right. apply Z.leb_gt. lia.
Qed.

Lemma span_digits_all ds rest :
  Forall (fun c => is_digit c = true) ds ->
  match rest with [] => True | c :: _ => is_digit c = false end ->
  span_digits (ds ++ rest) = (ds, rest).
Proof.
  intros Hds Hrest. induction Hds as [|c ds Hc _ IH]; simpl.
  - destruct rest as [|c rest]; [reflexivity|]. simpl. now rewrite Hrest.
  - now rewrite Hc, IH.
Qed.

Lemma starts_with_app w s : starts_with w (w ++ s) = true.
Proof.
  induction w as [|a w IH]; simpl; [reflexivity|].
  rewrite IH, andb_true_r. apply Ascii.eqb_refl.
Qed.

Lemma search_grade_absent s :
  contains grade_word s = false -> search_grade s = None.
Proof.
  induction s as [|c s IH].
  - intros _. reflexivity.
  - intros H. change (contains grade_word (c :: s))
      with (starts_with grade_word (c :: s) || contains grade_word s) in H.
    apply orb_false_iff in H as [H1 H2].
    change (search_grade (c :: s))
      with (match match_grade (c :: s) with
            | Some d => Some d
            | None => search_grade s
            end).
    unfold match_grade. rewrite H1. now apply IH.
Qed.

Lemma search_grade_digits s d :
  search_grade s = Some d -> d <> [] /\ Forall (fun c => is_digit c = true) d.
Proof.
  induction s as [|c s IH].
  - simpl. unfold match_grade. simpl. discriminate.
  - change (search_grade (c :: s))
      with (match match_grade (c :: s) with
            | Some d => Some d
            | None => search_grade s
            end).
    destruct (match_grade (c :: s)) as [d'|] eqn:E; [|exact IH].
    intros [= ->]. unfold match_grade in E.
    destruct (starts_with grade_word (c :: s)); [|discriminate].
    pose proof (span_digits_digits
                  (lstrip (skipn (length grade_word) (c :: s)))) as Hd.
    destruct (span_digits _) as [d0 r]. simpl in Hd.
    destruct d0 as [|a d0]; [discriminate|]. injection E as <-.
    split; [discriminate | exact Hd].
Qed.

Lemma digits_value_nonneg d :
  Forall (fun c => is_digit c = true) d -> 0 <= digits_value d.
Proof.
  unfold digits_value. intros H.
  assert (G : forall acc, 0 <= acc ->
            0 <= fold_left (fun acc c => 10 * acc + digit_val c) d acc).
  { induction H as [|c d Hc _ IH]; intros acc Hacc; simpl; [exact Hacc|].
    apply IH. unfold is_digit, digit_val in *. cbv zeta in Hc.
    rewrite andb_true_iff, !Z.leb_le in Hc. lia. }
  apply G. lia.
Qed.

Lemma search_grade_leading ws ds rest :
  Forall (fun c => is_space c = true) ws ->
  ds <> [] -> Forall (fun c => is_digit c = true) ds ->
  match rest with [] => True | c :: _ => is_digit c = false end ->
  search_grade (grade_word ++ ws ++ ds ++ rest) = Some ds.
Proof.
  intros Hws Hne Hds Hrest.
  assert (Hm : match_grade (grade_word ++ ws ++ ds ++ rest) = Some ds).
  { unfold match_grade. rewrite starts_with_app.
    rewrite skipn_app, skipn_all, Nat.sub_diag, app_nil_l.
    change (skipn 0 (ws ++ ds ++ rest)) with (ws ++ ds ++ rest).
    rewrite lstrip_spaces by exact Hws.
    assert (Hl : lstrip (ds ++ rest) = ds ++ rest).
    { destruct ds as [|c ds]; [congruence|]. inversion Hds; subst. simpl.
      now rewrite is_digit_not_space. }
    rewrite Hl, span_digits_all by assumption.
    destruct ds; [congruence | reflexivity]. }
  destruct (grade_word ++ ws ++ ds ++ rest) as [|c s] eqn:E.
  - discriminate E.
  - change (search_grade (c :: s))
      with (match match_grade (c :: s) with
            | Some d => Some d
            | None => search_grade s
            end).
    now rewrite Hm.
Qed.

(** X18: how [extract_grade] reads the grade cell: an empty cell, an
    empty string and a string without the word [Grade] give 999; a string
    that starts with [Grade], blanks or none, and a number of at most
    4300 digits that ends the string or is followed by an ASCII character
    other than a digit gives that number; the value is never negative. *)
Theorem extract_grade_cases :
  extract_grade None = Some 999
  /\ extract_grade (Some ""%string) = Some 999
  /\ (forall g,
        contains grade_word (list_ascii_of_string g) = false ->
        extract_grade (Some g) = Some 999)
  /\ (forall ws ds rest,
        Forall (fun c => is_space c = true) ws ->
        ds <> [] -> Forall (fun c => is_digit c = true) ds ->
        match rest with
        | [] => True
        | c :: _ => is_digit c = false /\ (N_of_ascii c < 128)%N
        end ->
        (length ds <= 4300)%nat ->
        extract_grade (Some (string_of_list_ascii (grade_word ++ ws ++ ds ++ rest)))
        = Some (digits_value ds))
  /\ (forall g n, extract_grade g = Some n -> 0 <= n).
Proof.
  split; [reflexivity|]. split; [reflexivity|]. split; [|split].
  - intros g Hg. unfold extract_grade.
    destruct (String.eqb g ""); [reflexivity|].
    now rewrite search_grade_absent.
  - intros ws ds rest Hws Hne Hds Hrest Hlen. unfold extract_grade.
    destruct (String.eqb_spec
                (string_of_list_ascii (grade_word ++ ws ++ ds ++ rest)) "") as [E|_].
    + apply (f_equal list_ascii_of_string) in E.
      rewrite list_ascii_of_string_of_list_ascii in E. discriminate.
    + rewrite list_ascii_of_string_of_list_ascii.
      assert (Hrest' : match rest with [] => True | c :: _ => is_digit c = false end)
        by (destruct rest; [exact I | apply Hrest]).
      rewrite search_grade_leading by assumption.
      unfold int_of_digits.
      destruct (Nat.ltb_spec 4300 (length ds)); [lia | reflexivity].
  - intros [g|] n; [|intros [= <-]; lia]. unfold extract_grade.
    destruct (String.eqb g ""); [intros [= <-]; lia|].
    destruct (search_grade (list_ascii_of_string g)) as [d|] eqn:E;
      [|intros [= <-]; lia].
    unfold int_of_digits. destruct (_ <? _)%nat; [discriminate|].
    intros [= <-]. apply digits_value_nonneg.
    apply (search_grade_digits _ _ E).
Qed.

Lemma filter_filter {A : Type} (f g : A -> bool) l :
  List.filter f (List.filter g l) = List.filter (fun x => g x && f x) l.
Proof.
  induction l as [|x l IH]; simpl; [reflexivity|].
  destruct (g x); simpl; [|exact IH]. destruct (f x); now rewrite IH.
Qed.

Lemma apply_column_filter {A : Type} (f : A -> option Z) l : forall ys,
  apply_column f l = Some ys ->
  map fst (List.filter (fun rg : A * Z => snd rg <? 13) (List.combine l ys))
  = List.filter (fun r => match f r with Some n => n <? 13 | None => false end) l.
Proof.
  induction l as [|x l IH]; intros ys; simpl.
  - intros [= <-]. reflexivity.
  - destruct (f x) as [y|]; simpl; [|discriminate].
    destruct (apply_column f l) as [ys'|]; simpl; [|discriminate].
    intros [= <-]. simpl. specialize (IH ys' eq_refl).
    destruct (y <? 13); simpl; now rewrite IH.
Qed.

Lemma apply_column_total {A B : Type} (f : A -> option B) l :
  Forall (fun x => is_Some (f x)) l -> is_Some (apply_column f l).
Proof.
  induction 1 as [|x l [y Hy] _ [ys IH]]; simpl; [eauto|].
  rewrite Hy, IH. simpl. eauto.
Qed.

Lemma apply_column_values {A B : Type} (f : A -> option B) l : forall ys,
  apply_column f l = Some ys ->
  Forall (fun y => exists x, In x l /\ f x = Some y) ys.
Proof.
  induction l as [|x l IH]; intros ys; simpl.
  - intros [= <-]. constructor.
  - destruct (f x) as [y|] eqn:Hy; simpl; [|discriminate].
    destruct (apply_column f l) as [ys'|]; simpl; [|discriminate].
    intros [= <-]. constructor; [eauto|].
    eapply Forall_impl; [apply IH; reflexivity|].
    intros y' (x' & Hin & Hx'). eauto.
Qed.

Lemma maybe_convert_objects_small values :
  Forall (fun val => val < float_overflow) values ->
  maybe_convert_objects values = Some tt.
Proof.
  induction 1 as [|val values Hval _ IH]; simpl; [reflexivity|].
  destruct (Z.leb_spec float_overflow val); [lia|].
  destruct (2 ^ 64 - 1 <? val); [reflexivity | exact IH].
Qed.

(** The one test that the three filters of [filter_employees] amount to. *)
Lemma filter_employees_inv employee_df qualified :
  filter_employees employee_df = Some qualified ->
  qualified
  = List.filter
      (fun r => String.eqb (ro_type r) "全职" && String.eqb (ro_location r) "上海"
                && match extract_grade (ro_grade r) with
                   | Some n => n <? 13
                   | None => false
                   end)
      employee_df.
Proof.
  unfold filter_employees. destruct employee_df as [|r0 l]; [now intros [= <-]|].
  remember (r0 :: l) as df eqn:Hdf. clear Hdf. cbv zeta.
  destruct (apply_column _ _) as [grade_num|] eqn:E; simpl; [|discriminate].
  destruct (maybe_convert_objects grade_num); simpl; [|discriminate].
  intros [= <-]. rewrite (apply_column_filter _ _ _ E), !filter_filter.
  apply List.filter_ext. intros r. now rewrite andb_assoc.
Qed.

Lemma filter_employees_fixed l :
  Forall (fun r => ro_type r = "全职"%string /\ ro_location r = "上海"%string
                   /\ exists n, extract_grade (ro_grade r) = Some n /\ n < 13) l ->
  filter_employees l = Some l.
Proof.
  intros H. unfold filter_employees. destruct l as [|r0 l]; [reflexivity|].
  remember (r0 :: l) as df eqn:Hdf. clear Hdf. cbv zeta.
  rewrite (filter_all (fun r => String.eqb (ro_type r) "全职") df).
  2:{ eapply Forall_impl; [exact H|]. intros r (-> & _). reflexivity. }
  rewrite (filter_all (fun r => String.eqb (ro_location r) "上海") df).
  2:{ eapply Forall_impl; [exact H|]. intros r (_ & -> & _). reflexivity. }
  destruct (apply_column_total (fun r => extract_grade (ro_grade r)) df) as [ys Hys].
  { eapply Forall_impl; [exact H|]. intros r (_ & _ & n & -> & _). eauto. }
  rewrite Hys. simpl.
  rewrite maybe_convert_objects_small.
  2:{ eapply Forall_impl; [apply (apply_column_values _ _ _ Hys)|].
      intros y (r & Hr & Hy). rewrite List.Forall_forall in H.
      destruct (H r Hr) as (_ & _ & n & Hn & Hlt).
      simpl in Hy. rewrite Hn in Hy. injection Hy as <-.
      assert (13 < float_overflow) by reflexivity. lia. }
  simpl. f_equal. rewrite (apply_column_filter _ _ _ Hys).
  apply filter_all. eapply Forall_impl; [exact H|].
  intros r (_ & _ & n & -> & Hn). now apply Z.ltb_lt.
Qed.

(** X19: for a roster whose grade cells are plain text, the roster that
    [filter_employees] returns holds, in their order, exactly the rows
    of a full-time employee in Shanghai whose grade cell names a grade
    below 13; such a cell is not empty and holds the word [Grade];
    filtering the result again changes nothing. *)
Theorem filter_employees_keeps_qualified employee_df qualified :
  plain_roster employee_df ->
  filter_employees employee_df = Some qualified ->
  (exists keep, qualified = List.filter keep employee_df)
  /\ (forall r,
        In r qualified
        <-> In r employee_df
            /\ ro_type r = "全职"%string /\ ro_location r = "上海"%string
            /\ exists n, extract_grade (ro_grade r) = Some n /\ n < 13)
  /\ (forall r,
        In r qualified ->
        exists g, ro_grade r = Some g /\ g <> ""%string
                  /\ contains grade_word (list_ascii_of_string g) = true)
  /\ filter_employees qualified = Some qualified.
Proof.
  intros _ H. apply filter_employees_inv in H.
  assert (Hmem : forall r,
        In r qualified
        <-> In r employee_df
            /\ ro_type r = "全职"%string /\ ro_location r = "上海"%string
            /\ exists n, extract_grade (ro_grade r) = Some n /\ n < 13).
  { intros r. rewrite H, filter_In, !andb_true_iff, !String.eqb_eq. split.
    - intros (Hin & (Ht & Hl) & Hg).
      destruct (extract_grade (ro_grade r)) as [n|]; [|discriminate].
      apply Z.ltb_lt in Hg. eauto 8.
    - intros (Hin & Ht & Hl & n & Hn & Hlt). rewrite Hn.
      apply Z.ltb_lt in Hlt. auto. }
  split; [eauto|]. split; [exact Hmem|]. split.
  - intros r Hr. apply Hmem in Hr as (_ & _ & _ & n & Hn & Hlt).
    destruct (ro_grade r) as [g|]; [|simpl in Hn; injection Hn as <-; lia].
    exists g. split; [reflexivity|]. unfold extract_grade in Hn.
    destruct (String.eqb_spec g "") as [Hg|Hne]; [injection Hn as <-; lia|].
    split; [exact Hne|].
    destruct (contains grade_word (list_ascii_of_string g)) eqn:E; [reflexivity|].
    rewrite (search_grade_absent _ E) in Hn. injection Hn as <-. lia.
  - apply filter_employees_fixed. apply List.Forall_forall.
    intros r Hr. apply Hmem in Hr. tauto.
Qed.

Lemma filter_employees_keeps_qualified_witness :
  filter_employees
    [ {| ro_name := "A"; ro_dept := "R&D"; ro_type := "全职"; ro_location := "上海";
         ro_grade := Some "Grade 12"%string |};
      {| ro_name := "B"; ro_dept := "R&D"; ro_type := "全职"; ro_location := "上海";
         ro_grade := Some "Grade13"%string |};
      {| ro_name := "C"; ro_dept := "R&D"; ro_type := "实习"; ro_location := "上海";
         ro_grade := Some "Grade 3"%string |};
      {| ro_name := "D"; ro_dept := "R&D"; ro_type := "全职"; ro_location := "上海";
         ro_grade := Some "高级 Grade 9"%string |} ]
  = Some [ {| ro_name := "A"; ro_dept := "R&D"; ro_type := "全职"; ro_location := "上海";
              ro_grade := Some "Grade 12"%string |};
           {| ro_name := "D"; ro_dept := "R&D"; ro_type := "全职"; ro_location := "上海";
              ro_grade := Some "高级 Grade 9"%string |} ]
  /\ filter_employees
       [ {| ro_name := "A"; ro_dept := "R&D"; ro_type := "全职"; ro_location := "上海";
            ro_grade := Some "Grade 12"%string |};
         {| ro_name := "D"; ro_dept := "R&D"; ro_type := "全职"; ro_location := "上海";
            ro_grade := Some "高级 Grade 9"%string |} ]
     = Some [ {| ro_name := "A"; ro_dept := "R&D"; ro_type := "全职";
                 ro_location := "上海"; ro_grade := Some "Grade 12"%string |};
              {| ro_name := "D"; ro_dept := "R&D"; ro_type := "全职";
                 ro_location := "上海"; ro_grade := Some "高级 Grade 9"%string |} ].
Proof.
  assert (H : filter_employees
    [ {| ro_name := "A"; ro_dept := "R&D"; ro_type := "全职"; ro_location := "上海";
         ro_grade := Some "Grade 12"%string |};
      {| ro_name := "B"; ro_dept := "R&D"; ro_type := "全职"; ro_location := "上海";
         ro_grade := Some "Grade13"%string |};
      {| ro_name := "C"; ro_dept := "R&D"; ro_type := "实习"; ro_location := "上海";
         ro_grade := Some "Grade 3"%string |};
      {| ro_name := "D"; ro_dept := "R&D"; ro_type := "全职"; ro_location := "上海";
         ro_grade := Some "高级 Grade 9"%string |} ]
  = Some [ {| ro_name := "A"; ro_dept := "R&D"; ro_type := "全职"; ro_location := "上海";
              ro_grade := Some "Grade 12"%string |};
           {| ro_name := "D"; ro_dept := "R&D"; ro_type := "全职"; ro_location := "上海";
              ro_grade := Some "高级 Grade 9"%string |} ]) by (vm_compute; reflexivity).
  split; [exact H|].
  refine (proj2 (proj2 (proj2 (filter_employees_keeps_qualified _ _ _ H)))).
  repeat constructor; intros g [= <-]; reflexivity.
Defined.

Lemma lstrip_length t : (length (lstrip t) <= length t)%nat.
Proof.
  induction t as [|b t IH]; simpl; [lia|]. destruct (is_space b); simpl; lia.
Qed.

Lemma starts_with_length needle : forall s,
  starts_with needle s = true -> (length needle <= length s)%nat.
Proof.
  induction needle as [|a needle IH]; intros [|b s]; simpl;
    try lia; try discriminate.
  intros H. apply andb_true_iff in H as [_ H]. specialize (IH s H). lia.
Qed.

Lemma match_grade_room s d :
  match_grade s = Some d -> (length d + 5 <= length s)%nat.
Proof.
  unfold match_grade. destruct (starts_with grade_word s) eqn:Hs; [|discriminate].
  remember (skipn (length grade_word) s) as t eqn:Ht.
  pose proof (span_digits_split (lstrip t)) as Hsp.
  pose proof (lstrip_length t) as Hl.
  assert (Hk : (length t + 5 <= length s)%nat).
  { subst t. rewrite length_skipn. apply starts_with_length in Hs.
    change (length grade_word) with 5%nat in *. lia. }
  destruct (span_digits (lstrip t)) as [d0 r']. simpl in Hsp.
  destruct d0 as [|a d0]; [discriminate|]. intros [= <-].
  rewrite Hsp, length_app in Hl. lia.
Qed.

Lemma search_grade_room s d :
  search_grade s = Some d -> (length d + 5 <= length s)%nat.
Proof.
  induction s as [|c s IH].
  - simpl. unfold match_grade. simpl. discriminate.
  - change (search_grade (c :: s))
      with (match match_grade (c :: s) with
            | Some d => Some d
            | None => search_grade s
            end).
    destruct (match_grade (c :: s)) as [d'|] eqn:Em.
    + intros [= ->]. now apply match_grade_room.
    + intros H. specialize (IH H). simpl. lia.
Qed.

Lemma digits_value_bound d :
  Forall (fun c => is_digit c = true) d ->
  0 <= digits_value d < 10 ^ Z.of_nat (length d).
Proof.
  unfold digits_value. intros H.
  assert (G : forall acc, 0 <= acc ->
            0 <= fold_left (fun acc c => 10 * acc + digit_val c) d acc
            < (acc + 1) * 10 ^ Z.of_nat (length d)).
  { induction H as [|c d Hc _ IH]; intros acc Hacc.
    - simpl. lia.
    - cbn [fold_left length]. unfold is_digit, digit_val in *. cbv zeta in Hc.
      rewrite andb_true_iff, !Z.leb_le in Hc.
      rewrite Nat2Z.inj_succ, Z.pow_succ_r by lia.
      specialize (IH (10 * acc + (Z.of_N (N_of_ascii c) - 48)) ltac:(lia)).
      assert (Hp : 0 < 10 ^ Z.of_nat (length d)) by (apply Z.pow_pos_nonneg; lia).
      nia. }
  specialize (G 0 ltac:(lia)). lia.
Qed.

(** X20: [filter_employees] completes whenever no grade cell is longer
    than 313 characters: the number after [Grade] then has at most 308
    digits, which [int] reads and a float can hold. *)
Theorem filter_employees_completes employee_df :
  (forall r g, In r employee_df -> ro_grade r = Some g ->
               (String.length g <= 313)%nat) ->
  exists qualified, filter_employees employee_df = Some qualified.
Proof.
  intros Hlen. unfold filter_employees. destruct employee_df as [|r0 l]; [eauto|].
  remember (r0 :: l) as df eqn:Hdf. clear Hdf. cbv zeta.
  set (shanghai_df := List.filter (fun r => String.eqb (ro_location r) "上海")
                        (List.filter (fun r => String.eqb (ro_type r) "全职") df)).
  assert (Hval : forall r, In r shanghai_df ->
            exists n, extract_grade (ro_grade r) = Some n /\ n < float_overflow).
  { intros r Hr. unfold shanghai_df in Hr.
    apply filter_In in Hr as [Hr _]. apply filter_In in Hr as [Hr _].
    assert (H999 : 999 < float_overflow) by reflexivity.
    unfold extract_grade. destruct (ro_grade r) as [g|] eqn:Hg; [|eauto].
    destruct (String.eqb g ""); [eauto|].
    destruct (search_grade (list_ascii_of_string g)) as [d|] eqn:E; [|eauto].
    unfold int_of_digits.
    pose proof (search_grade_room _ _ E) as Hroom.
    specialize (Hlen r g Hr Hg).
    assert (Hg' : length (list_ascii_of_string g) = String.length g).
    { clear. induction g as [|c g IH]; simpl; [reflexivity | now rewrite IH]. }
    destruct (Nat.ltb_spec 4300 (length d)); [lia|].
    eexists. split; [reflexivity|].
    pose proof (digits_value_bound d (proj2 (search_grade_digits _ _ E))) as [_ Hb].
    assert (Hpow : 10 ^ Z.of_nat (length d) <= 10 ^ 308)
      by (apply Z.pow_le_mono_r; lia).
    assert (H308 : 10 ^ 308 < float_overflow) by (vm_compute; reflexivity).
    lia. }
  destruct (apply_column_total (fun r => extract_grade (ro_grade r)) shanghai_df)
    as [ys Hys].
  { apply List.Forall_forall. intros r Hr. destruct (Hval r Hr) as (n & -> & _). eauto. }
  rewrite Hys. simpl. rewrite maybe_convert_objects_small; [simpl; eauto|].
  eapply Forall_impl; [apply (apply_column_values _ _ _ Hys)|].
  intros y (r & Hr & Hy). destruct (Hval r Hr) as (n & Hn & Hlt).
  simpl in Hy. rewrite Hn in Hy. now injection Hy as <-.
Qed.

Lemma filter_employees_completes_witness :
  exists qualified,
    filter_employees
      [ {| ro_name := "A"; ro_dept := "R&D"; ro_type := "全职"; ro_location := "上海";
           ro_grade := Some "Grade 12"%string |};
        {| ro_name := "B"; ro_dept := "R&D"; ro_type := "全职"; ro_location := "上海";
           ro_grade := Some "Grade 18446744073709551616"%string |};
        {| ro_name := "C"; ro_dept := "R&D"; ro_type := "全职"; ro_location := "上海";
           ro_grade := None |} ] = Some qualified.
Proof.
  apply filter_employees_completes.
  intros r g [<-|[<-|[<-|[]]]]; intros [= <-]; simpl; lia.
Defined.

(** A grade of 309 digits is too large for a float: the conversion of
    the column raises and no roster is returned. *)
Example filter_employees_overflow :
  filter_employees
    [ {| ro_name := "A"; ro_dept := "R&D"; ro_type := "全职"; ro_location := "上海";
         ro_grade := Some (string_of_list_ascii
                             (grade_word ++ " "%char :: repeat "9"%char 309)) |} ]
  = None.
Proof. vm_compute. reflexivity. Qed.

(** ** Calendar file *)

Lemma read_calendar_file_rows file :
  read_calendar_file file
  = fold_left read_calendar_row (calendar_rows file) (∅, ∅).
Proof.
  unfold read_calendar_file, calendar_rows.
  destruct (List.find _ file) as [[name df]|]; [|reflexivity].
  destruct (_ || _); reflexivity.
Qed.

Lemma read_calendar_rows_mem rows : forall acc s,
  (s ∈ fst (fold_left read_calendar_row rows acc)
   <-> s ∈ fst acc
       \/ exists row, In row rows /\ calendar_date_of row = Some s
                      /\ (calendar_type_of row = "调休工作日"%string
                          \/ calendar_type_of row = "工作日"%string))
  /\ (s ∈ snd (fold_left read_calendar_row rows acc)
      <-> s ∈ snd acc
          \/ exists row, In row rows /\ calendar_date_of row = Some s
                         /\ calendar_type_of row = "法定节假日"%string).
Proof.
  induction rows as [|row rows IH]; intros acc s; simpl.
  - split; (split; [auto | intros [H|(row & [] & _)]; exact H]).
  - destruct (IH (read_calendar_row acc row) s) as [IHw IHh].
    rewrite IHw, IHh. clear IH IHw IHh.
    destruct acc as [work_days holiday_days]. unfold read_calendar_row.
    destruct (calendar_date_of row) as [date_str|] eqn:Hd.
    2:{ split; (split; [intros [H|(r & Hr & H)]; [auto | right; exists r; auto]
                       | intros [H|(r & [<-|Hr] & H1 & H2)];
                         [auto | congruence | right; exists r; auto]]). }
    destruct (String.eqb_spec (calendar_type_of row) "调休工作日") as [E1|E1];
      [|destruct (String.eqb_spec (calendar_type_of row) "工作日") as [E2|E2];
        [|destruct (String.eqb_spec (calendar_type_of row) "法定节假日") as [E3|E3]]];
      simpl; rewrite ?elem_of_union, ?elem_of_singleton.
    + split; split.
      * intros [[->|H]|(r & Hr & H)]; [right; exists row; auto | auto |
                                       right; exists r; auto].
      * intros [H|(r & [<-|Hr] & H1 & H2)];
          [auto | left; left; congruence | right; exists r; auto].
      * intros [H|(r & Hr & H)]; [auto | right; exists r; auto].
      * intros [H|(r & [<-|Hr] & H1 & H2)];
          [auto | rewrite E1 in H2; discriminate | right; exists r; auto].
    + split; split.
      * intros [[->|H]|(r & Hr & H)]; [right; exists row; auto | auto |
                                       right; exists r; auto].
      * intros [H|(r & [<-|Hr] & H1 & H2)];
          [auto | left; left; congruence | right; exists r; auto].
      * intros [H|(r & Hr & H)]; [auto | right; exists r; auto].
      * intros [H|(r & [<-|Hr] & H1 & H2)];
          [auto | rewrite E2 in H2; discriminate | right; exists r; auto].
    + split; split.
      * intros [H|(r & Hr & H)]; [auto | right; exists r; auto].
      * intros [H|(r & [<-|Hr] & H1 & [H2|H2])];
          [auto | congruence | congruence | right; exists r; auto..].
      * intros [[->|H]|(r & Hr & H)]; [right; exists row; auto | auto |
                                       right; exists r; auto].
      * intros [H|(r & [<-|Hr] & H1 & H2)];
          [auto | left; left; congruence | right; exists r; auto].
    + split; split.
      * intros [H|(r & Hr & H)]; [auto | right; exists r; auto].
      * intros [H|(r & [<-|Hr] & H1 & [H2|H2])];
          [auto | congruence | congruence | right; exists r; auto..].
      * intros [H|(r & Hr & H)]; [auto | right; exists r; auto].
      * intros [H|(r & [<-|Hr] & H1 & H2)];
          [auto | congruence | right; exists r; auto].
Qed.



(** X22: a date string in the calendar sets that is not written as
    [YYYY-MM-DD] with two-digit month and day, though ['%Y-%m-%d']
    accepts it, is never found: with it or without it
    [is_workday_from_calendar] gives the same answer for every date. *)
Theorem unpadded_calendar_date_is_ignored
    s d (work_days holiday_days : gset string) date_obj :
  strptime_date (list_ascii_of_string s) = Some d ->
  s <> isoformat d ->
  1 <= date_obj <= 3652059 ->
  is_workday_from_calendar date_obj ({[ s ]} ∪ work_days) holiday_days
  = is_workday_from_calendar date_obj work_days holiday_days
  /\ is_workday_from_calendar date_obj work_days ({[ s ]} ∪ holiday_days)
     = is_workday_from_calendar date_obj work_days holiday_days.
Proof.
  intros Hs Hne Hd.
  assert (Hneq : isoformat date_obj <> s).
  { intros E. rewrite <- E, strptime_date_isoformat in Hs by exact Hd.
    injection Hs as <-. congruence. }
  unfold is_workday_from_calendar. cbv zeta. split.
  - destruct (bool_decide (isoformat date_obj ∈ holiday_days)); [reflexivity|].
    assert (E : bool_decide (isoformat date_obj ∈ {[ s ]} ∪ work_days)
                = bool_decide (isoformat date_obj ∈ work_days)).
    { apply bool_decide_ext. rewrite elem_of_union, elem_of_singleton. tauto. }
    now rewrite E.
  - assert (E : bool_decide (isoformat date_obj ∈ {[ s ]} ∪ holiday_days)
                = bool_decide (isoformat date_obj ∈ holiday_days)).
    { apply bool_decide_ext. rewrite elem_of_union, elem_of_singleton. tauto. }
    now rewrite E.
Qed.

Lemma unpadded_calendar_date_is_ignored_witness :
  calendar_date_of {| cal_date := "2025-1-1"; cal_type := "法定节假日" |}
  = Some "2025-1-1"%string
  /\ is_workday_from_calendar (ymd2ord 2025 1 1) ∅ ({[ "2025-1-1"%string ]} ∪ ∅)
     = is_workday_from_calendar (ymd2ord 2025 1 1) ∅ ∅.
Proof.
  split; [vm_compute; reflexivity|].
  refine (proj2 (unpadded_calendar_date_is_ignored "2025-1-1" (ymd2ord 2025 1 1)
                   ∅ ∅ (ymd2ord 2025 1 1) _ _ _)).
  - vm_compute. reflexivity.
  - vm_compute. discriminate.
  - vm_compute. split; discriminate.
Defined.

(** ** Calendar generator *)

Lemma isoformat_chars d :
  exists y m dd,
    list_ascii_of_string (isoformat d)
    = fmt4 y ++ "-"%char :: fmt2 m ++ "-"%char :: fmt2 dd.
Proof.
  unfold isoformat. destruct (ord2ymd d) as [[y m] dd]. exists y, m, dd.
  apply list_ascii_of_string_of_list_ascii.
Qed.

Lemma is_space_digit_char n : is_space (digit_char n) = false.
Proof. apply is_digit_not_space, is_digit_digit_char. Qed.

Lemma blank_digit_char n : Ascii.eqb " " (digit_char n) = false.
Proof.
  destruct (Ascii.eqb_spec " " (digit_char n)) as [E|_]; [|reflexivity].
  pose proof (digit_char_not_blank n) as H. rewrite <- E in H. discriminate.
Qed.

Lemma existsb_false_Forall {A : Type} (f : A -> bool) l :
  Forall (fun x => f x = false) l -> existsb f l = false.
Proof. induction 1 as [|x l Hx _ IH]; simpl; [reflexivity|]. now rewrite Hx. Qed.

Lemma isoformat_plain d :
  strip (list_ascii_of_string (isoformat d)) = list_ascii_of_string (isoformat d)
  /\ existsb (Ascii.eqb " ") (list_ascii_of_string (isoformat d)) = false
  /\ isoformat d <> "nan"%string /\ isoformat d <> ""%string.
Proof.
  destruct (isoformat_chars d) as (y & m & dd & E).
  assert (Hns : no_space (list_ascii_of_string (isoformat d))).
  { rewrite E. unfold fmt4, fmt2. simpl app.
    repeat (constructor; [first [apply is_space_digit_char | reflexivity]|]).
    constructor. }
  split; [|split; [|split]].
  - apply strip_id; [now apply lstrip_no_space|].
    apply lstrip_no_space. unfold no_space in *. now apply Forall_rev.
  - rewrite E. unfold fmt4, fmt2. simpl app. apply existsb_false_Forall.
    repeat (constructor; [first [apply blank_digit_char | reflexivity]|]).
    constructor.
  - intros H. rewrite H in E. unfold fmt4, fmt2 in E. simpl in E. discriminate.
  - intros H. rewrite H in E. unfold fmt4, fmt2 in E. simpl in E. discriminate.
Qed.

Lemma calendar_date_of_isoformat d t :
  1 <= d <= 3652059 ->
  calendar_date_of {| cal_date := isoformat d; cal_type := t |} = Some (isoformat d).
Proof.
  intros Hd. unfold calendar_date_of. cbv zeta. simpl cal_date.
  destruct (isoformat_plain d) as (Hs & Hb & Hn & He).
  rewrite Hs, Hb, string_of_list_ascii_of_string.
  destruct (String.eqb_spec (isoformat d) "nan"); [contradiction|].
  destruct (String.eqb_spec (isoformat d) ""); [contradiction|]. simpl.
  now rewrite strptime_date_isoformat.
Qed.

Lemma ce_type_cases holidays workdays d :
  ce_type (calendar_entry_of holidays workdays d)
  = match dict_get holidays (isoformat d) with
    | Some _ => "法定节假日"%string
    | None =>
        match dict_get workdays (isoformat d) with
        | Some _ => "调休工作日"%string
        | None => if is_weekend d then "周末休息"%string else "工作日"%string
        end
    end.
Proof.
  unfold calendar_entry_of. cbv zeta.
  destruct (dict_get holidays (isoformat d)); [reflexivity|].
  destruct (dict_get workdays (isoformat d)); [reflexivity|].
  destruct (is_weekend d); reflexivity.
Qed.

Lemma ce_date_isoformat holidays workdays d :
  ce_date (calendar_entry_of holidays workdays d) = isoformat d.
Proof.
  unfold calendar_entry_of. cbv zeta.
  destruct (dict_get holidays (isoformat d)); [reflexivity|].
  destruct (dict_get workdays (isoformat d)); [reflexivity|].
  destruct (is_weekend d); reflexivity.
Qed.

Lemma ce_type_plain holidays workdays d :
  calendar_type_of {| cal_date := isoformat d;
                      cal_type := ce_type (calendar_entry_of holidays workdays d) |}
  = ce_type (calendar_entry_of holidays workdays d).
Proof.
  rewrite ce_type_cases. unfold calendar_type_of. simpl cal_type.
  destruct (dict_get holidays (isoformat d)); [vm_compute; reflexivity|].
  destruct (dict_get workdays (isoformat d)); [vm_compute; reflexivity|].
  destruct (is_weekend d); vm_compute; reflexivity.
Qed.

Lemma generated_rows holidays workdays start_date end_date :
  calendar_rows
    (retitled (create_full_calendar_excel
                 (generate_calendar holidays workdays start_date end_date)))
  = map (fun d => {| cal_date := isoformat d;
                     cal_type := ce_type (calendar_entry_of holidays workdays d) |})
        (seqZ start_date (end_date - start_date + 1)).
Proof.
  unfold calendar_rows, retitled, create_full_calendar_excel, generate_calendar.
  simpl. rewrite map_map. apply map_ext. intros d.
  now rewrite ce_date_isoformat.
Qed.

Lemma generated_row_In holidays workdays start_date end_date row :
  In row (calendar_rows
            (retitled (create_full_calendar_excel
                         (generate_calendar holidays workdays start_date end_date))))
  <-> exists d, start_date <= d <= end_date
                /\ row = {| cal_date := isoformat d;
                            cal_type := ce_type (calendar_entry_of holidays workdays d) |}.
Proof.
  rewrite generated_rows, in_map_iff. split.
  - intros (d & <- & Hd). apply list_elem_of_In, elem_of_seqZ in Hd.
    exists d. split; [lia | reflexivity].
  - intros (d & Hd & ->). exists d. split; [reflexivity|].
    apply list_elem_of_In, elem_of_seqZ. lia.
Qed.

(** X23: the calendar the generator builds, saved under the sheet title
    that [read_calendar_file] looks for and read back, makes
    [is_workday_from_calendar] agree with the generated day types: a day
    of the generated range is a workday exactly when its type is [工作日]
    or [调休工作日]; a day outside the range falls back on the weekday
    rule. *)
Theorem generated_calendar_agrees holidays workdays start_date end_date d :
  1 <= start_date -> end_date <= 3652059 -> 1 <= d <= 3652059 ->
  let file :=
    retitled (create_full_calendar_excel
                (generate_calendar holidays workdays start_date end_date)) in
  let work_days := fst (read_calendar_file file) in
  let holiday_days := snd (read_calendar_file file) in
  (start_date <= d <= end_date ->
   (is_workday_from_calendar d work_days holiday_days = true
    <-> ce_type (calendar_entry_of holidays workdays d) = "工作日"%string
        \/ ce_type (calendar_entry_of holidays workdays d) = "调休工作日"%string))
  /\ (~ start_date <= d <= end_date ->
      is_workday_from_calendar d work_days holiday_days = (weekday d <? 5)).
Proof.
  intros Hstart Hend Hd file work_days holiday_days.
  assert (Hrow : forall t,
            (exists row, In row (calendar_rows file)
                         /\ calendar_date_of row = Some (isoformat d)
                         /\ calendar_type_of row = t)
            <-> start_date <= d <= end_date
                /\ ce_type (calendar_entry_of holidays workdays d) = t).
  { intros t. split.
    - intros (row & Hin & Hdate & Ht).
      apply generated_row_In in Hin as (d0 & Hd0 & ->).
      rewrite calendar_date_of_isoformat in Hdate by lia.
      injection Hdate as E. apply isoformat_inj in E; [|lia|lia]. subst d0.
      split; [exact Hd0|]. rewrite <- Ht.
      symmetry. apply (ce_type_plain holidays workdays d).
    - intros [Hin <-].
      exists {| cal_date := isoformat d;
                cal_type := ce_type (calendar_entry_of holidays workdays d) |}.
      split; [apply generated_row_In; eauto|].
      split; [now apply calendar_date_of_isoformat|].
      apply (ce_type_plain holidays workdays d). }
  assert (Hw : isoformat d ∈ work_days
               <-> start_date <= d <= end_date
                   /\ (ce_type (calendar_entry_of holidays workdays d) = "调休工作日"%string
                       \/ ce_type (calendar_entry_of holidays workdays d) = "工作日"%string)).
  { unfold work_days. rewrite read_calendar_file_rows.
    rewrite (proj1 (read_calendar_rows_mem _ _ _)). simpl. rewrite elem_of_empty.
    split.
    - intros [[]|(row & Hin & Hdate & [Ht|Ht])].
      + destruct (proj1 (Hrow _) (ex_intro _ row (conj Hin (conj Hdate Ht)))); auto.
      + destruct (proj1 (Hrow _) (ex_intro _ row (conj Hin (conj Hdate Ht)))); auto.
    - intros [Hin [Ht|Ht]]; right.
      + destruct (proj2 (Hrow _) (conj Hin Ht)) as (row & ? & ? & ?). eauto 6.
      + destruct (proj2 (Hrow _) (conj Hin Ht)) as (row & ? & ? & ?). eauto 6. }
  assert (Hh : isoformat d ∈ holiday_days
               <-> start_date <= d <= end_date
                   /\ ce_type (calendar_entry_of holidays workdays d) = "法定节假日"%string).
  { unfold holiday_days. rewrite read_calendar_file_rows.
    rewrite (proj2 (read_calendar_rows_mem _ _ _)). simpl. rewrite elem_of_empty.
    rewrite Hrow. tauto. }
  unfold is_workday_from_calendar. cbv zeta.
  split.
  - intros Hin. rewrite ce_type_cases in *.
    destruct (dict_get holidays (isoformat d)).
    { rewrite bool_decide_eq_true_2 by (apply Hh; auto).
      split; [discriminate | intros [Hx|Hx]; discriminate]. }
    rewrite bool_decide_eq_false_2
      by (intros Hx; apply Hh in Hx as [_ Hx];
          destruct (dict_get workdays (isoformat d)); [discriminate|];
          destruct (is_weekend d); discriminate).
    destruct (dict_get workdays (isoformat d)).
    { rewrite bool_decide_eq_true_2 by (apply Hw; auto). tauto. }
    unfold is_weekend in *. destruct (Z.leb_spec 5 (weekday d)) as [H5|H5].
    + rewrite bool_decide_eq_false_2
        by (intros Hx; apply Hw in Hx as [_ [Hx|Hx]]; discriminate).
      destruct (Z.ltb_spec (weekday d) 5) as [H6|H6]; [lia|].
      split; [discriminate | intros [Hx|Hx]; discriminate].
    + rewrite bool_decide_eq_true_2 by (apply Hw; auto). tauto.
  - intros Hout.
    rewrite bool_decide_eq_false_2 by (intros Hx; apply Hh in Hx; tauto).
    rewrite bool_decide_eq_false_2 by (intros Hx; apply Hw in Hx; tauto).
    reflexivity.
Qed.

Lemma generated_calendar_agrees_witness :
  let file :=
    retitled (create_full_calendar_excel
                (generate_calendar get_2025_holidays get_2025_workdays
                                   (ymd2ord 2025 9 27) (ymd2ord 2025 10 2))) in
  is_workday_from_calendar (ymd2ord 2025 9 28)
    (fst (read_calendar_file file)) (snd (read_calendar_file file)) = true.
Proof.
  assert (H1 : 1 <= ymd2ord 2025 9 27) by (vm_compute; discriminate).
  assert (H2 : ymd2ord 2025 10 2 <= 3652059) by (vm_compute; discriminate).
  assert (H3 : 1 <= ymd2ord 2025 9 28 <= 3652059) by (vm_compute; split; discriminate).
  assert (H4 : ymd2ord 2025 9 27 <= ymd2ord 2025 9 28 <= ymd2ord 2025 10 2)
    by (vm_compute; split; discriminate).
  apply (proj1 (generated_calendar_agrees get_2025_holidays get_2025_workdays
                  _ _ _ H1 H2 H3) H4).
  right. vm_compute. reflexivity.
Defined.

(** X24: the workbook that the generator saves has its only sheet under
    another title than the one [read_calendar_file] looks for, so read as
    it is it gives no work day and no holiday, and every date is judged
    by the weekday rule alone; 2025-10-01, a Wednesday that the generator
    marks as a holiday, then counts as a workday. *)
Theorem generated_file_is_not_read calendar_data :
  read_calendar_file (create_full_calendar_excel calendar_data) = (∅, ∅)
  /\ (forall d,
        is_workday_from_calendar d
          (fst (read_calendar_file (create_full_calendar_excel calendar_data)))
          (snd (read_calendar_file (create_full_calendar_excel calendar_data)))
        = (weekday d <? 5))
  /\ ce_type (calendar_entry_of get_2025_holidays get_2025_workdays (ymd2ord 2025 10 1))
     = "法定节假日"%string
  /\ is_workday_from_calendar (ymd2ord 2025 10 1)
       (fst (read_calendar_file (create_full_calendar_excel generate_2025_calendar)))
       (snd (read_calendar_file (create_full_calendar_excel generate_2025_calendar)))
     = true.
Proof.
  assert (H : forall data, read_calendar_file (create_full_calendar_excel data) = (∅, ∅)).
  { intros data. reflexivity. }
  split; [apply H|]. split; [|split].
  - intros d. rewrite H. unfold is_workday_from_calendar. cbv zeta. simpl.
    rewrite !bool_decide_eq_false_2 by apply not_elem_of_empty. reflexivity.
  - vm_compute. reflexivity.
  - rewrite H. unfold is_workday_from_calendar. cbv zeta. simpl fst. simpl snd.
    rewrite !bool_decide_eq_false_2 by apply not_elem_of_empty.
    vm_compute. reflexivity.
Qed.

(** ** The program *)

Lemma coerce_events_again kaoqin_df :
  coerce_events
    (map (fun e => {| ev_holder := fst e; ev_time := Some (snd e) |})
         (coerce_events kaoqin_df))
  = coerce_events kaoqin_df.
Proof.
  assert (H : forall l : list (string * Z),
            Forall (fun e => timestamp_min <= snd e <= timestamp_max) l ->
            coerce_events
              (map (fun e => {| ev_holder := fst e; ev_time := Some (snd e) |}) l) = l).
  { induction 1 as [|[h t] l Ht _ IH]; [reflexivity|].
    unfold coerce_events in *. cbn [map omap list_omap fst snd ev_time ev_holder].
    rewrite IH. simpl in Ht.
    assert (E : to_datetime_coerce (Some t) = Some t).
    { unfold to_datetime_coerce. simpl.
      destruct (Z.leb_spec timestamp_min t); [|lia].
      destruct (Z.leb_spec t timestamp_max); [|lia]. reflexivity. }
    rewrite E. reflexivity. }
  apply H. apply List.Forall_forall. intros [h t] Hin. simpl.
  eapply coerce_events_in, Hin.
Qed.

Lemma event_date_range_again kaoqin_df :
  event_date_range
    (map (fun e => {| ev_holder := fst e; ev_time := Some (snd e) |})
         (coerce_events kaoqin_df))
  = event_date_range kaoqin_df.
Proof. unfold event_date_range. now rewrite coerce_events_again. Qed.

Lemma events_in_range_again kaoqin_df start_date end_date :
  events_in_range
    (map (fun e => {| ev_holder := fst e; ev_time := Some (snd e) |})
         (coerce_events kaoqin_df)) start_date end_date
  = events_in_range kaoqin_df start_date end_date.
Proof. unfold events_in_range. now rewrite coerce_events_again. Qed.

Lemma event_date_range_covers kaoqin_df start_date end_date :
  event_date_range kaoqin_df = Some (start_date, end_date) ->
  events_in_range kaoqin_df start_date end_date = coerce_events kaoqin_df
  /\ coerce_events kaoqin_df <> [].
Proof.
  unfold event_date_range, events_in_range.
  destruct (map (fun e => date_of (snd e)) (coerce_events kaoqin_df)) as [|d ds] eqn:E;
    [discriminate|].
  intros [= <- <-].
  destruct (fold_left_min_spec ds d) as [_ Hle].
  destruct (fold_left_max_spec ds d) as [_ Hge].
  split.
  - apply filter_all. apply List.Forall_forall. intros e He.
    assert (Hin : In (date_of (snd e)) (d :: ds))
      by (rewrite <- E; apply in_map_iff; eauto).
    apply andb_true_iff. rewrite !Z.leb_le. split; [apply Hle | apply Hge]; exact Hin.
  - intros H. rewrite H in E. discriminate.
Qed.

(** X25: what [main] does with the tables, for a roster and a calendar
    in plain text: it raises when the roster filter raises or when the
    roster is empty while some badge event has a valid time; it stops
    without a report exactly when no badge event has a valid time;
    otherwise the statistics hold rows of qualified employees only -
    full-time, in Shanghai, with a grade below 13 - and for every valid
    badge event whose day is a workday of the calendar exactly one row
    for that day and each qualified employee. *)
Theorem main_analysis_outcome
    employee_df kaoqin_df xiujia_df waichu_df chuchai_df linshika_df calendar_file :
  plain_roster employee_df -> plain_calendar calendar_file ->
  match main_analysis employee_df kaoqin_df xiujia_df waichu_df chuchai_df
                      linshika_df calendar_file with
  | None =>
      filter_employees employee_df = None
      \/ (employee_df = [] /\ coerce_events kaoqin_df <> [])
  | Some NoValidEvents =>
      coerce_events kaoqin_df = [] /\ is_Some (filter_employees employee_df)
  | Some (Analysed statistics_data summary_data) =>
      employee_df <> [] /\ coerce_events kaoqin_df <> []
      /\ (forall r, In r statistics_data ->
            exists e, In e employee_df /\ ro_name e = st_name r
                      /\ ro_type e = "全职"%string /\ ro_location e = "上海"%string
                      /\ exists n, extract_grade (ro_grade e) = Some n /\ n < 13)
      /\ (forall ev e qualified,
            In ev (coerce_events kaoqin_df) ->
            is_workday_from_calendar (date_of (snd ev))
              (fst (read_calendar_file calendar_file))
              (snd (read_calendar_file calendar_file)) = true ->
            filter_employees employee_df = Some qualified -> In e qualified ->
            length (rows_for statistics_data (date_of (snd ev)) (ro_name e)) = 1%nat)
  end.
Proof.
  intros _ _. unfold main_analysis.
  destruct (filter_employees employee_df) as [qualified|] eqn:Hq; simpl; [|now left].
  destruct (read_calendar_file calendar_file) as [work_days holiday_days] eqn:Hcal.
  rewrite event_date_range_again.
  destruct (event_date_range kaoqin_df) as [[start_date end_date]|] eqn:Hrange.
  2:{ split; [|eauto]. unfold event_date_range in Hrange.
      destruct (map _ (coerce_events kaoqin_df)) eqn:E; [|discriminate].
      now apply map_eq_nil in E. }
  destruct (event_date_range_covers _ _ _ Hrange) as [Hall Hne].
  destruct employee_df as [|e0 l] eqn:Hdf; [now right|]. rewrite <- Hdf in *.
  set (events := map _ (coerce_events kaoqin_df)).
  destruct (analyze_attendance_run events xiujia_df waichu_df chuchai_df
              (map employee_of qualified) linshika_df start_date end_date
              work_days holiday_days)
    as (statistics_data & summary_data & Hrun & _ & Hkeys).
  rewrite Hrun. simpl.
  unfold events in Hkeys. rewrite events_in_range_again, Hall in Hkeys.
  rewrite map_map in Hkeys. simpl in Hkeys.
  pose proof (filter_employees_inv _ _ Hq) as Hinv.
  split; [rewrite Hdf; discriminate|]. split; [exact Hne|]. split.
  - intros r Hr.
    assert (Hk : In (st_date r, st_name r)
                    (map (fun r => (st_date r, st_name r)) statistics_data))
      by (apply in_map_iff; eauto).
    rewrite Hkeys in Hk. apply product_keys_In in Hk as [_ Hn].
    apply (proj1 (unique_In _ _)) in Hn. apply in_map_iff in Hn as (e & He & Hin).
    exists e. rewrite Hinv in Hin. apply filter_In in Hin as [Hin Hp].
    rewrite !andb_true_iff, !String.eqb_eq in Hp. destruct Hp as [[Ht Hl] Hg].
    split; [exact Hin|]. split; [exact He|]. split; [exact Ht|]. split; [exact Hl|].
    destruct (extract_grade (ro_grade e)) as [n|]; [|discriminate].
    exists n. split; [reflexivity|]. now apply Z.ltb_lt.
  - intros ev e q Hev Hwork [= <-] He. simpl in Hwork.
    assert (Hrange' : forall d,
              In d (work_dates_of (coerce_events kaoqin_df) work_days holiday_days) ->
              1 <= d <= 3652059).
    { intros d Hd. apply work_dates_of_In in Hd as (_ & e' & He' & <-).
      destruct e' as [h t]. apply date_of_timestamp. eapply coerce_events_in, He'. }
    apply rows_for_one; rewrite Hkeys.
    + apply product_keys_NoDup.
      * apply unique_NoDup.
      * apply work_dates_of_NoDup.
      * intros d d' Hd Hd'. apply isoformat_inj; auto.
    + apply product_keys_In. split.
      * exists (date_of (snd ev)). split; [|reflexivity].
        apply work_dates_of_In. eauto.
      * apply unique_In, in_map_iff. eauto.
Qed.

(** A roster of two, one of them qualified, one badge event on a Monday
    and a calendar with one holiday: one row, for the qualified
    employee. *)
Lemma main_analysis_outcome_witness :
  exists statistics_data summary_data,
    main_analysis
      [ {| ro_name := "A"; ro_dept := "R&D"; ro_type := "全职"; ro_location := "上海";
           ro_grade := Some "Grade 12"%string |};
        {| ro_name := "B"; ro_dept := "R&D"; ro_type := "全职"; ro_location := "上海";
           ro_grade := Some "Grade 13"%string |} ]
      [ {| ev_holder := "A"; ev_time := Some (datetime_at 2025 4 28 8 55) |} ]
      [] [] [] []
      [ (target_sheet,
         {| sh_columns := [ "日期"; "日期类型" ]%string;
            sh_rows := [ {| cal_date := "2025-05-01"; cal_type := "法定节假日" |} ] |}) ]
    = Some (Analysed statistics_data summary_data)
    /\ map st_name statistics_data = [ "A"%string ]
    /\ forall r, In r statistics_data ->
          exists e, ro_name e = st_name r /\ ro_type e = "全职"%string
                    /\ ro_location e = "上海"%string
                    /\ exists n, extract_grade (ro_grade e) = Some n /\ n < 13.
Proof.
  pose proof (main_analysis_outcome
      [ {| ro_name := "A"; ro_dept := "R&D"; ro_type := "全职"; ro_location := "上海";
           ro_grade := Some "Grade 12"%string |};
        {| ro_name := "B"; ro_dept := "R&D"; ro_type := "全职"; ro_location := "上海";
           ro_grade := Some "Grade 13"%string |} ]
      [ {| ev_holder := "A"; ev_time := Some (datetime_at 2025 4 28 8 55) |} ]
      [] [] [] []
      [ (target_sheet,
         {| sh_columns := [ "日期"; "日期类型" ]%string;
            sh_rows := [ {| cal_date := "2025-05-01"; cal_type := "法定节假日" |} ] |}) ])
    as H.
  destruct (main_analysis _ _ _ _ _ _ _) as [[|statistics_data summary_data]|] eqn:E;
    [vm_compute in E; discriminate | | vm_compute in E; discriminate].
  exists statistics_data, summary_data. split; [reflexivity|].
  split; [vm_compute in E; now injection E as <- <-|].
  assert (H' := H ltac:(repeat constructor; intros g [= <-]; reflexivity)
                  ltac:(repeat constructor)).
  destruct H' as (_ & _ & Hrows & _).
  intros r Hr. destruct (Hrows r Hr) as (e & _ & He). exists e. exact He.
Defined.

(** X26: the calendar of 2025 has one entry for each of the 365 days of
    the year, in order; every key of the holiday dictionary is the date
    of an entry of type [法定节假日] with the holiday's name, and every key
    of the work-day dictionary is the date of an entry of type
    [调休工作日], a Saturday or a Sunday; no key is dead and no date is in
    both dictionaries. *)
Theorem generate_2025_calendar_days :
  map ce_date generate_2025_calendar
  = map isoformat (seqZ (ymd2ord 2025 1 1) 365)
  /\ (forall key name,
        In (key, name) get_2025_holidays ->
        dict_get get_2025_workdays key = None
        /\ exists e, In e generate_2025_calendar /\ ce_date e = key
                     /\ ce_type e = "法定节假日"%string /\ ce_holiday_name e = name)
  /\ (forall key name,
        In (key, name) get_2025_workdays ->
        exists d, is_weekend d = true /\ isoformat d = key
                  /\ In (calendar_entry_of get_2025_holidays get_2025_workdays d)
                        generate_2025_calendar
                  /\ ce_type (calendar_entry_of get_2025_holidays get_2025_workdays d)
                     = "调休工作日"%string
                  /\ ce_holiday_name
                       (calendar_entry_of get_2025_holidays get_2025_workdays d)
                     = name).
Proof.
  split; [vm_compute; reflexivity|]. split.
  - assert (H : forallb
                  (fun kv : string * string =>
                     match dict_get get_2025_workdays (fst kv) with
                     | None => true
                     | Some _ => false
                     end
                     && existsb
                          (fun e => String.eqb (ce_date e) (fst kv)
                                    && String.eqb (ce_type e) "法定节假日"
                                    && String.eqb (ce_holiday_name e) (snd kv))
                          generate_2025_calendar)
                  get_2025_holidays = true) by (vm_compute; reflexivity).
    rewrite forallb_forall in H. intros key name Hin.
    specialize (H _ Hin). cbv beta in H. simpl fst in H. simpl snd in H.
    apply andb_true_iff in H as [H1 H2].
    split; [destruct (dict_get get_2025_workdays key); [discriminate | reflexivity]|].
    apply existsb_exists in H2 as (e & He & H2).
    rewrite !andb_true_iff, !String.eqb_eq in H2. exists e. tauto.
  - assert (H : forallb
                  (fun kv : string * string =>
                     existsb
                       (fun d =>
                          is_weekend d
                          && String.eqb (isoformat d) (fst kv)
                          && String.eqb
                               (ce_type (calendar_entry_of get_2025_holidays
                                                           get_2025_workdays d))
                               "调休工作日"
                          && String.eqb
                               (ce_holiday_name
                                  (calendar_entry_of get_2025_holidays
                                                     get_2025_workdays d))
                               (snd kv))
                       (seqZ (ymd2ord 2025 1 1)
                             (ymd2ord 2025 12 31 - ymd2ord 2025 1 1 + 1)))
                  get_2025_workdays = true) by (vm_compute; reflexivity).
    rewrite forallb_forall in H. intros key name Hin.
    specialize (H _ Hin). cbv beta in H. simpl fst in H. simpl snd in H.
    apply existsb_exists in H as (d & Hd & H).
    rewrite !andb_true_iff, !String.eqb_eq in H. exists d.
    destruct H as [[[H1 H2] H3] H4].
    split; [exact H1|]. split; [exact H2|]. split; [|split; assumption].
    unfold generate_2025_calendar, generate_calendar. apply in_map. exact Hd.
Qed.

(** ** Cell colours *)

Lemma bump_changes (d : gmap string Z) name : bump d name <> d.
Proof.
  intros E. pose proof (bump_lookup d name name) as H. rewrite E in H.
  rewrite decide_True in H by reflexivity.
  destruct (d !! name) as [v|]; simpl in H; [injection H; lia | discriminate].
Qed.

(** X27: the colours of the two sheets.  The status cell of a statistics
    row has a colour exactly when the row is counted in the summary, that
    is unless the status is normal, and the three exception statuses have
    three different colours; the absence-minutes cell has a colour exactly
    when the minutes are positive and the status is normal; a count cell
    of the summary is red above 3, yellow at 3 and plain below; the total
    of a summary row never has a colour. *)
Theorem cell_colours :
  (forall st value (row_data : gmap string string),
     row_data !! "状态"%string = Some (status_label st) ->
     get_cell_color "状态" value row_data = Some (get_status_color (status_label st)))
  /\ (forall st, get_status_color (status_label st) = None <-> st = Normal)
  /\ (forall st (sd : summary) (name : string),
        get_status_color (status_label st) = None <-> summary_count sd st name = sd)
  /\ (forall st st',
        get_status_color (status_label st) = get_status_color (status_label st') ->
        st = st')
  /\ (forall st value n (row_data : gmap string string),
        py_int value = Some n ->
        row_data !! "状态"%string = Some (status_label st) ->
        get_cell_color "实际缺勤时间[分钟]" value row_data
        = Some (if (0 <? n) && bool_decide (st = Normal)
                then Some "D4E4BC"%string else None))
  /\ (forall header value n (row_data : gmap string string),
        In header [ "未打卡次数"; "上/下班漏打卡次数"; "出勤不足次数" ]%string ->
        py_int value = Some n ->
        get_cell_color header value row_data
        = Some (if 3 <? n then Some "E6B8AF"%string
                else if n =? 3 then Some "FFE599"%string
                else None))
  /\ (forall value (row_data : gmap string string),
        get_cell_color "总异常次数" value row_data = Some None).
Proof.
  split; [|split; [|split; [|split; [|split; [|split]]]]].
  - intros st value row_data H. unfold get_cell_color. simpl. now rewrite H.
  - intros st. destruct st; vm_compute; split; congruence.
  - intros st sd name. destruct st; simpl.
    + split; reflexivity.
    + split; [discriminate|]. intros E. exfalso.
      apply (bump_changes (sum_no_punch sd) name).
      now apply (f_equal sum_no_punch) in E.
    + split; [discriminate|]. intros E. exfalso.
      apply (bump_changes (sum_single_punch sd) name).
      now apply (f_equal sum_single_punch) in E.
    + split; [discriminate|]. intros E. exfalso.
      apply (bump_changes (sum_insufficient sd) name).
      now apply (f_equal sum_insufficient) in E.
  - intros st st'. destruct st, st'; vm_compute; congruence.
  - intros st value n row_data Hn Hst. unfold get_cell_color.
    change (String.eqb "实际缺勤时间[分钟]" "状态") with false.
    change (String.eqb "实际缺勤时间[分钟]" "实际缺勤时间[分钟]") with true.
    cbv iota. rewrite Hn. simpl. destruct (0 <? n); simpl; [|reflexivity].
    rewrite Hst. simpl. destruct st; reflexivity.
  - intros header value n row_data Hin Hn.
    destruct Hin as [<-|[<-|[<-|[]]]]; unfold get_cell_color;
      match goal with
      | |- context [String.eqb ?h "状态"] =>
          change (String.eqb h "状态") with false;
          change (String.eqb h "实际缺勤时间[分钟]") with false;
          change (String.eqb h "临时卡") with false
      end; cbv iota; simpl andb; cbv iota;
      match goal with
      | |- context [existsb ?f ?l] =>
          replace (existsb f l) with true by (vm_compute; reflexivity)
      end; rewrite Hn; reflexivity.
  - intros value row_data. unfold get_cell_color.
    change (String.eqb "总异常次数" "状态") with false.
    change (String.eqb "总异常次数" "实际缺勤时间[分钟]") with false.
    change (String.eqb "总异常次数" "临时卡") with false.
    cbv iota. simpl andb. cbv iota.
    replace (existsb (String.eqb "总异常次数") _) with false by (vm_compute; reflexivity).
    reflexivity.
Qed.

(** ** Times written and read back *)

Lemma tod_of_combine d tod : 0 <= tod < us_per_day -> tod_of (combine d tod) = tod.
Proof.
  intros H. unfold tod_of, combine.
  rewrite Z.add_comm, Z.mod_add by discriminate. now apply Z.mod_small.
Qed.

Lemma strftime_HM_written d hh mm :
  0 <= hh <= 23 -> 0 <= mm <= 59 ->
  strftime_HM (combine d (time_of_day hh mm))
  = string_of_list_ascii (fmt2 hh ++ ":"%char :: fmt2 mm).
Proof.
  intros Hh Hm. unfold strftime_HM. cbv zeta.
  rewrite tod_of_combine by (now apply time_of_day_range).
  assert (E1 : time_of_day hh mm / us_per_hour = hh).
  { unfold time_of_day. symmetry.
    apply (Z.div_unique _ _ hh (mm * us_per_minute)); [left|];
      unfold us_per_hour, us_per_minute, us_per_second; lia. }
  assert (E2 : time_of_day hh mm mod us_per_hour / us_per_minute = mm).
  { assert (E : time_of_day hh mm mod us_per_hour = mm * us_per_minute).
    { unfold time_of_day. symmetry.
      apply (Z.mod_unique _ _ hh (mm * us_per_minute)); [left|];
        unfold us_per_hour, us_per_minute, us_per_second; lia. }
    rewrite E. apply Z.div_mul. discriminate. }
  now rewrite E1, E2.
Qed.

Lemma strptime_time_written hh mm :
  0 <= hh <= 23 -> 0 <= mm <= 59 ->
  strptime_time (fmt2 hh ++ ":"%char :: fmt2 mm) = Some (hh, mm).
Proof.
  intros Hh Hm. unfold strptime_time, match_time, directive_H, directive_M.
  rewrite (number_field_app 1 2 0 23) by reflexivity.
  rewrite number_field_fmt2 by lia.
  destruct (Z.leb_spec 0 hh); [|lia]. destruct (Z.leb_spec hh 23); [|lia]. simpl.
  rewrite number_field_fmt2 by lia.
  destruct (Z.leb_spec 0 mm); [|lia]. destruct (Z.leb_spec mm 59); [|lia].
  reflexivity.
Qed.

Lemma isoformat_token d : token (list_ascii_of_string (isoformat d)).
Proof.
  destruct (isoformat_chars d) as (y & m & dd & E). rewrite E. split.
  - unfold fmt4. discriminate.
  - unfold fmt4, fmt2. simpl app.
    repeat (constructor; [first [apply is_space_digit_char | reflexivity]|]).
    constructor.
Qed.

Lemma time_written_token hh mm : token (fmt2 hh ++ ":"%char :: fmt2 mm).
Proof.
  split; [unfold fmt2; discriminate|]. unfold fmt2. simpl app.
  repeat (constructor; [first [apply is_space_digit_char | reflexivity]|]).
  constructor.
Qed.

(** X28: a time written as the program writes dates and times - the day
    as [str(day)], a blank, the time as ['%H:%M'] - is read back by
    [parse_datetime_str] as the same time, whatever the end flag, and the
    ['%H:%M'] text alone gives back the hour and the minute. *)
Theorem written_time_reads_back d hh mm is_end_time :
  1 <= d <= 3652059 -> 0 <= hh <= 23 -> 0 <= mm <= 59 ->
  strptime_time
    (list_ascii_of_string (strftime_HM (combine d (time_of_day hh mm))))
  = Some (hh, mm)
  /\ parse_datetime_str
       (string_of_list_ascii
          (list_ascii_of_string (isoformat d)
           ++ " "%char
              :: list_ascii_of_string (strftime_HM (combine d (time_of_day hh mm)))))
       is_end_time
     = Some (combine d (time_of_day hh mm)).
Proof.
  intros Hd Hh Hm.
  rewrite strftime_HM_written, list_ascii_of_string_of_list_ascii by assumption.
  split; [now apply strptime_time_written|].
  rewrite parse_date_and_token
    by (first [apply isoformat_token | apply time_written_token]).
  rewrite strptime_date_isoformat by exact Hd.
  rewrite strptime_time_written by assumption. reflexivity.
Qed.

Lemma written_time_reads_back_witness :
  parse_datetime_str
    (string_of_list_ascii
       (list_ascii_of_string (isoformat (ymd2ord 2025 4 28))
        ++ " "%char
           :: list_ascii_of_string
                (strftime_HM (combine (ymd2ord 2025 4 28) (time_of_day 9 5)))))
    true
  = Some (combine (ymd2ord 2025 4 28) (time_of_day 9 5)).
Proof.
  refine (proj2 (written_time_reads_back (ymd2ord 2025 4 28) 9 5 true _ _ _)).
  - vm_compute. split; discriminate.
  - lia.
  - lia.
Defined.

(** ** Absence resolver: the order of the records *)

Lemma clipped_periods_concat name target_date absence_dfs :
  clipped_periods name target_date absence_dfs
  = flat_map
      (fun record =>
         if row_selected name record then
           match process_absence_record record target_date
                   (target_date + time_of_day 9 0) (target_date + time_of_day 18 0) with
           | Some time_period => [(record, time_period)]
           | None => []
           end
         else [])
      (concat absence_dfs).
Proof.
  unfold clipped_periods. induction absence_dfs as [|df dfs IH]; [reflexivity|].
  simpl. rewrite flat_map_app, IH. f_equal.
  clear. induction df as [|r df IH]; [reflexivity|]. simpl.
  destruct (row_selected name r); simpl; now rewrite IH.
Qed.

Lemma merge_datetime_periods_perm l l' :
  Forall valid l -> Permutation l l' ->
  merge_datetime_periods l = merge_datetime_periods l'.
Proof.
  intros Hv HP.
  assert (Hv' : Forall valid l').
  { apply List.Forall_forall. intros p Hp. rewrite List.Forall_forall in Hv.
    apply Hv. eapply Permutation_in; [apply Permutation_sym, HP | exact Hp]. }
  apply chain_unique; [now apply merge_chain | now apply merge_chain|].
  intros q. rewrite !merge_covered by assumption.
  split; apply covered_perm; [exact HP | apply Permutation_sym, HP].
Qed.

(** X29: the raw absence hours and the merged periods depend neither on
    the order of the absence records nor on the table a record stands
    in; the actual hours then agree as well, and only the description
    may list its parts in another order. *)
Theorem absence_hours_order_independent
    name day absence_dfs absence_dfs' :
  Permutation (concat absence_dfs) (concat absence_dfs') ->
  get_raw_absence_hours name day absence_dfs
  = get_raw_absence_hours name day absence_dfs'
  /\ (forall xiujia_df waichu_df chuchai_df xiujia_df' waichu_df' chuchai_df',
        absence_dfs = [xiujia_df; waichu_df; chuchai_df] ->
        absence_dfs' = [xiujia_df'; waichu_df'; chuchai_df'] ->
        option_map fst (get_absence_hours name day xiujia_df waichu_df chuchai_df)
        = option_map fst (get_absence_hours name day xiujia_df' waichu_df' chuchai_df')).
Proof.
  intros HP.
  assert (Hraw : get_raw_absence_hours name day absence_dfs
                 = get_raw_absence_hours name day absence_dfs').
  { unfold get_raw_absence_hours.
    destruct (strptime_date (list_ascii_of_string day)) as [d|]; [|reflexivity].
    simpl option_bind. cbv zeta.
    assert (HPc : Permutation (map snd (clipped_periods name (combine d 0) absence_dfs))
                              (map snd (clipped_periods name (combine d 0) absence_dfs'))).
    { apply Permutation_map. rewrite !clipped_periods_concat.
      now apply Permutation_flat_map. }
    assert (Hv : Forall valid (map snd (clipped_periods name (combine d 0) absence_dfs))).
    { apply List.Forall_forall. intros p Hp.
      apply in_map_iff in Hp as ([r q] & <- & Hq).
      apply clipped_periods_window in Hq. unfold valid. simpl. lia. }
    pose proof (merge_datetime_periods_perm _ _ Hv HPc) as Hm.
    change (mbind ?f (Some d)) with (f d). cbv beta.
    destruct (map snd (clipped_periods name (combine d 0) absence_dfs)) as [|p l] eqn:E;
      destruct (map snd (clipped_periods name (combine d 0) absence_dfs'))
        as [|p' l'] eqn:E'.
    - reflexivity.
    - apply Permutation_nil in HPc. discriminate.
    - apply Permutation_sym, Permutation_nil in HPc. discriminate.
    - now rewrite Hm. }
  split; [exact Hraw|].
  intros x w c x' w' c' -> ->. unfold get_absence_hours. rewrite Hraw.
  destruct (get_raw_absence_hours name day [x'; w'; c']) as [[raw merged]|] eqn:Hr;
    [|reflexivity].
  apply get_raw_absence_hours_inv in Hr as (d & Hd & _).
  unfold get_absence_description. rewrite Hd. reflexivity.
Qed.

Lemma absence_hours_order_independent_witness :
  get_raw_absence_hours "A" "2025-04-28"
    [ [ {| ab_name := "A"; ab_status := status_effective; ab_type := "事假";
           ab_start := "2025-04-28 09:00"; ab_end := "2025-04-28 11:00" |} ];
      [ {| ab_name := "A"; ab_status := status_effective; ab_type := "外出";
           ab_start := "2025-04-28 10:00"; ab_end := "2025-04-28 14:00" |} ] ]
  = get_raw_absence_hours "A" "2025-04-28"
      [ [ {| ab_name := "A"; ab_status := status_effective; ab_type := "外出";
             ab_start := "2025-04-28 10:00"; ab_end := "2025-04-28 14:00" |};
          {| ab_name := "A"; ab_status := status_effective; ab_type := "事假";
             ab_start := "2025-04-28 09:00"; ab_end := "2025-04-28 11:00" |} ] ].
Proof.
  refine (proj1 (absence_hours_order_independent "A" "2025-04-28" _ _ _)).
  simpl. apply perm_swap.
Defined.
